(** * Tool-dispatch orchestration engine: a shallow embedding

    The development follows [agent_core.py] (the [LangGraphAgentExecutor]
    class: [initialize], [call_model], [execute_tools], [should_continue],
    [invoke]) and [mcp_helper.py] (the [MCPClient] class: [connect],
    [get_tools] with its nested [make_tool_wrapper]).

    Python values are modelled as the code has them: dictionaries are
    insertion-ordered association lists, JSON values are an inductive type,
    exceptions are values of an error monad, and every call that leaves the
    process (worker start, tool listing, tool invocation, the decision
    client, the log callback) is an oracle over an abstract world together
    with an event recorded in a trace. *)

From Stdlib Require Import List String Ascii ZArith Bool Lia DecimalString.
Import ListNotations.
Open Scope string_scope.

Set Implicit Arguments.
Set Warnings "-register-all".

(* ===================================================================== *)
(** ** Python values *)
(* ===================================================================== *)

(** A JSON value, as [json.loads] produces it (numbers are kept integral:
    no claim depends on fractional values). *)
Inductive json : Type :=
| JNull
| JBool (b : bool)
| JNum (z : Z)
| JStr (s : string)
| JArr (items : list json)
| JObj (members : list (string * json)).

(** Exceptions deriving from Python's [Exception] (what the handlers
    [except Exception] of the program catch): the class name and the text
    that [str(e)] returns. *)
Record exn : Type := mkExn { exc_class : string; exc_str : string }.

Inductive outcome (A : Type) : Type :=
| Ok (a : A)
| Raise (e : exn).
Arguments Ok {A} a.
Arguments Raise {A} e.

Module Py.

(** [dict]: insertion-ordered, as in Python 3.7+. *)
Definition dict (V : Type) : Type := list (string * V).

Fixpoint get {V} (d : dict V) (k : string) : option V :=
  match d with
  | [] => None
  | (k', v) :: d' => if String.eqb k' k then Some v else get d' k
  end.

(** [d[k] = v]: an existing key keeps its position, a new one goes last. *)
Fixpoint set {V} (d : dict V) (k : string) (v : V) : dict V :=
  match d with
  | [] => [(k, v)]
  | (k', v') :: d' =>
      if String.eqb k' k then (k', v) :: d' else (k', v') :: set d' k v
  end.

(** [d.get(k, dflt)] *)
Definition get_or {V} (d : dict V) (k : string) (dflt : V) : V :=
  match get d k with Some v => v | None => dflt end.

Definition keys {V} (d : dict V) : list string := map fst d.

(** [needle in haystack] on two [str]. *)
Fixpoint str_contains (needle haystack : string) : bool :=
  String.prefix needle haystack ||
  match haystack with
  | EmptyString => false
  | String _ rest => str_contains needle rest
  end.

(** [x in c] for a string [x] and a JSON container [c]; scalars are not
    iterable. *)
Definition contains (c : json) (x : string) : outcome bool :=
  match c with
  | JArr items =>
      Ok (existsb (fun v => match v with JStr s => String.eqb s x | _ => false end) items)
  | JObj members => Ok (existsb (fun kv => String.eqb (fst kv) x) members)
  | JStr s => Ok (str_contains x s)
  | _ => Raise (mkExn "TypeError" "argument is not iterable")
  end.

(** [o.get(k, dflt)] on a JSON value: only objects have [get]. *)
Definition json_get (o : json) (k : string) (dflt : json) : outcome json :=
  match o with
  | JObj members =>
      Ok (get_or members k dflt)
  | _ => Raise (mkExn "AttributeError" "object has no attribute 'get'")
  end.

(** [o.items()] on a JSON value. *)
Definition json_items (o : json) : outcome (list (string * json)) :=
  match o with
  | JObj members => Ok members
  | _ => Raise (mkExn "AttributeError" "object has no attribute 'items'")
  end.

(** [str(n)] for a non-negative [int]. *)
Definition str_nat (n : nat) : string := NilZero.string_of_uint (Nat.to_uint n).

(** [s[:n]]. *)
Definition str_take (n : nat) (s : string) : string := String.substring 0 n s.

Definition lower_ascii (c : ascii) : ascii :=
  let n := nat_of_ascii c in
  if (65 <=? n)%nat && (n <=? 90)%nat then ascii_of_nat (n + 32) else c.

(** [s.lower()] on ASCII text. *)
Fixpoint lower (s : string) : string :=
  match s with
  | EmptyString => EmptyString
  | String c rest => String (lower_ascii c) (lower rest)
  end.

(** [sep.join(parts)]. *)
Fixpoint join (sep : string) (parts : list string) : string :=
  match parts with
  | [] => ""
  | [p] => p
  | p :: rest => p ++ sep ++ join sep rest
  end.

End Py.

(** Sequencing in the pure error monad. *)
Definition obind {A B} (m : outcome A) (k : A -> outcome B) : outcome B :=
  match m with
  | Ok a => k a
  | Raise e => Raise e
  end.

Declare Scope outcome_scope.
Delimit Scope outcome_scope with outcome.
Notation "x <- m ;; k" :=
  (obind m (fun x => k))
    (at level 61, m at next level, right associativity) : outcome_scope.

(* ===================================================================== *)
(** ** mcp_helper.py: the argument contract built by [get_tools] *)
(* ===================================================================== *)

(** The Python types a declared property can be mapped to. *)
Inductive py_type : Type := PyStr | PyInt | PyFloat | PyBool | PyList | PyDict.

(** Second component of a pydantic field definition: [...] (required) or
    a default value. *)
Inductive field_default : Type :=
| Ellipsis
| Default (v : json).

(** Python's [None] as a default value. *)
Definition PyNone : field_default := Default JNull.

Definition field_spec : Type := (py_type * field_default)%type.

(** The [if]/[elif] chain on [field_type] (lines 50-60); [python_type]
    starts as [str] and any value that is not one of the five names,
    string or not, leaves it there. *)
Definition python_type_of (field_type : json) : py_type :=
  match field_type with
  | JStr s =>
      if String.eqb s "integer" then PyInt
      else if String.eqb s "number" then PyFloat
      else if String.eqb s "boolean" then PyBool
      else if String.eqb s "array" then PyList
      else if String.eqb s "object" then PyDict
      else PyStr
  | _ => PyStr
  end.

(** The loop [for field_name, field_def in properties.items()] (lines
    48-67), with [fields] as accumulator. *)
Fixpoint compile_fields (items : list (string * json)) (required : json)
  (fields : Py.dict field_spec) : outcome (Py.dict field_spec) :=
  match items with
  | [] => Ok fields
  | (field_name, field_def) :: rest =>
      (field_type <- Py.json_get field_def "type" (JStr "string") ;;
       let python_type := python_type_of field_type in
       is_required <- Py.contains required field_name ;;
       if is_required
       then compile_fields rest required (Py.set fields field_name (python_type, Ellipsis))
       else compile_fields rest required (Py.set fields field_name (python_type, PyNone)))%outcome
  end.

(** What [list_tools] reports for one tool. *)
Record tool_info : Type := mkToolInfo {
  info_name : string;
  info_description : string;
  inputSchema : Py.dict json
}.

(** The call [create_model(name, **fields)] of line 71, by its arguments:
    the class name and the field definitions the code passes.  What
    pydantic makes of them (the fields of the class it returns, the names
    it drops or refuses) is the library's and is not modelled: nothing
    below is stated about the fields of the class itself. *)
Record ArgsModel : Type := mkArgsModel {
  model_name : string;
  model_fields : Py.dict field_spec
}.

(** The closure [_tool_wrapper] returned by [make_tool_wrapper(tool_name)]:
    it captures [self] (the client, identified by its script path) and
    [tool_name]. *)
Record tool_wrapper : Type := mkWrapper {
  wrapper_client : string;
  wrapper_tool_name : string
}.

Definition make_tool_wrapper (self_path tool_name : string) : tool_wrapper :=
  mkWrapper self_path tool_name.

(** The tool requested on lines 80-86, by the keyword arguments of
    [StructuredTool.from_function]: [name], [description], [coroutine] and
    [args_schema].  The executor reads [name] and [coroutine] back (lines
    184 and 189), which the library keeps as given; [tool_description] and
    [args_schema] are what the code passes, not what the library stores
    (it normalises the description and infers a schema when given [None]),
    and nothing below is stated about the stored values. *)
Record StructuredTool : Type := mkTool {
  tool_name : string;
  tool_description : string;
  coroutine : tool_wrapper;
  args_schema : option ArgsModel
}.

(** Lines 43-46 and 69-73: the value bound to [ArgsModel], [None] when
    [fields] is empty and the [create_model] call otherwise.  The call is
    taken to return; an exception of pydantic's own is not modelled. *)
Definition compile_args_model (info : tool_info) : outcome (option ArgsModel) :=
  (let input_schema := inputSchema info in
   let properties := Py.get_or input_schema "properties" (JObj []) in
   let required := Py.get_or input_schema "required" (JArr []) in
   items <- Py.json_items properties ;;
   fields <- compile_fields items required [] ;;
   match fields with
   | [] => Ok None
   | _ :: _ => Ok (Some (mkArgsModel (info_name info ++ "Args") fields))
   end)%outcome.

(** Body of [for tool_info in result.tools] (lines 41-87).  The
    exceptions modelled are those of the code's own statements (the loop
    over the properties); [from_function] is taken to return. *)
Definition build_tool (self_path : string) (info : tool_info) : outcome StructuredTool :=
  (model <- compile_args_model info ;;
   Ok (mkTool (info_name info) (info_description info)
              (make_tool_wrapper self_path (info_name info)) model))%outcome.

Fixpoint build_tools (self_path : string) (infos : list tool_info)
  (tools : list StructuredTool) : outcome (list StructuredTool) :=
  match infos with
  | [] => Ok tools
  | info :: rest =>
      (lc_tool <- build_tool self_path info ;;
       build_tools self_path rest (tools ++ [lc_tool]))%outcome
  end.

(* ===================================================================== *)
(** ** agent_core.py: messages *)
(* ===================================================================== *)

(** One entry of [AIMessage.tool_calls]. *)
Record ToolCall : Type := mkToolCall {
  call_name : string;
  call_args : Py.dict json;
  call_id : string
}.

(** Message content is a string or a list of parts, each a string or a
    dictionary (the two shapes [invoke] inspects, lines 237-248). *)
Inductive content_part : Type :=
| PartStr (s : string)
| PartDict (d : Py.dict json).

Inductive Content : Type :=
| CStr (s : string)
| CList (parts : list content_part).

Record AIMessage : Type := mkAIMessage {
  ai_content : Content;
  tool_calls : list ToolCall
}.

(** [ToolMessage(tool_call_id=..., name=..., content=...)]. *)
Record ToolMessage : Type := mkToolMessage {
  tool_call_id : string;
  tool_message_name : string;
  tool_message_content : Content
}.

Inductive BaseMessage : Type :=
| SystemMessage (content : string)
| HumanMessage (content : string)
| AI (m : AIMessage)
| Tool (m : ToolMessage).

Definition message_content (m : BaseMessage) : Content :=
  match m with
  | SystemMessage c => CStr c
  | HumanMessage c => CStr c
  | AI a => ai_content a
  | Tool t => tool_message_content t
  end.

(** [l[-1]]. *)
Fixpoint last_message (l : list BaseMessage) : option BaseMessage :=
  match l with
  | [] => None
  | [m] => Some m
  | _ :: rest => last_message rest
  end.

(* ===================================================================== *)
(** ** The outside world *)
(* ===================================================================== *)

(** Everything the process does to its environment, in order. *)
Inductive event : Type :=
| EvLog (msg : string)
| EvConnect (path : string)
| EvListTools (path : string)
| EvCallTool (path tool : string) (arguments : Py.dict json)
| EvModel (bound_tools : list StructuredTool) (messages : list BaseMessage).

(** The external collaborators.  Each oracle reads and updates an abstract
    world, so workers and the decision client may answer differently from
    one call to the next; [Raise] is an exception raised by the call. *)
Record Env (World CallToolResult : Type) : Type := mkEnv {
  (** [os.path.abspath] *)
  abspath : string -> string;
  (** [MCPClient.connect]: spawn the worker and shake hands *)
  worker_connect : string -> World -> World * outcome unit;
  (** [session.list_tools()] *)
  worker_list_tools : string -> World -> World * outcome (list tool_info);
  (** [session.call_tool(name, arguments=...)] *)
  worker_call_tool : string -> string -> Py.dict json -> World -> World * outcome CallToolResult;
  (** [self.llm.ainvoke(messages)], the model bound to a tool list *)
  model_ainvoke : list StructuredTool -> list BaseMessage -> World -> World * outcome AIMessage;
  (** [str] of a worker's result object *)
  str_result : CallToolResult -> string;
  (** how an f-string renders an argument dictionary *)
  repr_args : Py.dict json -> string;
  (** the graph runtime's bound on node executions per [ainvoke]: a run
      that makes this many raises, whatever its last node returned *)
  recursion_limit : nat;
  (** the module constant [SYSTEM_PROMPT] *)
  SYSTEM_PROMPT : string
}.

(** [MCPClient]: [session] is [None] until [connect] succeeds.  The
    write-only attribute [_tools_cache] is left out. *)
Record MCPClient : Type := mkClient {
  server_script_path : string;
  session : bool
}.

(** The attributes of a [LangGraphAgentExecutor]. *)
Record Agent : Type := mkAgent {
  app : bool;
  mcp_clients : list MCPClient;
  tools : list StructuredTool;
  llm_tools : list StructuredTool;
  conversation_history : list BaseMessage
}.

(** What a tool call leaves in the variable [output]: a worker's result
    object or one of the two error strings. *)
Inductive tool_output (CallToolResult : Type) : Type :=
| OutResult (r : CallToolResult)
| OutStr (s : string).
Arguments OutResult {CallToolResult} r.
Arguments OutStr {CallToolResult} s.

Definition server_files : list string :=
  ["computer_info_server.py"; "security_server.py"; "maintenance_server.py"].

Definition newline : string := String (ascii_of_nat 10) EmptyString.

(* ===================================================================== *)
(** ** A state and exception monad for the stateful code *)
(* ===================================================================== *)

(** The mutable state: the world, the executor object, the trace. *)
Record St (World : Type) : Type := mkSt {
  world : World;
  self : Agent;
  trace : list event
}.

(** Computations that read and write the state and may raise. *)
Definition M (World A : Type) : Type := St World -> St World * outcome A.

Definition ret {World A} (a : A) : M World A := fun s => (s, Ok a).

Definition raise {World A} (e : exn) : M World A := fun s => (s, Raise e).

Definition bind {World A B} (m : M World A) (k : A -> M World B) : M World B :=
  fun s => match m s with
           | (s', Ok a) => k a s'
           | (s', Raise e) => (s', Raise e)
           end.

(** [try: m  except Exception as e: handler e]; what [m] did to the state
    before raising stays done. *)
Definition try_except {World A} (m : M World A) (handler : exn -> M World A) : M World A :=
  fun s => match m s with
           | (s', Ok a) => (s', Ok a)
           | (s', Raise e) => handler e s'
           end.

Definition emit {World} (ev : event) : M World unit :=
  fun s => (mkSt (world s) (self s) (trace s ++ [ev]), Ok tt).

(** A call to an oracle of the environment, recorded as [ev]. *)
Definition external {World A} (ev : event) (oracle : World -> World * outcome A) : M World A :=
  fun s => let (w', r) := oracle (world s) in
           (mkSt w' (self s) (trace s ++ [ev]), r).

Definition get_self {World} : M World Agent := fun s => (s, Ok (self s)).

Definition set_self {World} (a : Agent) : M World unit :=
  fun s => (mkSt (world s) a (trace s), Ok tt).

Definition lift {World A} (r : outcome A) : M World A := fun s => (s, r).

Declare Scope M_scope.
Delimit Scope M_scope with M.
Notation "x <- m ;; k" :=
  (bind m (fun x => k))
    (at level 61, m at next level, right associativity) : M_scope.
Notation "m ;; k" :=
  (bind m (fun _ => k))
    (at level 61, right associativity) : M_scope.

Section Engine.

Variables World CallToolResult : Type.
Variable env : Env World CallToolResult.

Local Open Scope M_scope.

(** [self.log_callback(msg)] *)
Definition log_callback (msg : string) : M World unit := emit (EvLog msg).

(* --------------------------------------------------------------------- *)
(** *** mcp_helper.py: [MCPClient] *)

(** [connect] (lines 19-32): on success the session is set. *)
Definition connect (client : MCPClient) : M World MCPClient :=
  let path := server_script_path client in
  _ <- external (EvConnect path) (worker_connect env path) ;;
  ret (mkClient path true).

(** [get_tools] (lines 34-90). *)
Definition get_tools (client : MCPClient) : M World (list StructuredTool) :=
  let path := server_script_path client in
  if negb (session client)
  then raise (mkExn "RuntimeError" "Client not connected")
  else
    result <- external (EvListTools path) (worker_list_tools env path) ;;
    lift (build_tools path result []).

(** [_tool_wrapper] (lines 76-77): the keyword arguments it is called
    with are collected into [kwargs] and handed to [call_tool] as they
    are. *)
Definition _tool_wrapper (w : tool_wrapper) (kwargs : Py.dict json) : M World CallToolResult :=
  external (EvCallTool (wrapper_client w) (wrapper_tool_name w) kwargs)
           (worker_call_tool env (wrapper_client w) (wrapper_tool_name w) kwargs).

(* --------------------------------------------------------------------- *)
(** *** agent_core.py: [LangGraphAgentExecutor] *)

(** [LangGraphAgentExecutor.__init__] (lines 79-84). *)
Definition new_agent : Agent :=
  mkAgent false [] [] [] [SystemMessage (SYSTEM_PROMPT env)].

(** [self.mcp_clients.append(client)] *)
Definition append_client (a : Agent) (client : MCPClient) : Agent :=
  mkAgent (app a) (mcp_clients a ++ [client]) (tools a) (llm_tools a)
          (conversation_history a).

(** Body of the loop over [server_files] (lines 98-107); [tools] is the
    list being extended. *)
Definition connect_server (server_file : string) (tools : list StructuredTool)
  : M World (list StructuredTool) :=
  let full_path := abspath env server_file in
  let client := mkClient full_path false in
  try_except
    (client <- connect client ;;
     a <- get_self ;;
     set_self (append_client a client) ;;
     server_tools <- get_tools client ;;
     let tools := (tools ++ server_tools)%list in
     log_callback ("[System] Connected to " ++ server_file ++ " ("
                   ++ Py.str_nat (List.length server_tools) ++ " tools)") ;;
     ret tools)
    (fun e =>
       log_callback ("[Error] Failed to connect to " ++ server_file ++ ": " ++ exc_str e) ;;
       ret tools).

Fixpoint connect_servers (files : list string) (tools : list StructuredTool)
  : M World (list StructuredTool) :=
  match files with
  | [] => ret tools
  | server_file :: rest =>
      tools <- connect_server server_file tools ;;
      connect_servers rest tools
  end.

(** [initialize] (lines 86-140).  Compiling the graph is recorded by
    setting [app]; the graph itself is [run_graph] below. *)
Definition initialize : M World unit :=
  log_callback "[System] Connecting to MCP Servers..." ;;
  tools <- connect_servers server_files [] ;;
  a <- get_self ;;
  set_self (mkAgent true (mcp_clients a) tools tools (conversation_history a)) ;;
  log_callback "[System] Agent initialized with MCP tools.".

(** [call_model] (lines 142-146): the update it returns. *)
Definition call_model (messages : list BaseMessage) : M World (list BaseMessage) :=
  log_callback ("[LangGraph] Invoking model with "
                ++ Py.str_nat (List.length messages) ++ " messages") ;;
  a <- get_self ;;
  response <- external (EvModel (llm_tools a) messages)
                       (model_ainvoke env (llm_tools a) messages) ;;
  ret [AI response].

Definition py_str (output : tool_output CallToolResult) : string :=
  match output with
  | OutResult r => str_result env r
  | OutStr s => s
  end.

(** [next((t for t in self.tools if t.name == tool_name), None)] *)
Definition select_tool (tools : list StructuredTool) (name : string) : option StructuredTool :=
  find (fun t => String.eqb (tool_name t) name) tools.

(** Body of the loop over [tool_calls] (lines 154-199). *)
Definition execute_tool_call (tool_call : ToolCall) : M World ToolMessage :=
  let tool_name := call_name tool_call in
  let tool_args := call_args tool_call in
  let tool_id := call_id tool_call in
  log_callback ("[MCP] Executing tool: " ++ tool_name ++ " with args: "
                ++ repr_args env tool_args) ;;
  output <- try_except
    (a <- get_self ;;
     let selected_tool := select_tool (tools a) tool_name in
     output <- match selected_tool with
               | Some t =>
                   r <- _tool_wrapper (coroutine t) tool_args ;;
                   ret (OutResult r)
               | None => ret (OutStr ("Error: Tool " ++ tool_name ++ " not found."))
               end ;;
     log_callback ("[MCP] Tool Output: " ++ Py.str_take 100 (py_str output) ++ "...") ;;
     ret output)
    (fun e =>
       let output := OutStr ("Error executing tool " ++ tool_name ++ ": " ++ exc_str e) in
       log_callback ("[MCP] Error: " ++ exc_str e) ;;
       ret output) ;;
  ret (mkToolMessage tool_id tool_name (CStr (py_str output))).

Fixpoint execute_tool_calls (tool_calls : list ToolCall) (results : list BaseMessage)
  : M World (list BaseMessage) :=
  match tool_calls with
  | [] => ret results
  | tool_call :: rest =>
      result <- execute_tool_call tool_call ;;
      execute_tool_calls rest (results ++ [Tool result])
  end.

Definition no_tool_calls : exn :=
  mkExn "AttributeError" "object has no attribute 'tool_calls'".

Definition no_last_message : exn := mkExn "IndexError" "list index out of range".

(** [execute_tools] (lines 148-201): the update it returns. *)
Definition execute_tools (messages : list BaseMessage) : M World (list BaseMessage) :=
  match last_message messages with
  | Some (AI m) => execute_tool_calls (tool_calls m) []
  | Some _ => raise no_tool_calls
  | None => raise no_last_message
  end.

(** [should_continue] (lines 203-208): [true] is ["continue"]. *)
Definition should_continue (messages : list BaseMessage) : M World bool :=
  match last_message messages with
  | Some (AI m) =>
      match tool_calls m with
      | [] => ret false
      | _ :: _ =>
          log_callback ("[LangGraph] Tool calls detected: "
                        ++ Py.str_nat (List.length (tool_calls m))) ;;
          ret true
      end
  | Some _ => raise no_tool_calls
  | None => raise no_last_message
  end.

(** The two nodes of the graph built in [initialize] (lines 121-137). *)
Inductive node : Type := agent_node | tools_node.

Definition recursion_error : exn :=
  mkExn "GraphRecursionError" "Recursion limit reached without hitting a stop condition".

(** The compiled graph: entry point [agent], the conditional edge out of
    [agent] decided by [should_continue], the edge from [tools] back to
    [agent], and the [operator.add] reducer that appends each node's update
    to the state's [messages].  [fuel] is what is left of the recursion
    limit: the runtime checks it after every node execution, before it
    looks whether the graph has reached [END], so the run raises after the
    last allowed execution also when that one gave the final answer. *)
Fixpoint run_graph (fuel : nat) (n : node) (messages : list BaseMessage)
  : M World (list BaseMessage) :=
  match fuel with
  | O => raise recursion_error
  | S fuel =>
      match n with
      | agent_node =>
          update <- call_model messages ;;
          let messages := (messages ++ update)%list in
          continue <- should_continue messages ;;
          if continue : bool then run_graph fuel tools_node messages
          else match fuel with
               | O => raise recursion_error
               | S _ => ret messages
               end
      | tools_node =>
          update <- execute_tools messages ;;
          run_graph fuel agent_node (messages ++ update)
      end
  end.

(** [self.app.ainvoke(initial_state)] *)
Definition ainvoke (initial_state : list BaseMessage) : M World (list BaseMessage) :=
  run_graph (recursion_limit env) agent_node initial_state.

Definition join_error : exn :=
  mkExn "TypeError" "sequence item: expected str instance".

(** The loop over the parts of a list content (lines 238-243); a part's
    ['text'] can be any value. *)
Fixpoint collect_text_parts (parts : list content_part) : list json :=
  match parts with
  | [] => []
  | PartDict d :: rest =>
      match Py.get d "text" with
      | Some v => v :: collect_text_parts rest
      | None => collect_text_parts rest
      end
  | PartStr s :: rest => JStr s :: collect_text_parts rest
  end.

(** The strings of [text_parts], when all of them are strings. *)
Fixpoint all_str (text_parts : list json) : outcome (list string) :=
  match text_parts with
  | [] => Ok []
  | JStr s :: rest => (strs <- all_str rest ;; Ok (s :: strs))%outcome
  | _ :: _ => Raise join_error
  end.

(** Lines 234-248; the last branch, [str(content)], is for content that
    is neither a list nor a string, which [Content] does not have. *)
Definition output_text_of (content : Content) : outcome string :=
  match content with
  | CList parts =>
      (strs <- all_str (collect_text_parts parts) ;; Ok (Py.join newline strs))%outcome
  | CStr s => Ok s
  end.

Definition model_not_found_text (e : exn) : string :=
  "Error: Model 'gemini-2.5-flash' not found. Please check your API key or model name."
  ++ newline ++ "Details: " ++ exc_str e.

(** The [try] block of [invoke] (lines 224-250). *)
Definition invoke_try (initial_state : list BaseMessage) : M World string :=
  final_state <- ainvoke initial_state ;;
  last <- match last_message final_state with
          | Some m => ret m
          | None => raise no_last_message
          end ;;
  a <- get_self ;;
  let new_messages := skipn (List.length (conversation_history a)) final_state in
  set_self (mkAgent (app a) (mcp_clients a) (tools a) (llm_tools a)
                    (conversation_history a ++ new_messages)) ;;
  output_text <- lift (output_text_of (message_content last)) ;;
  ret output_text.

(** The [except] block of [invoke] (lines 251-255). *)
Definition invoke_except (e : exn) : M World string :=
  log_callback ("[Error] LangGraph Error: " ++ exc_str e) ;;
  if Py.str_contains "404" (exc_str e)
     || Py.str_contains "not found" (Py.lower (exc_str e))
  then ret (model_not_found_text e)
  else ret ("An error occurred: " ++ exc_str e).

(** [invoke] (lines 210-255); the result is the value under ["output"]. *)
Definition invoke (inputs : Py.dict string) : M World string :=
  a <- get_self ;;
  (if app a then ret tt else initialize) ;;
  let user_input := Py.get_or inputs "input" "" in
  log_callback ("[LangGraph] Processing: " ++ user_input) ;;
  a <- get_self ;;
  set_self (mkAgent (app a) (mcp_clients a) (tools a) (llm_tools a)
                    (conversation_history a ++ [HumanMessage user_input])) ;;
  a <- get_self ;;
  let initial_state := conversation_history a in
  try_except (invoke_try initial_state) invoke_except.

End Engine.

Arguments log_callback {World} msg _.
Arguments select_tool tools name : simpl never.

(* ===================================================================== *)
(** ** Vocabulary of the specification *)
(* ===================================================================== *)

(** The histories the decision client was queried with, oldest first. *)
Fixpoint model_queries (evs : list event) : list (list BaseMessage) :=
  match evs with
  | [] => []
  | EvModel _ messages :: rest => messages :: model_queries rest
  | _ :: rest => model_queries rest
  end.

(** The worker invocations, oldest first. *)
Fixpoint tool_invocations (evs : list event) : list (string * string * Py.dict json) :=
  match evs with
  | [] => []
  | EvCallTool path tool arguments :: rest => (path, tool, arguments) :: tool_invocations rest
  | _ :: rest => tool_invocations rest
  end.

(** Reading a history from the left with the call ids still waiting for
    their result: an assistant message opens the ids of its tool calls, a
    tool message must answer the oldest open id, and nothing else may come
    while ids are open.  [None]: the history is ill-formed. *)
Fixpoint unresolved_calls (pending : list string) (history : list BaseMessage)
  : option (list string) :=
  match history with
  | [] => Some pending
  | m :: rest =>
      match pending, m with
      | [], AI a => unresolved_calls (map call_id (tool_calls a)) rest
      | [], Tool _ => None
      | [], _ => unresolved_calls [] rest
      | id :: pending', Tool t =>
          if String.eqb id (tool_call_id t) then unresolved_calls pending' rest else None
      | _ :: _, _ => None
      end
  end.

(** Every tool call of the history has its result, right after the
    assistant message that asked for it and in the order asked. *)
Definition resolved (history : list BaseMessage) : Prop :=
  unresolved_calls [] history = Some [].

(** Messages a turn produces: assistant responses and observations. *)
Definition is_turn_message (m : BaseMessage) : bool :=
  match m with
  | AI _ | Tool _ => true
  | SystemMessage _ | HumanMessage _ => false
  end.

(** An observation's content is a string. *)
Definition observation_is_str (m : BaseMessage) : bool :=
  match m with
  | Tool t => match tool_message_content t with CStr _ => true | CList _ => false end
  | _ => true
  end.

(** How the code flags a failed call: the observation's text starts with
    ["Error"] (both error texts of [execute_tools] do; [ToolMessage] is
    given no other mark). *)
Definition is_error (result : ToolMessage) : bool :=
  match tool_message_content result with
  | CStr text => String.prefix "Error" text
  | CList _ => false
  end.

(** [l1] is an initial segment of [l2]. *)
Definition prefix_of {A} (l1 l2 : list A) : Prop := exists rest, l2 = (l1 ++ rest)%list.

(** What a sequence of requests adds to the history: per request, the
    user's message followed by that turn's messages. *)
Inductive turns_appended : list string -> list BaseMessage -> Prop :=
| turns_nil : turns_appended [] []
| turns_cons user_input inputs new_messages rest :
    forallb is_turn_message new_messages = true ->
    turns_appended inputs rest ->
    turns_appended (user_input :: inputs) (HumanMessage user_input :: new_messages ++ rest)%list.

(** What holds of the messages when the graph is about to run a node:
    before [agent] every call has its result; before [tools] the calls of
    the last assistant message, and only those, are waiting. *)
Definition node_ready (n : node) (messages : list BaseMessage) : Prop :=
  match n with
  | agent_node => resolved messages
  | tools_node =>
      exists m, last_message messages = Some (AI m) /\
                unresolved_calls [] messages = Some (map call_id (tool_calls m))
  end.

(** A step of session setup: of the executor object only [mcp_clients]
    may change, and the trace grows by events that are neither model
    queries nor tool invocations. *)
Definition setup_step {World} (s s' : St World) : Prop :=
  app (self s') = app (self s) /\
  tools (self s') = tools (self s) /\
  llm_tools (self s') = llm_tools (self s) /\
  conversation_history (self s') = conversation_history (self s) /\
  exists evs, trace s' = (trace s ++ evs)%list /\
              model_queries evs = [] /\ tool_invocations evs = [].

(** The worker invocations a turn's calls stand for: one per call whose
    name selects a tool, in the order of the calls. *)
Definition invocations_of (tools : list StructuredTool) (tool_calls : list ToolCall)
  : list (string * string * Py.dict json) :=
  flat_map (fun tool_call =>
              match select_tool tools (call_name tool_call) with
              | Some t => [(wrapper_client (coroutine t), wrapper_tool_name (coroutine t),
                            call_args tool_call)]
              | None => []
              end)
           tool_calls.

(** A required field of the contract that the arguments do not give. *)
Definition missing_required (model : ArgsModel) (arguments : Py.dict json) : bool :=
  existsb (fun field =>
             match snd (snd field), Py.get arguments (fst field) with
             | Ellipsis, None => true
             | _, _ => false
             end)
          (model_fields model).


Section Session.

Variables World CallToolResult : Type.
Variable env : Env World CallToolResult.

Local Open Scope M_scope.

(** The caller of [invoke] ([bot_response] in app.py) submitting one user
    text after the other; the outputs are collected. *)
Fixpoint submit_all (user_inputs : list string) : M World (list string) :=
  match user_inputs with
  | [] => ret []
  | user_input :: rest =>
      output <- invoke env [("input", user_input)] ;;
      outputs <- submit_all rest ;;
      ret (output :: outputs)
  end.

(** The observation [execute_tool_call] builds from what is in [output]. *)
Definition observation (tool_call : ToolCall) (text : string) : ToolMessage :=
  mkToolMessage (call_id tool_call) (call_name tool_call) (CStr text).

Definition executing_line (tool_call : ToolCall) : event :=
  EvLog ("[MCP] Executing tool: " ++ call_name tool_call ++ " with args: "
         ++ repr_args env (call_args tool_call)).

Definition output_line (text : string) : event :=
  EvLog ("[MCP] Tool Output: " ++ Py.str_take 100 text ++ "...").

Definition not_found_text (tool_call : ToolCall) : string :=
  "Error: Tool " ++ call_name tool_call ++ " not found.".

Definition failure_text (tool_call : ToolCall) (e : exn) : string :=
  "Error executing tool " ++ call_name tool_call ++ ": " ++ exc_str e.

(** The three ways one tool call ends, as a relation between the state
    before, the state after and the observation. *)
Inductive call_runs (tool_call : ToolCall) (s : St World) : St World -> ToolMessage -> Prop :=
| call_not_found :
    select_tool (tools (self s)) (call_name tool_call) = None ->
    call_runs tool_call s
      (mkSt (world s) (self s)
            (trace s ++ [executing_line tool_call; output_line (not_found_text tool_call)]))
      (observation tool_call (not_found_text tool_call))
| call_returns t w' r :
    select_tool (tools (self s)) (call_name tool_call) = Some t ->
    worker_call_tool env (wrapper_client (coroutine t)) (wrapper_tool_name (coroutine t))
                     (call_args tool_call) (world s) = (w', Ok r) ->
    call_runs tool_call s
      (mkSt w' (self s)
            (trace s ++ [executing_line tool_call;
                         EvCallTool (wrapper_client (coroutine t))
                                    (wrapper_tool_name (coroutine t)) (call_args tool_call);
                         output_line (str_result env r)]))
      (observation tool_call (str_result env r))
| call_raises t w' e :
    select_tool (tools (self s)) (call_name tool_call) = Some t ->
    worker_call_tool env (wrapper_client (coroutine t)) (wrapper_tool_name (coroutine t))
                     (call_args tool_call) (world s) = (w', Raise e) ->
    call_runs tool_call s
      (mkSt w' (self s)
            (trace s ++ [executing_line tool_call;
                         EvCallTool (wrapper_client (coroutine t))
                                    (wrapper_tool_name (coroutine t)) (call_args tool_call);
                         EvLog ("[MCP] Error: " ++ exc_str e)]))
      (observation tool_call (failure_text tool_call e)).

(** The calls of one turn, run in order. *)
Inductive calls_run : list ToolCall -> St World -> St World -> list ToolMessage -> Prop :=
| calls_nil s : calls_run [] s s []
| calls_cons tool_call rest s s1 s2 result results :
    call_runs tool_call s s1 result ->
    calls_run rest s1 s2 results ->
    calls_run (tool_call :: rest) s s2 (result :: results).

(** What [invoke] leaves behind, relative to the history [before] it
    appended the user's message to. *)
Definition turn_recorded (before : list BaseMessage) (user_input : string)
  (s s' : St World) : Prop :=
  exists new evs,
    conversation_history (self s') = (before ++ HumanMessage user_input :: new)%list /\
    forallb is_turn_message new = true /\
    forallb observation_is_str new = true /\
    trace s' = (trace s ++ evs)%list /\
    Forall (prefix_of (before ++ [HumanMessage user_input])) (model_queries evs) /\
    (resolved before ->
     resolved (before ++ HumanMessage user_input :: new) /\
     Forall resolved (model_queries evs)).

(** What one configured worker adds to the tool list, from the world it
    is started in. *)
Inductive server_contributes (server_file : string) (w : World)
  : list StructuredTool -> Prop :=
| contributes_tools w1 w2 infos server_tools :
    worker_connect env (abspath env server_file) w = (w1, Ok tt) ->
    worker_list_tools env (abspath env server_file) w1 = (w2, Ok infos) ->
    build_tools (abspath env server_file) infos [] = Ok server_tools ->
    server_contributes server_file w server_tools
| connect_fails w1 e :
    worker_connect env (abspath env server_file) w = (w1, Raise e) ->
    server_contributes server_file w []
| list_tools_fails w1 w2 e :
    worker_connect env (abspath env server_file) w = (w1, Ok tt) ->
    worker_list_tools env (abspath env server_file) w1 = (w2, Raise e) ->
    server_contributes server_file w []
| schema_fails w1 w2 infos e :
    worker_connect env (abspath env server_file) w = (w1, Ok tt) ->
    worker_list_tools env (abspath env server_file) w1 = (w2, Ok infos) ->
    build_tools (abspath env server_file) infos [] = Raise e ->
    server_contributes server_file w [].

(** The worker's start fails in every world. *)
Definition start_fails (server_file : string) : Prop :=
  forall w, exists w' e, worker_connect env (abspath env server_file) w = (w', Raise e).

(** The worker starts in every world and always lists [infos]. *)
Definition serves (server_file : string) (infos : list tool_info) : Prop :=
  (forall w, exists w', worker_connect env (abspath env server_file) w = (w', Ok tt)) /\
  (forall w, exists w', worker_list_tools env (abspath env server_file) w = (w', Ok infos)).

End Session.

(* ===================================================================== *)
(** ** A concrete deployment *)
(* ===================================================================== *)

(** Three workers as [initialize] configures them, a scripted decision
    client, and a world that counts the tool invocations.  The worker
    results are plain strings. *)
Module Demo.

Definition abspath (server_file : string) : string := "/srv/" ++ server_file.

Definition object_schema (properties : list (string * json)) (required : list json)
  : Py.dict json :=
  [("properties", JObj properties); ("required", JArr required); ("type", JStr "object")].

Definition get_cpu_info : tool_info :=
  mkToolInfo "get_cpu_info" "Get CPU information." (object_schema [] []).

Definition get_open_ports : tool_info :=
  mkToolInfo "get_open_ports" "List listening ports." (object_schema [] []).

(** [get_heavy_processes(count: int = 5)] of maintenance_server.py, with
    the default its schema declares. *)
Definition get_heavy_processes : tool_info :=
  mkToolInfo "get_heavy_processes" "Processes using the most memory."
    (object_schema
       [("count", JObj [("default", JNum 5); ("title", JStr "Count");
                        ("type", JStr "integer")])]
       []).

(** A tool with a required integer parameter. *)
Definition kill_process : tool_info :=
  mkToolInfo "kill_process" "Terminate a process."
    (object_schema [("pid", JObj [("title", JStr "Pid"); ("type", JStr "integer")])]
                   [JStr "pid"]).

Definition get_active_connections : tool_info :=
  mkToolInfo "get_active_connections" "List active connections." (object_schema [] []).

Definition spawn_failed : exn := mkExn "ConnectionError" "worker did not start".

Definition timed_out : exn := mkExn "TimeoutError" "timed out".

(** The security worker does not start. *)
Definition connect (path : string) (w : nat) : nat * outcome unit :=
  if String.eqb path (abspath "security_server.py")
  then (w, Raise spawn_failed)
  else (w, Ok tt).

Definition list_tools (path : string) (w : nat) : nat * outcome (list tool_info) :=
  if String.eqb path (abspath "computer_info_server.py") then (w, Ok [get_cpu_info])
  else if String.eqb path (abspath "maintenance_server.py")
       then (w, Ok [get_heavy_processes; kill_process])
       else (w, Ok [get_open_ports]).

(** [get_cpu_info] times out; every other tool answers. *)
Definition call_tool (path tool : string) (arguments : Py.dict json) (w : nat)
  : nat * outcome string :=
  if String.eqb tool "get_cpu_info"
  then (S w, Raise timed_out)
  else (S w, Ok ("ok: " ++ tool)).

Definition cpu_call : ToolCall := mkToolCall "get_cpu_info" [] "call_1".

(** [verbose] is not a declared parameter of [get_heavy_processes]. *)
Definition heavy_call : ToolCall :=
  mkToolCall "get_heavy_processes" [("count", JNum 3); ("verbose", JBool true)] "call_2".

(** No worker declares [reboot]. *)
Definition reboot_call : ToolCall := mkToolCall "reboot" [] "call_3".

(** [kill_process] without its required [pid]. *)
Definition kill_call : ToolCall := mkToolCall "kill_process" [] "call_4".

(** [get_heavy_processes] with text where an integer is declared. *)
Definition five_call : ToolCall :=
  mkToolCall "get_heavy_processes" [("count", JStr "five")] "call_5".

Definition request : AIMessage :=
  mkAIMessage (CStr "") [cpu_call; heavy_call; reboot_call].

Definition answer : AIMessage := mkAIMessage (CStr "System is very clean.") [].

(** Asks for tools after a user message, answers after observations. *)
Definition model (bound : list StructuredTool) (messages : list BaseMessage) (w : nat)
  : nat * outcome AIMessage :=
  match last_message messages with
  | Some (HumanMessage _) => (w, Ok request)
  | _ => (w, Ok answer)
  end.

Definition env : Env nat string :=
  mkEnv abspath connect list_tools call_tool model
        (fun r => r) (fun _ => "{...}") 25 "You are 'Local Security Auditor'.".

Definition start : St nat := mkSt 0 (new_agent env) [].

(** The state after [initialize]. *)
Definition ready : St nat := fst (initialize env start).

(** A deployment in which two workers declare the same tool name. *)
Definition list_tools_dup (path : string) (w : nat) : nat * outcome (list tool_info) :=
  if String.eqb path (abspath "maintenance_server.py") then (w, Ok [get_heavy_processes])
  else (w, Ok [get_active_connections]).

Definition env_dup : Env nat string :=
  mkEnv abspath (fun _ w => (w, Ok tt)) list_tools_dup call_tool model
        (fun r => r) (fun _ => "{...}") 25 "You are 'Local Security Auditor'.".

Definition start_dup : St nat := mkSt 0 (new_agent env_dup) [].

(** The tools [get_tools] builds from the infos above. *)
Definition cpu_tool : StructuredTool :=
  mkTool "get_cpu_info" "Get CPU information."
         (mkWrapper (abspath "computer_info_server.py") "get_cpu_info") None.

Definition heavy_tool : StructuredTool :=
  mkTool "get_heavy_processes" "Processes using the most memory."
         (mkWrapper (abspath "maintenance_server.py") "get_heavy_processes")
         (Some (mkArgsModel "get_heavy_processesArgs" [("count", (PyInt, PyNone))])).

Definition kill_model : ArgsModel := mkArgsModel "kill_processArgs" [("pid", (PyInt, Ellipsis))].

Definition kill_tool : StructuredTool :=
  mkTool "kill_process" "Terminate a process."
         (mkWrapper (abspath "maintenance_server.py") "kill_process") (Some kill_model).

Definition connections_tool (server_file : string) : StructuredTool :=
  mkTool "get_active_connections" "List active connections."
         (mkWrapper (abspath server_file) "get_active_connections") None.

(** A turn in which the failing call is between two others. *)
Definition request_mid : AIMessage :=
  mkAIMessage (CStr "") [heavy_call; cpu_call; reboot_call].

Definition asked : list BaseMessage :=
  [SystemMessage "You are 'Local Security Auditor'."; HumanMessage "check my pc"; AI request].

Definition asked_mid : list BaseMessage :=
  [SystemMessage "You are 'Local Security Auditor'."; HumanMessage "check my pc";
   AI request_mid].

End Demo.

(* ===================================================================== *)
(** ** The rest of the program *)
(* ===================================================================== *)

(** *** More vocabulary *)

(** The workers started, oldest first. *)
Fixpoint worker_starts (evs : list event) : list string :=
  match evs with
  | [] => []
  | EvConnect path :: rest => path :: worker_starts rest
  | _ :: rest => worker_starts rest
  end.

(** The workers asked for their tools, oldest first. *)
Fixpoint worker_listings (evs : list event) : list string :=
  match evs with
  | [] => []
  | EvListTools path :: rest => path :: worker_listings rest
  | _ :: rest => worker_listings rest
  end.

(** The catalogues the model was queried with, oldest first. *)
Fixpoint bound_catalogues (evs : list event) : list (list StructuredTool) :=
  match evs with
  | [] => []
  | EvModel bound _ :: rest => bound :: bound_catalogues rest
  | _ :: rest => bound_catalogues rest
  end.

(** What the log callback received, oldest first (app.py keeps it in
    [LOGS]). *)
Fixpoint log_lines (evs : list event) : list string :=
  match evs with
  | [] => []
  | EvLog msg :: rest => msg :: log_lines rest
  | _ :: rest => log_lines rest
  end.

(** The line [initialize] logs for a worker that started and listed its
    tools (line 105). *)
Definition connected_line (server_file : string) (server_tools : list StructuredTool) : string :=
  "[System] Connected to " ++ server_file ++ " ("
  ++ Py.str_nat (List.length server_tools) ++ " tools)".

(** The tool calls the assistant messages of a history ask for, in order. *)
Fixpoint requested_calls (messages : list BaseMessage) : list ToolCall :=
  match messages with
  | [] => []
  | AI m :: rest => (tool_calls m ++ requested_calls rest)%list
  | _ :: rest => requested_calls rest
  end.

(** The calls waiting when the graph is about to run a node. *)
Definition waiting_calls (n : node) (messages : list BaseMessage) : list ToolCall :=
  match n with
  | agent_node => []
  | tools_node =>
      match last_message messages with
      | Some (AI m) => tool_calls m
      | _ => []
      end
  end.

(** The state in which [invoke] enters its [try] block on an initialized
    executor: the request is logged and the user's message appended. *)
Definition submitted {World} (s : St World) (user_input : string) : St World :=
  mkSt (world s)
       (mkAgent (app (self s)) (mcp_clients (self s)) (tools (self s)) (llm_tools (self s))
                (conversation_history (self s) ++ [HumanMessage user_input]))
       (trace s ++ [EvLog ("[LangGraph] Processing: " ++ user_input)]).

(** The output [invoke] gives for an exception of the graph. *)
Definition reported_error (e : exn) : string :=
  if Py.str_contains "404" (exc_str e)
     || Py.str_contains "not found" (Py.lower (exc_str e))
  then model_not_found_text e
  else "An error occurred: " ++ exc_str e.

(** The executor's setup is the same in two states: the compiled graph,
    the registered clients, the tool list and the bound catalogue. *)
Definition same_setup (a a' : Agent) : Prop :=
  app a' = app a /\
  mcp_clients a' = mcp_clients a /\
  tools a' = tools a /\
  llm_tools a' = llm_tools a.

(** Events of a request on an initialized executor: no worker is started
    or asked for its tools, and every model query is made with the
    catalogue [bound]. *)
Definition request_events (bound : list StructuredTool) (evs : list event) : Prop :=
  worker_starts evs = [] /\
  worker_listings evs = [] /\
  Forall (eq bound) (bound_catalogues evs).

(** Every property definition is an object. *)
Definition definitions_are_objects (items : list (string * json)) : bool :=
  forallb (fun item => match snd item with JObj _ => true | _ => false end) items.

(** *** What a turn adds *)

Section Turns.

Variables World CallToolResult : Type.
Variable env : Env World CallToolResult.

(** The state in which [invoke] logs the request: the state it is called
    in when the graph is compiled, the state after [initialize]
    otherwise. *)
Definition initialized (s : St World) : St World :=
  if app (self s) then s else fst (initialize env s).

(** The state after [call_model] has queried the decision client with
    [messages], which left the world as [w']. *)
Definition asked_model (s : St World) (messages : list BaseMessage) (w' : World) : St World :=
  mkSt w' (self s)
       (trace s ++ [EvLog ("[LangGraph] Invoking model with "
                           ++ Py.str_nat (List.length messages) ++ " messages");
                    EvModel (llm_tools (self s)) messages]).

(** The state after [should_continue] has logged the tool calls of
    [response]. *)
Definition detected_calls (s : St World) (response : AIMessage) : St World :=
  mkSt (world s) (self s)
       (trace s ++ [EvLog ("[LangGraph] Tool calls detected: "
                           ++ Py.str_nat (List.length (tool_calls response)))]).

(** The messages of one turn, from the messages and the state the graph
    is started on: the decision client's response to the messages so far;
    when it asks for tools, one observation per call, in the order asked,
    and then the messages of the rest of the turn, which goes on from the
    messages so far with the response and the observations appended; when
    it asks for none, nothing more. *)
Inductive turn_adds
  : list BaseMessage -> St World -> St World -> list BaseMessage -> Prop :=
| turn_answers messages s w' response :
    model_ainvoke env (llm_tools (self s)) messages (world s) = (w', Ok response) ->
    tool_calls response = [] ->
    turn_adds messages s (asked_model s messages w') [AI response]
| turn_calls_tools messages s w' response s1 results s' rest :
    model_ainvoke env (llm_tools (self s)) messages (world s) = (w', Ok response) ->
    tool_calls response <> [] ->
    calls_run env (tool_calls response)
              (detected_calls (asked_model s messages w') response) s1 results ->
    turn_adds ((messages ++ [AI response]) ++ map Tool results) s1 s' rest ->
    turn_adds messages s s' (AI response :: map Tool results ++ rest).

End Turns.

(** *** agent_core.py and mcp_helper.py: [cleanup] *)

Section Cleanup.

Variable World : Type.

(** [self.exit_stack.aclose()] of the client with the given script path. *)
Variable aclose : string -> World -> World * outcome unit.

(** [MCPClient.cleanup] (mcp_helper.py, lines 92-93); the second component
    of the state lists the clients whose cleanup was called. *)
Definition client_cleanup (client : MCPClient) (st : World * list string)
  : (World * list string) * outcome unit :=
  let (w', r) := aclose (server_script_path client) (fst st) in
  ((w', snd st ++ [server_script_path client])%list, r).

(** The loop of [LangGraphAgentExecutor.cleanup] (agent_core.py, lines
    257-259). *)
Fixpoint cleanup_clients (clients : list MCPClient) (st : World * list string)
  : (World * list string) * outcome unit :=
  match clients with
  | [] => (st, Ok tt)
  | client :: rest =>
      match client_cleanup client st with
      | (st', Ok _) => cleanup_clients rest st'
      | (st', Raise e) => (st', Raise e)
      end
  end.

Definition cleanup (a : Agent) (w : World) : (World * list string) * outcome unit :=
  cleanup_clients (mcp_clients a) (w, []).

End Cleanup.

(** *** agent_core.py: [create_agent] *)

(** What [create_agent] returns: an executor (with the key it was given)
    or the [ErrorAgent]. *)
Inductive agent_object : Type :=
| ExecutorObject (api_key : string)
| ErrorAgentObject.

(** [a or b] on two results of [os.environ.get]: [None] and the empty
    string are false. *)
Definition py_or (a b : option string) : option string :=
  match a with
  | Some EmptyString => b
  | Some s => Some s
  | None => b
  end.

(** [ErrorAgent.invoke] (line 273); the result is the value under
    ["output"]. *)
Definition error_agent_invoke (x : Py.dict string) : string :=
  "Error: GOOGLE_API_KEY not found in .env file.".

(** A chat as the interface holds it: pairs of a user text and a reply. *)
Definition chat : Type := list (string * option string).

(** [history[-1][1] = output] *)
Fixpoint set_last_reply (history : chat) (output : string) : chat :=
  match history with
  | [] => []
  | [(user, _)] => [(user, Some output)]
  | entry :: rest => entry :: set_last_reply rest output
  end.

(** [history[-1]] *)
Fixpoint last_entry (history : chat) : option (string * option string) :=
  match history with
  | [] => None
  | [entry] => Some entry
  | _ :: rest => last_entry rest
  end.

(** [user_message] (app.py, lines 25-26). *)
Definition user_message (user_input : string) (history : chat) : string * chat :=
  ("", (history ++ [(user_input, None)])%list).

(** [scan_action] (app.py, lines 59-60). *)
Definition scan_action (history : chat) : string * chat :=
  user_message "Please check my PC security status." history.

(** [approve_action] (app.py, lines 62-67). *)
Definition approve_action (history : chat) : string * chat :=
  ("", (history ++ [("Approved.", None)])%list).

Definition await_error : exn :=
  mkExn "TypeError" "object dict can't be used in 'await' expression".

Section Application.

Variables World CallToolResult : Type.
Variable env : Env World CallToolResult.

(** [os.environ] *)
Variable environ : Py.dict string.

Local Open Scope M_scope.

(** [create_agent] (agent_core.py, lines 263-274); a new executor starts
    from [new_agent]. *)
Definition create_agent : M World agent_object :=
  let api_key := py_or (Py.get environ "GOOGLE_API_KEY") (Py.get environ "GEMINI_API_KEY") in
  match api_key with
  | Some (String c k) =>
      log_callback "[System] Initializing LangGraph Agent with Gemini..." ;;
      set_self (new_agent env) ;;
      ret (ExecutorObject (String c k))
  | _ =>
      log_callback "[System] API Key missing. Please set GOOGLE_API_KEY in .env" ;;
      ret ErrorAgentObject
  end.

(** The globals of app.py next to the engine's state: [AGENT]; [LOGS] is
    the log lines of the trace. *)
Record App : Type := mkApp {
  sys : St World;
  AGENT : option agent_object
}.

Definition AppM (A : Type) : Type := App -> App * outcome A.

(** [init_agent] (app.py, lines 17-21). *)
Definition init_agent : AppM agent_object :=
  fun a =>
    match AGENT a with
    | Some agent => (a, Ok agent)
    | None =>
        match create_agent (sys a) with
        | (s', Ok agent) => (mkApp s' (Some agent), Ok agent)
        | (s', Raise e) => (mkApp s' None, Raise e)
        end
    end.

(** [get_logs] (app.py, lines 14-15). *)
Definition get_logs (a : App) : string := Py.join newline (log_lines (trace (sys a))).

(** [await agent.invoke(...)] followed by [response["output"]]: the
    executor's [invoke] is a coroutine; the [ErrorAgent]'s returns a
    dictionary, which cannot be awaited. *)
Definition await_invoke (agent : agent_object) (user_input : string) : AppM string :=
  fun a =>
    match agent with
    | ExecutorObject _ =>
        let (s', r) := invoke env [("input", user_input)] (sys a) in
        (mkApp s' (AGENT a), r)
    | ErrorAgentObject =>
        let _ := error_agent_invoke [("input", user_input)] in
        (a, Raise await_error)
    end.

(** [bot_response] (app.py, lines 28-57): the chat, the logs, and whether
    the approval group and the scan button are visible. *)
Definition bot_response (history : chat) : AppM (chat * string * bool * bool) :=
  fun a =>
    match init_agent a with
    | (a1, Raise e) => (a1, Raise e)
    | (a1, Ok agent) =>
        match last_entry history with
        | None => (a1, Raise no_last_message)
        | Some (user_input, _) =>
            match await_invoke agent user_input a1 with
            | (a2, Raise e) => (a2, Raise e)
            | (a2, Ok output) =>
                let show_approval := Py.str_contains "APPROVAL REQUIRED" output in
                let history := set_last_reply history output in
                (a2, Ok (history, get_logs a2, show_approval, negb show_approval))
            end
        end
    end.

(** [deny_action] (app.py, lines 69-71). *)
Definition deny_action (history : chat) (a : App) : string * chat * string * bool * bool :=
  ("", (history ++ [("Denied.", Some "Operation cancelled.")])%list, get_logs a, false, true).

End Application.

(** *** More concrete cases *)

Module Cases.

(** A tool whose property [x] is defined by a string, not an object. *)
Definition broken_tool : tool_info :=
  mkToolInfo "broken" "A malformed schema."
    [("properties", JObj [("x", JStr "integer")]); ("type", JStr "object")].

(** The maintenance worker lists a malformed tool after a good one. *)
Definition list_tools_broken (path : string) (w : nat) : nat * outcome (list tool_info) :=
  if String.eqb path (Demo.abspath "maintenance_server.py")
  then (w, Ok [Demo.get_heavy_processes; broken_tool])
  else Demo.list_tools path w.

Definition env_broken : Env nat string :=
  mkEnv Demo.abspath Demo.connect list_tools_broken Demo.call_tool Demo.model
        (fun r => r) (fun _ => "{...}") 25 "You are 'Local Security Auditor'.".

Definition start_broken : St nat := mkSt 0 (new_agent env_broken) [].

(** A decision client that always asks for tools. *)
Definition env_endless : Env nat string :=
  mkEnv Demo.abspath Demo.connect Demo.list_tools Demo.call_tool
        (fun _ _ w => (w, Ok Demo.request))
        (fun r => r) (fun _ => "{...}") 25 "You are 'Local Security Auditor'.".

(** The state after [initialize] with that client. *)
Definition ready_endless : St nat :=
  fst (initialize env_endless (mkSt 0 (new_agent env_endless) [])).

(** A decision client whose call fails. *)
Definition quota : exn := mkExn "ResourceExhausted" "429 quota exceeded".

Definition env_down : Env nat string :=
  mkEnv Demo.abspath Demo.connect Demo.list_tools Demo.call_tool
        (fun _ _ w => (w, Raise quota))
        (fun r => r) (fun _ => "{...}") 25 "You are 'Local Security Auditor'.".

(** A decision client that asks for tools and whose next call fails. *)
Definition model_flaky (bound : list StructuredTool) (messages : list BaseMessage) (w : nat)
  : nat * outcome AIMessage :=
  match last_message messages with
  | Some (HumanMessage _) => (w, Ok Demo.request)
  | _ => (w, Raise quota)
  end.

Definition env_flaky : Env nat string :=
  mkEnv Demo.abspath Demo.connect Demo.list_tools Demo.call_tool model_flaky
        (fun r => r) (fun _ => "{...}") 25 "You are 'Local Security Auditor'.".

(** The state after [initialize] with that client. *)
Definition ready_flaky : St nat :=
  fst (initialize env_flaky (mkSt 0 (new_agent env_flaky) [])).

(** An answer whose content is a list with a part that has no string
    text. *)
Definition odd_answer : AIMessage :=
  mkAIMessage (CList [PartStr "ok"; PartDict [("text", JNum 1)]]) [].

Definition env_odd : Env nat string :=
  mkEnv Demo.abspath Demo.connect Demo.list_tools Demo.call_tool
        (fun _ _ w => (w, Ok odd_answer))
        (fun r => r) (fun _ => "{...}") 25 "You are 'Local Security Auditor'.".

(** The second client's close fails. *)
Definition aclose (path : string) (w : nat) : nat * outcome unit :=
  if String.eqb path "/srv/b.py"
  then (S w, Raise (mkExn "RuntimeError" "cancel scope"))
  else (S w, Ok tt).

Definition three_clients : list MCPClient :=
  [mkClient "/srv/a.py" true; mkClient "/srv/b.py" true; mkClient "/srv/c.py" true].

(** The state after [initialize] with the client of [env_odd]. *)
Definition ready_odd : St nat :=
  fst (initialize env_odd (mkSt 0 (new_agent env_odd) [])).

(** The history [invoke] starts the graph on for the request ["check my
    pc"] in a new session. *)
Definition first_request : list BaseMessage :=
  [SystemMessage "You are 'Local Security Auditor'."; HumanMessage "check my pc"].

Definition fresh_app (World : Type) (s : St World) : App World := mkApp s None.

End Cases.

Arguments String.append : simpl never.

(** Runs one [execute_tool_call] symbolically. *)
Ltac run_call :=
  unfold execute_tool_call, bind, try_except, log_callback, emit, get_self,
    _tool_wrapper, external, ret; simpl.

(* ===================================================================== *)
(** ** Properties of the Python helpers *)
(* ===================================================================== *)

Lemma get_set_same {V} (d : Py.dict V) k v : Py.get (Py.set d k v) k = Some v.
Proof.
  induction d as [|[k' v'] d IH]; simpl.
  - now rewrite String.eqb_refl.
  - destruct (String.eqb k' k) eqn:E; simpl; rewrite E; auto.
Qed.

Lemma get_set_other {V} (d : Py.dict V) k k' v :
  k <> k' -> Py.get (Py.set d k v) k' = Py.get d k'.
Proof.
  intros Hne. induction d as [|[k0 v0] d IH]; simpl.
  - destruct (String.eqb_spec k k'); [contradiction | reflexivity].
  - destruct (String.eqb_spec k0 k) as [->|Hk]; simpl.
    + destruct (String.eqb_spec k k'); [contradiction | reflexivity].
    + destruct (String.eqb_spec k0 k'); auto.
Qed.

(* ===================================================================== *)
(** ** The model at work *)
(* ===================================================================== *)

Example unknown_kind_is_str : python_type_of (JStr "date-time") = PyStr.
Proof. reflexivity. Qed.

Example union_kind_is_str : python_type_of (JArr [JStr "integer"; JStr "null"]) = PyStr.
Proof. reflexivity. Qed.

Example kill_process_contract :
  build_tool "/srv/maintenance_server.py" Demo.kill_process = Ok Demo.kill_tool.
Proof. reflexivity. Qed.

Example heavy_processes_contract :
  build_tool "/srv/maintenance_server.py" Demo.get_heavy_processes = Ok Demo.heavy_tool.
Proof. reflexivity. Qed.

Example malformed_properties_raise :
  build_tool "/srv/x.py" (mkToolInfo "t" "" [("properties", JNull)])
  = Raise (mkExn "AttributeError" "object has no attribute 'items'").
Proof. reflexivity. Qed.

Example ready_tools :
  tools (self Demo.ready) = [Demo.cpu_tool; Demo.heavy_tool; Demo.kill_tool].
Proof. reflexivity. Qed.

Example one_request_history :
  conversation_history (self (fst (invoke Demo.env [("input", "check my pc")] Demo.start)))
  = [SystemMessage "You are 'Local Security Auditor'.";
     HumanMessage "check my pc";
     AI Demo.request;
     Tool (mkToolMessage "call_1" "get_cpu_info"
             (CStr "Error executing tool get_cpu_info: timed out"));
     Tool (mkToolMessage "call_2" "get_heavy_processes" (CStr "ok: get_heavy_processes"));
     Tool (mkToolMessage "call_3" "reboot" (CStr "Error: Tool reboot not found."));
     AI Demo.answer].
Proof. reflexivity. Qed.

Example one_request_output :
  snd (invoke Demo.env [("input", "check my pc")] Demo.start) = Ok "System is very clean.".
Proof. reflexivity. Qed.

(** A client that never stops asking for tools runs into the recursion
    limit; the request ends with the error text and the history keeps only
    the user's message. *)
Example endless_requests_hit_the_limit :
  let env := mkEnv Demo.abspath Demo.connect Demo.list_tools Demo.call_tool
                   (fun _ _ w => (w, Ok Demo.request))
                   (fun r => r) (fun _ => "{...}") 25 "prompt" in
  let run := invoke env [("input", "loop")] (mkSt 0 (new_agent env) []) in
  snd run = Ok "An error occurred: Recursion limit reached without hitting a stop condition"
  /\ conversation_history (self (fst run)) = [SystemMessage "prompt"; HumanMessage "loop"].
Proof. split; reflexivity. Qed.

(* ===================================================================== *)
(** ** The executor, one call at a time *)
(* ===================================================================== *)

Section ExecutorFacts.

Variables World CallToolResult : Type.
Variable env : Env World CallToolResult.

(** [execute_tool_call] always returns, in one of the three ways. *)
Lemma execute_tool_call_runs (tool_call : ToolCall) (s : St World) :
  exists s' result,
    execute_tool_call env tool_call s = (s', Ok result) /\
    call_runs env tool_call s s' result.
Proof.
  destruct (select_tool (tools (self s)) (call_name tool_call)) as [t|] eqn:Hsel.
  - destruct (worker_call_tool env (wrapper_client (coroutine t))
                (wrapper_tool_name (coroutine t)) (call_args tool_call) (world s))
      as [w' [r|e]] eqn:Hcall.
    + eexists _, _. split; [|eapply call_returns; eauto].
      run_call. rewrite Hsel. simpl. rewrite Hcall. simpl.
      now rewrite <- !app_assoc.
    + eexists _, _. split; [|eapply call_raises; eauto].
      run_call. rewrite Hsel. simpl. rewrite Hcall. simpl.
      now rewrite <- !app_assoc.
  - eexists _, _. split; [|eapply call_not_found; eauto].
    run_call. rewrite Hsel. simpl. now rewrite <- !app_assoc.
Qed.

(** The loop over the calls of a turn returns, whatever the calls do. *)
Lemma execute_tool_calls_run (tool_calls : list ToolCall) :
  forall (acc : list BaseMessage) (s : St World),
  exists s' results,
    execute_tool_calls env tool_calls acc s = (s', Ok (acc ++ map Tool results)%list) /\
    calls_run env tool_calls s s' results.
Proof.
  induction tool_calls as [|tc rest IH]; intros acc s.
  - exists s, []. split; [|constructor]. simpl. now rewrite app_nil_r.
  - destruct (execute_tool_call_runs tc s) as (s1 & r & Hrun & Hcall).
    destruct (IH (acc ++ [Tool r])%list s1) as (s2 & rs & Hrest & Hcalls).
    exists s2, (r :: rs). split; [|econstructor; eauto].
    simpl. unfold bind. rewrite Hrun, Hrest. now rewrite <- app_assoc.
Qed.

Lemma call_runs_self tc (s s' : St World) r :
  call_runs env tc s s' r -> self s' = self s.
Proof. now destruct 1. Qed.

Lemma calls_run_self tcs (s s' : St World) rs :
  calls_run env tcs s s' rs -> self s' = self s.
Proof.
  induction 1 as [|tc rest s s1 s2 r rs Hcall _ IH]; [reflexivity|].
  rewrite IH. eapply call_runs_self; eauto.
Qed.

(** One observation per call, in the order of the calls, each with the id
    and the name of its call. *)
Lemma calls_run_ids tcs (s s' : St World) rs :
  calls_run env tcs s s' rs ->
  map tool_call_id rs = map call_id tcs /\
  map tool_message_name rs = map call_name tcs.
Proof.
  induction 1 as [|tc rest s s1 s2 r rs Hcall _ [IH1 IH2]]; [now split|].
  simpl. rewrite IH1, IH2. now destruct Hcall.
Qed.

Lemma calls_run_length tcs (s s' : St World) rs :
  calls_run env tcs s s' rs -> List.length rs = List.length tcs.
Proof. induction 1; simpl; congruence. Qed.

Lemma calls_run_str tcs (s s' : St World) rs :
  calls_run env tcs s s' rs -> forallb observation_is_str (map Tool rs) = true.
Proof.
  induction 1 as [|tc rest s s1 s2 r rs Hcall _ IH]; [reflexivity|].
  simpl. rewrite IH. now destruct Hcall.
Qed.

Lemma model_queries_app evs1 evs2 :
  model_queries (evs1 ++ evs2) = (model_queries evs1 ++ model_queries evs2)%list.
Proof.
  induction evs1 as [|ev evs1 IH]; [reflexivity|].
  destruct ev; simpl; now rewrite IH.
Qed.

Lemma tool_invocations_app evs1 evs2 :
  tool_invocations (evs1 ++ evs2) = (tool_invocations evs1 ++ tool_invocations evs2)%list.
Proof.
  induction evs1 as [|ev evs1 IH]; [reflexivity|].
  destruct ev; simpl; now rewrite IH.
Qed.

(** Running tool calls only adds to the trace, and never a model query. *)
Lemma call_runs_trace tc (s s' : St World) r :
  call_runs env tc s s' r ->
  exists evs, trace s' = (trace s ++ evs)%list /\ model_queries evs = [].
Proof. destruct 1; simpl; eexists; split; reflexivity. Qed.

Lemma calls_run_trace tcs (s s' : St World) rs :
  calls_run env tcs s s' rs ->
  exists evs, trace s' = (trace s ++ evs)%list /\ model_queries evs = [].
Proof.
  induction 1 as [|tc rest s s1 s2 r rs Hcall _ (evs2 & Ht2 & Hq2)].
  - exists []. now rewrite app_nil_r.
  - destruct (call_runs_trace Hcall) as (evs1 & Ht1 & Hq1).
    exists (evs1 ++ evs2)%list. rewrite Ht2, Ht1, <- app_assoc. split; [reflexivity|].
    now rewrite model_queries_app, Hq1, Hq2.
Qed.

End ExecutorFacts.

(* ===================================================================== *)
(** ** Histories *)
(* ===================================================================== *)

Lemma last_message_snoc (l : list BaseMessage) (m : BaseMessage) :
  last_message (l ++ [m]) = Some m.
Proof.
  induction l as [|x l IH]; [reflexivity|].
  simpl. rewrite IH. now destruct (l ++ [m])%list eqn:E; [destruct l|].
Qed.

Lemma unresolved_calls_app (h1 h2 : list BaseMessage) :
  forall pending,
    unresolved_calls pending (h1 ++ h2) =
    match unresolved_calls pending h1 with
    | Some pending' => unresolved_calls pending' h2
    | None => None
    end.
Proof.
  induction h1 as [|m h1 IH]; intros pending; [reflexivity|].
  simpl. destruct pending as [|id pending], m; auto.
  destruct (String.eqb id (tool_call_id m)); auto.
Qed.

(** Observations that carry the ids of the calls, in order, close them. *)
Lemma unresolved_calls_answers (results : list ToolMessage) :
  unresolved_calls (map tool_call_id results) (map Tool results) = Some [].
Proof.
  induction results as [|r results IH]; [reflexivity|].
  simpl. now rewrite String.eqb_refl.
Qed.

Lemma prefix_of_refl {A} (l : list A) : prefix_of l l.
Proof. exists []. now rewrite app_nil_r. Qed.

Lemma prefix_of_app_l {A} (l1 l2 l3 : list A) :
  prefix_of (l1 ++ l2) l3 -> prefix_of l1 l3.
Proof. intros [rest ->]. exists (l2 ++ rest)%list. now rewrite app_assoc. Qed.

Lemma skipn_length_app {A} (l1 l2 : list A) : skipn (List.length l1) (l1 ++ l2) = l2.
Proof. induction l1; simpl; auto. Qed.

(* ===================================================================== *)
(** ** The graph *)
(* ===================================================================== *)

Section GraphFacts.

Variables World CallToolResult : Type.
Variable env : Env World CallToolResult.

Lemma call_model_run (messages : list BaseMessage) (s : St World) :
  call_model env messages s =
  let (w', r) := model_ainvoke env (llm_tools (self s)) messages (world s) in
  (mkSt w' (self s)
        (trace s ++ [EvLog ("[LangGraph] Invoking model with "
                            ++ Py.str_nat (List.length messages) ++ " messages");
                     EvModel (llm_tools (self s)) messages]),
   match r with Ok response => Ok [AI response] | Raise e => Raise e end).
Proof.
  unfold call_model, bind, log_callback, emit, get_self, external, ret. simpl.
  destruct (model_ainvoke env (llm_tools (self s)) messages (world s)) as [w' [resp|e]];
    now rewrite <- app_assoc.
Qed.

Lemma should_continue_run (messages : list BaseMessage) (response : AIMessage) (s : St World) :
  should_continue (messages ++ [AI response]) s =
  match tool_calls response with
  | [] => (s, Ok false)
  | _ :: _ =>
      (mkSt (world s) (self s)
            (trace s ++ [EvLog ("[LangGraph] Tool calls detected: "
                                ++ Py.str_nat (List.length (tool_calls response)))]),
       Ok true)
  end.
Proof.
  unfold should_continue. rewrite last_message_snoc.
  now destruct (tool_calls response).
Qed.

(** [execute_tools] on a history that ends with an assistant message. *)
Lemma execute_tools_run (messages : list BaseMessage) (m : AIMessage) (s : St World) :
  last_message messages = Some (AI m) ->
  exists s' results,
    execute_tools env messages s = (s', Ok (map Tool results)) /\
    calls_run env (tool_calls m) s s' results.
Proof.
  intros Hlast. unfold execute_tools. rewrite Hlast.
  apply (execute_tool_calls_run env (tool_calls m) [] s).
Qed.

(** What [execute_tools] does when it returns. *)
Lemma execute_tools_ok (messages update : list BaseMessage) (s s' : St World) :
  execute_tools env messages s = (s', Ok update) ->
  exists m results,
    last_message messages = Some (AI m) /\
    update = map Tool results /\
    calls_run env (tool_calls m) s s' results.
Proof.
  intros Hrun. unfold execute_tools in Hrun.
  destruct (last_message messages) as [[c|c|m|t]|] eqn:Hlast; try discriminate.
  destruct (execute_tool_calls_run env (tool_calls m) [] s) as (s1 & rs & Heq & Hcalls).
  rewrite Heq in Hrun. injection Hrun as <- <-. eauto.
Qed.

(** When [execute_tools] raises, nothing was called. *)
Lemma execute_tools_raise (messages : list BaseMessage) (e : exn) (s s' : St World) :
  execute_tools env messages s = (s', Raise e) -> s' = s.
Proof.
  intros Hrun. unfold execute_tools in Hrun.
  destruct (last_message messages) as [[c|c|m|t]|] eqn:Hlast;
    try (injection Hrun as <- _; reflexivity).
  destruct (execute_tool_calls_run env (tool_calls m) [] s) as (s1 & rs & Heq & _).
  rewrite Heq in Hrun. discriminate.
Qed.

Lemma forallb_app_true {A} (f : A -> bool) (l1 l2 : list A) :
  forallb f l1 = true -> forallb f l2 = true -> forallb f (l1 ++ l2) = true.
Proof. intros H1 H2. now rewrite forallb_app, H1, H2. Qed.

Lemma calls_run_turn tcs (s s' : St World) rs :
  calls_run env tcs s s' rs -> forallb is_turn_message (map Tool rs) = true.
Proof. intros _. induction rs; simpl; auto. Qed.

(** The invariant of the graph: the executor object is not touched; the
    trace grows, and every query to the model carries the messages the run
    started with; a run that returns has only added assistant and tool
    messages, observations with string content; and when the run starts
    from a state that is ready for its node, every query is on a history
    without an open call, and so is the final state. *)
Lemma run_graph_spec (fuel : nat) :
  forall (n : node) (messages : list BaseMessage) (s s' : St World) r,
    run_graph env fuel n messages s = (s', r) ->
    self s' = self s /\
    (exists evs,
        trace s' = (trace s ++ evs)%list /\
        Forall (prefix_of messages) (model_queries evs) /\
        (node_ready n messages -> Forall resolved (model_queries evs))) /\
    (forall final, r = Ok final ->
       exists new,
         final = (messages ++ new)%list /\
         forallb is_turn_message new = true /\
         forallb observation_is_str new = true /\
         (node_ready n messages -> resolved final)).
Proof.
  induction fuel as [|fuel IH]; intros n messages s s' r Hrun.
  - injection Hrun as <- <-. split; [reflexivity|]. split; [|discriminate].
    exists []. rewrite app_nil_r. repeat split; constructor.
  - destruct n; cbn [run_graph] in Hrun; unfold bind at 1 in Hrun.
    + (* agent *)
      rewrite call_model_run in Hrun.
      destruct (model_ainvoke env (llm_tools (self s)) messages (world s))
        as [w' [response|e]].
      * unfold bind at 1 in Hrun. rewrite should_continue_run in Hrun.
        destruct (tool_calls response) as [|tc tcs] eqn:Hcalls.
        -- assert (Hevs : exists evs,
                      trace s' = (trace s ++ evs)%list /\
                      Forall (prefix_of messages) (model_queries evs) /\
                      (node_ready agent_node messages -> Forall resolved (model_queries evs))).
           { destruct fuel; injection Hrun as <- _;
               (eexists; split; [reflexivity|]; simpl; split;
                [constructor; [apply prefix_of_refl | constructor]
                |intros Hready; constructor; [exact Hready | constructor]]). }
           destruct fuel as [|fuel']; injection Hrun as <- <-;
             (split; [reflexivity|]; split; [exact Hevs|]); [discriminate|].
           intros final [= <-]. exists [AI response].
              repeat split; auto.
              intros Hready. unfold resolved. rewrite unresolved_calls_app.
              simpl in Hready. unfold resolved in Hready. rewrite Hready.
              simpl. now rewrite Hcalls.
        -- apply IH in Hrun. destruct Hrun as (Hself & (evs & Htrace & Hpre & Hres) & Hfinal).
           simpl in Hself, Htrace. split; [exact Hself|]. split.
           ++ eexists. split; [rewrite Htrace, <- !app_assoc; reflexivity|].
              simpl. split.
              ** constructor; [apply prefix_of_refl|].
                 eapply Forall_impl; [|exact Hpre].
                 intros q. apply prefix_of_app_l.
              ** intros Hready.
                 assert (Hnext : node_ready tools_node (messages ++ [AI response])).
                 { exists response. split; [apply last_message_snoc|].
                   rewrite unresolved_calls_app. simpl in Hready.
                   unfold resolved in Hready. now rewrite Hready. }
                 constructor; [exact Hready | auto].
           ++ intros final Hfin. destruct (Hfinal final Hfin) as (new & -> & Hturn & Hstr & Hres').
              exists (AI response :: new).
              split; [now rewrite <- app_assoc|]. repeat split; auto.
              intros Hready. apply Hres'.
              exists response. split; [apply last_message_snoc|].
              rewrite unresolved_calls_app. simpl in Hready.
              unfold resolved in Hready. now rewrite Hready.
      * injection Hrun as <- <-. split; [reflexivity|]. split; [|discriminate].
        eexists. split; [reflexivity|]. simpl. split.
        -- constructor; [apply prefix_of_refl | constructor].
        -- intros Hready. constructor; [exact Hready | constructor].
    + (* tools *)
      destruct (execute_tools env messages s) as [s1 [update|e]] eqn:Htools.
      * destruct (@execute_tools_ok messages update s s1 Htools) as (m & rs & Hlast & -> & Hcalls).
        apply IH in Hrun. destruct Hrun as (Hself & (evs & Htrace & Hpre & Hres) & Hfinal).
        destruct (calls_run_trace Hcalls) as (evs1 & Htrace1 & Hq1).
        assert (Hnext : node_ready tools_node messages ->
                        node_ready agent_node (messages ++ map Tool rs)).
        { intros (m' & Hlast' & Hopen). rewrite Hlast in Hlast'. injection Hlast' as <-.
          simpl. unfold resolved. rewrite unresolved_calls_app, Hopen.
          destruct (calls_run_ids Hcalls) as [<- _]. apply unresolved_calls_answers. }
        split; [rewrite Hself; eapply calls_run_self; eauto|]. split.
        -- exists (evs1 ++ evs)%list. split; [rewrite Htrace, Htrace1, <- app_assoc; reflexivity|].
           rewrite model_queries_app, Hq1. simpl. split.
           ++ eapply Forall_impl; [|exact Hpre]. intros q. apply prefix_of_app_l.
           ++ auto.
        -- intros final Hfin. destruct (Hfinal final Hfin) as (new & -> & Hturn & Hstr & Hres').
           exists (map Tool rs ++ new)%list.
           split; [now rewrite <- app_assoc|]. split; [|split].
           ++ apply forallb_app_true; [eapply calls_run_turn; eauto | exact Hturn].
           ++ apply forallb_app_true; [eapply calls_run_str; eauto | exact Hstr].
           ++ auto.
      * injection Hrun as <- <-. apply execute_tools_raise in Htools. subst s1.
        split; [reflexivity|]. split; [|discriminate].
        exists []. rewrite app_nil_r. repeat split; constructor.
Qed.

End GraphFacts.

(* ===================================================================== *)
(** ** Session setup *)
(* ===================================================================== *)

Lemma setup_step_refl {World} (s : St World) : setup_step s s.
Proof.
  repeat split. exists []. now rewrite app_nil_r.
Qed.

Lemma setup_step_trans {World} (s1 s2 s3 : St World) :
  setup_step s1 s2 -> setup_step s2 s3 -> setup_step s1 s3.
Proof.
  intros (Ha & Ht & Hl & Hh & evs1 & He1 & Hq1 & Hi1)
         (Ha' & Ht' & Hl' & Hh' & evs2 & He2 & Hq2 & Hi2).
  repeat split; try congruence.
  exists (evs1 ++ evs2)%list. rewrite He2, He1, <- app_assoc.
  rewrite model_queries_app, tool_invocations_app, Hq1, Hq2, Hi1, Hi2. auto.
Qed.

(** The tools [build_tools] adds are bound to the client they were listed
    by, under the names the worker gave. *)
Lemma build_tools_built (path : string) (infos : list tool_info) :
  forall acc ts,
    build_tools path infos acc = Ok ts ->
    exists built,
      ts = (acc ++ built)%list /\
      map tool_name built = map info_name infos /\
      Forall (fun t => coroutine t = mkWrapper path (tool_name t)) built.
Proof.
  induction infos as [|info infos IH]; intros acc ts Hb; simpl in Hb.
  - injection Hb as <-. exists []. rewrite app_nil_r. repeat split. constructor.
  - unfold obind, build_tool, obind in Hb.
    destruct (compile_args_model info) as [model|e]; [|discriminate].
    apply IH in Hb. destruct Hb as (built & -> & Hnames & Hown).
    eexists (_ :: built). rewrite <- app_assoc. simpl. repeat split.
    + now rewrite Hnames.
    + constructor; [reflexivity | exact Hown].
Qed.

Section SetupFacts.

Variables World CallToolResult : Type.
Variable env : Env World CallToolResult.

(** One iteration of the loop of [initialize] never raises. *)
Lemma connect_server_run (server_file : string) (tools0 : list StructuredTool) (s : St World) :
  exists s' server_tools,
    connect_server env server_file tools0 s = (s', Ok (tools0 ++ server_tools)%list) /\
    server_contributes env server_file (world s) server_tools /\
    setup_step s s'.
Proof.
  unfold connect_server, connect, get_tools, try_except, external, get_self,
    set_self, log_callback, emit, lift, raise, bind, ret, setup_step. simpl.
  destruct (worker_connect env (abspath env server_file) (world s))
    as [w1 [[]|e]] eqn:Hconnect; simpl.
  - destruct (worker_list_tools env (abspath env server_file) w1)
      as [w2 [infos|e]] eqn:Hlist; simpl.
    + destruct (build_tools (abspath env server_file) infos []) as [ts|e] eqn:Hbuild; simpl.
      * eexists _, ts. split; [reflexivity|]. split; [eapply contributes_tools; eauto|].
        simpl. repeat split. eexists. rewrite <- !app_assoc. repeat split.
      * eexists _, []. rewrite app_nil_r. split; [reflexivity|].
        split; [eapply schema_fails; eauto|].
        simpl. repeat split. eexists. rewrite <- !app_assoc. repeat split.
    + eexists _, []. rewrite app_nil_r. split; [reflexivity|].
      split; [eapply list_tools_fails; eauto|].
      simpl. repeat split. eexists. rewrite <- !app_assoc. repeat split.
  - eexists _, []. rewrite app_nil_r. split; [reflexivity|].
    split; [eapply connect_fails; eauto|].
    simpl. repeat split. eexists. rewrite <- !app_assoc. repeat split.
Qed.

(** Tools a worker contributes are bound to that worker's client, and the
    worker did start. *)
Lemma server_contributes_owner (server_file : string) (w : World) (ts : list StructuredTool) :
  server_contributes env server_file w ts ->
  forall t, In t ts ->
    coroutine t = mkWrapper (abspath env server_file) (tool_name t) /\
    exists w1, worker_connect env (abspath env server_file) w = (w1, Ok tt).
Proof.
  intros [w1 w2 infos server_tools Hc Hl Hb| | |] t Hin; try contradiction.
  apply build_tools_built in Hb. destruct Hb as (built & -> & _ & Hown).
  simpl in Hin. rewrite Forall_forall in Hown. split; [auto | eauto].
Qed.

(** A worker that always starts and always lists [infos] contributes the
    tools built from [infos]. *)
Lemma server_contributes_serves (server_file : string) (w : World)
  (infos : list tool_info) (ts server_tools : list StructuredTool) :
  server_contributes env server_file w ts ->
  serves env server_file infos ->
  build_tools (abspath env server_file) infos [] = Ok server_tools ->
  ts = server_tools.
Proof.
  intros Hcontrib [Hstart Hlist] Hbuild.
  destruct Hcontrib as [w1 w2 infos' ts Hc Hl Hb|w1 e Hc|w1 w2 e Hc Hl|w1 w2 infos' e Hc Hl Hb].
  - destruct (Hlist w1) as [w' Hl']. congruence.
  - destruct (Hstart w) as [w' Hc']. congruence.
  - destruct (Hlist w1) as [w' Hl']. congruence.
  - destruct (Hlist w1) as [w' Hl']. congruence.
Qed.

(** The loop of [initialize] over the configured workers. *)
Lemma connect_servers_run (files : list string) :
  forall (tools0 : list StructuredTool) (s : St World),
  exists s' added,
    connect_servers env files tools0 s = (s', Ok (tools0 ++ added)%list) /\
    setup_step s s' /\
    (forall t, In t added ->
       exists file w w1,
         In file files /\
         coroutine t = mkWrapper (abspath env file) (tool_name t) /\
         worker_connect env (abspath env file) w = (w1, Ok tt)) /\
    (forall file infos ts,
       In file files -> serves env file infos ->
       build_tools (abspath env file) infos [] = Ok ts ->
       incl ts added).
Proof.
  induction files as [|file files IH]; intros tools0 s.
  - exists s, []. rewrite app_nil_r. split; [reflexivity|].
    split; [apply setup_step_refl|]. split; [contradiction|]. intros ? ? ? [].
  - destruct (connect_server_run file tools0 s) as (s1 & ts1 & Hrun1 & Hcontrib & Hstep1).
    destruct (IH (tools0 ++ ts1)%list s1) as (s2 & added & Hrun2 & Hstep2 & Hown & Hserved).
    exists s2, (ts1 ++ added)%list. split; [|split; [|split]].
    + cbn [connect_servers]. unfold bind. rewrite Hrun1, Hrun2. now rewrite <- app_assoc.
    + eapply setup_step_trans; eauto.
    + intros t Hin. apply in_app_or in Hin. destruct Hin as [Hin|Hin].
      * destruct (server_contributes_owner Hcontrib t Hin) as (Hco & w1 & Hc).
        exists file, (world s), w1. simpl. auto.
      * destruct (Hown t Hin) as (f & w & w1 & Hf & Hco & Hc).
        exists f, w, w1. simpl. auto.
    + intros f infos ts [<-|Hin] Hserves Hbuild.
      * rewrite (server_contributes_serves Hcontrib Hserves Hbuild).
        apply incl_appl, incl_refl.
      * apply incl_appr. eapply Hserved; eauto.
Qed.

(** [initialize] always completes. *)
Lemma initialize_run (s : St World) :
  exists s',
    initialize env s = (s', Ok tt) /\
    app (self s') = true /\
    llm_tools (self s') = tools (self s') /\
    conversation_history (self s') = conversation_history (self s) /\
    (exists evs, trace s' = (trace s ++ evs)%list /\ model_queries evs = []) /\
    (forall t, In t (tools (self s')) ->
       exists file w w1,
         In file server_files /\
         coroutine t = mkWrapper (abspath env file) (tool_name t) /\
         worker_connect env (abspath env file) w = (w1, Ok tt)) /\
    (forall file infos ts,
       In file server_files -> serves env file infos ->
       build_tools (abspath env file) infos [] = Ok ts ->
       incl ts (tools (self s'))).
Proof.
  unfold initialize, bind, log_callback, emit, get_self, set_self, ret. cbv beta.
  match goal with
  | |- context [connect_servers env server_files [] ?s0] =>
      destruct (connect_servers_run server_files [] s0)
        as (s1 & added & Hrun & Hstep & Hown & Hserved)
  end.
  rewrite Hrun. cbn [List.app].
  eexists. split; [reflexivity|]. simpl.
  destruct Hstep as (_ & _ & _ & Hh & evs & He & Hq & _). simpl in Hh, He.
  repeat split; auto.
  eexists. rewrite He, <- !app_assoc. split; [reflexivity|].
  simpl. rewrite model_queries_app, Hq. reflexivity.
Qed.

End SetupFacts.

(* ===================================================================== *)
(** ** One external request *)
(* ===================================================================== *)

Section InvokeFacts.

Variables World CallToolResult : Type.
Variable env : Env World CallToolResult.

Lemma resolved_user_message (before : list BaseMessage) (user_input : string) :
  resolved before -> resolved (before ++ [HumanMessage user_input]).
Proof.
  unfold resolved. intros H. now rewrite unresolved_calls_app, H.
Qed.

Lemma invoke_except_run (e : exn) (s : St World) :
  exists text,
    invoke_except e s =
    (mkSt (world s) (self s) (trace s ++ [EvLog ("[Error] LangGraph Error: " ++ exc_str e)]),
     Ok text).
Proof.
  unfold invoke_except, bind, log_callback, emit, ret.
  destruct (Py.str_contains "404" (exc_str e)
            || Py.str_contains "not found" (Py.lower (exc_str e))); eauto.
Qed.

(** The [try] block, started on the history with the user's message. *)
Lemma invoke_try_run (before : list BaseMessage) (user_input : string) (s s' : St World) r :
  conversation_history (self s) = (before ++ [HumanMessage user_input])%list ->
  invoke_try env (before ++ [HumanMessage user_input]) s = (s', r) ->
  turn_recorded before user_input s s'.
Proof.
  intros Hhist Hrun. unfold invoke_try, ainvoke in Hrun. unfold bind at 1 in Hrun.
  destruct (run_graph env (recursion_limit env) agent_node
              (before ++ [HumanMessage user_input]) s) as [s1 [final|e]] eqn:Hgraph.
  - destruct (run_graph_spec env _ _ _ _ Hgraph)
      as (Hself & (evs & Htrace & Hpre & Hres) & Hfinal).
    destruct (Hfinal final eq_refl) as (new & -> & Hturn & Hstr & Hres').
    assert (Hin : resolved before ->
                  resolved (before ++ HumanMessage user_input :: new) /\
                  Forall resolved (model_queries evs)).
    { intros Hb. apply resolved_user_message with (user_input := user_input) in Hb.
      split; [|auto].
      replace (before ++ HumanMessage user_input :: new)%list
        with ((before ++ [HumanMessage user_input]) ++ new)%list
        by now rewrite <- app_assoc.
      auto. }
    unfold bind at 1 in Hrun.
    destruct (last_message ((before ++ [HumanMessage user_input]) ++ new)) as [last|].
    + unfold bind, ret, get_self, set_self, lift in Hrun. cbv beta in Hrun.
      rewrite Hself, Hhist, skipn_length_app in Hrun. cbn [self conversation_history] in Hrun.
      assert (Hs' : conversation_history (self s')
                    = (before ++ HumanMessage user_input :: new)%list
                    /\ trace s' = trace s1).
      { destruct (output_text_of (message_content last));
          injection Hrun as <- _; simpl; now rewrite <- app_assoc. }
      destruct Hs' as [Hh Ht]. exists new, evs. rewrite Ht. repeat split; auto; apply Hin; auto.
    + unfold raise in Hrun. injection Hrun as <- _.
      exists [], evs. rewrite Hself, Hhist. repeat split; auto.
      * now apply resolved_user_message.
      * now apply Hin.
  - injection Hrun as <- _.
    destruct (run_graph_spec env _ _ _ _ Hgraph) as (Hself & (evs & Htrace & Hpre & Hres) & _).
    exists [], evs. rewrite Hself, Hhist. repeat split; auto.
    + now apply resolved_user_message.
    + apply Hres. now apply resolved_user_message.
Qed.

(** Events that are not model queries, before and after, do not matter. *)
Lemma turn_recorded_frame (before : list BaseMessage) (user_input : string)
  (s0 s s' s'' : St World) (pre post : list event) :
  trace s = (trace s0 ++ pre)%list -> model_queries pre = [] ->
  turn_recorded before user_input s s' ->
  conversation_history (self s'') = conversation_history (self s') ->
  trace s'' = (trace s' ++ post)%list -> model_queries post = [] ->
  turn_recorded before user_input s0 s''.
Proof.
  intros Hpre Hqpre (new & evs & Hh & Hturn & Hstr & Ht & Hp & Hres) Hh' Hpost Hqpost.
  exists new, (pre ++ evs ++ post)%list.
  rewrite !model_queries_app, Hqpre, Hqpost, app_nil_r. cbn [List.app].
  repeat split; auto; try apply Hres; auto.
  - congruence.
  - now rewrite Hpost, Ht, Hpre, <- !app_assoc.
Qed.

(** [invoke] always returns an output and records the turn. *)
Lemma invoke_run (inputs : Py.dict string) (s : St World) :
  exists s' output,
    invoke env inputs s = (s', Ok output) /\
    turn_recorded (conversation_history (self s)) (Py.get_or inputs "input" "") s s'.
Proof.
  assert (Hinit : exists s1 evs1,
             (if app (self s) then ret tt else initialize env) s = (s1, Ok tt) /\
             conversation_history (self s1) = conversation_history (self s) /\
             trace s1 = (trace s ++ evs1)%list /\ model_queries evs1 = []).
  { destruct (app (self s)).
    - exists s, []. rewrite app_nil_r. auto.
    - destruct (initialize_run env s) as (s1 & Hrun & _ & _ & Hh & (evs1 & Ht & Hq) & _).
      exists s1, evs1. auto. }
  destruct Hinit as (s1 & evs1 & Hrun1 & Hh1 & Ht1 & Hq1).
  unfold invoke. unfold bind at 1, get_self at 1. unfold bind at 1. rewrite Hrun1.
  unfold bind, log_callback, emit, get_self, set_self. cbv beta.
  cbn [self conversation_history world trace]. unfold try_except.
  set (user_input := Py.get_or inputs "input" "").
  rewrite Hh1.
  match goal with
  | |- context [invoke_try env ?init ?s2] =>
      destruct (invoke_try env init s2) as [s3 [output|e]] eqn:Htry;
      apply invoke_try_run in Htry; [|reflexivity| |reflexivity]
  end.
  - exists s3, output. split; [reflexivity|].
    refine (@turn_recorded_frame _ _ _ _ _ _ (evs1 ++ [_])%list [] _ _ Htry _ _ _);
      auto.
    + cbn [trace]. rewrite Ht1, <- app_assoc. reflexivity.
    + now rewrite model_queries_app, Hq1.
    + now rewrite app_nil_r.
  - destruct (invoke_except_run e s3) as [text Hexc]. rewrite Hexc.
    eexists _, text. split; [reflexivity|].
    refine (@turn_recorded_frame _ _ _ _ _ _ (evs1 ++ [_])%list [_] _ _ Htry _ _ _);
      auto.
    + cbn [trace]. rewrite Ht1, <- app_assoc. reflexivity.
    + now rewrite model_queries_app, Hq1.
    + reflexivity.
    + reflexivity.
Qed.

End InvokeFacts.

(* ===================================================================== *)
(** ** Turns and sessions *)
(* ===================================================================== *)

Section SessionFacts.

Variables World CallToolResult : Type.
Variable env : Env World CallToolResult.

Lemma execute_tool_calls_app (calls1 calls2 : list ToolCall) :
  forall (acc : list BaseMessage) (s : St World),
    execute_tool_calls env (calls1 ++ calls2) acc s =
    match execute_tool_calls env calls1 acc s with
    | (s1, Ok results) => execute_tool_calls env calls2 results s1
    | (s1, Raise e) => (s1, Raise e)
    end.
Proof.
  induction calls1 as [|tc calls1 IH]; intros acc s; [reflexivity|].
  cbn [List.app execute_tool_calls]. unfold bind.
  destruct (execute_tool_call env tc s) as [s1 [r|e]]; [apply IH | reflexivity].
Qed.

(** Each call that selects a tool reaches its worker exactly once, with
    the arguments of the call; the others reach none. *)
Lemma calls_run_invocations tcs (s s' : St World) rs :
  calls_run env tcs s s' rs ->
  exists evs,
    trace s' = (trace s ++ evs)%list /\
    tool_invocations evs = invocations_of (tools (self s)) tcs.
Proof.
  induction 1 as [|tc rest s s1 s2 r rs Hcall _ (evs2 & Ht2 & Hi2)].
  - exists []. now rewrite app_nil_r.
  - rewrite (call_runs_self Hcall) in Hi2.
    unfold invocations_of. cbn [flat_map]. fold (invocations_of (tools (self s)) rest).
    destruct Hcall as [Hsel|t w' v Hsel Hw|t w' e Hsel Hw]; rewrite Hsel;
      cbn [trace] in Ht2; eexists; rewrite Ht2, <- app_assoc;
      (split; [reflexivity|]); rewrite tool_invocations_app, Hi2; reflexivity.
Qed.

(** Every observation is the string of what the call left in [output]. *)
Lemma calls_run_outputs tcs (s s' : St World) rs :
  calls_run env tcs s s' rs ->
  Forall (fun r => exists tc output,
            In tc tcs /\
            r = mkToolMessage (call_id tc) (call_name tc) (CStr (py_str env output)))
         rs.
Proof.
  induction 1 as [|tc rest s s1 s2 r rs Hcall _ IH]; constructor.
  - exists tc. destruct Hcall.
    + exists (OutStr (not_found_text tc)). simpl. auto.
    + exists (OutResult r). simpl. auto.
    + exists (OutStr (failure_text tc e)). simpl. auto.
  - eapply Forall_impl; [|exact IH].
    intros r0 (tc0 & output & Hin & ->). exists tc0, output. simpl. auto.
Qed.

(** A call whose name selects no tool gets the not-found observation. *)
Lemma calls_run_not_found tcs (s s' : St World) rs tc :
  calls_run env tcs s s' rs ->
  In tc tcs ->
  select_tool (tools (self s)) (call_name tc) = None ->
  In (observation tc (not_found_text tc)) rs.
Proof.
  induction 1 as [|tc0 rest s s1 s2 r rs Hcall _ IH]; intros Hin Hsel; [contradiction|].
  destruct Hin as [->|Hin].
  - left. destruct Hcall; congruence.
  - right. apply IH; [exact Hin|]. now rewrite (call_runs_self Hcall).
Qed.

(** A sequence of requests, one [invoke] after the other. *)
Lemma submit_all_run (user_inputs : list string) :
  forall s : St World,
  exists s' outputs appended evs,
    submit_all env user_inputs s = (s', Ok outputs) /\
    conversation_history (self s') = (conversation_history (self s) ++ appended)%list /\
    turns_appended user_inputs appended /\
    forallb observation_is_str appended = true /\
    trace s' = (trace s ++ evs)%list /\
    (resolved (conversation_history (self s)) ->
     resolved (conversation_history (self s')) /\ Forall resolved (model_queries evs)).
Proof.
  induction user_inputs as [|user_input rest IH]; intros s.
  - exists s, [], [], []. rewrite !app_nil_r. repeat split; auto. constructor.
  - destruct (invoke_run env [("input", user_input)] s) as (s1 & output & Hrun & Hturn).
    destruct Hturn as (new & evs1 & Hh1 & Hturn1 & Hstr1 & Ht1 & _ & Hres1).
    change (Py.get_or [("input", user_input)] "input" "") with user_input in *.
    destruct (IH s1) as (s2 & outputs & appended & evs2 & Hrun2 & Hh2 & Happ & Hstr2 & Ht2 & Hres2).
    exists s2, (output :: outputs), (HumanMessage user_input :: new ++ appended)%list,
      (evs1 ++ evs2)%list.
    split; [|split; [|split; [|split; [|split]]]].
    + cbn [submit_all]. unfold bind. rewrite Hrun, Hrun2. reflexivity.
    + rewrite Hh2, Hh1, <- app_assoc. reflexivity.
    + now constructor.
    + cbn [forallb observation_is_str]. now apply forallb_app_true.
    + now rewrite Ht2, Ht1, <- app_assoc.
    + intros Hres. destruct (Hres1 Hres) as [Hr1 Hq1]. rewrite <- Hh1 in Hr1.
      destruct (Hres2 Hr1) as [Hr2 Hq2]. split; [exact Hr2|].
      rewrite model_queries_app. apply Forall_app. auto.
Qed.

End SessionFacts.

(* ===================================================================== *)
(** ** The argument contract *)
(* ===================================================================== *)

(** Fields that the remaining properties do not name are left as they are. *)
Lemma compile_fields_keeps (items : list (string * json)) (required : json) (name : string) :
  forall fields0 fields,
    compile_fields items required fields0 = Ok fields ->
    ~ In name (Py.keys items) ->
    Py.get fields name = Py.get fields0 name.
Proof.
  induction items as [|[field_name field_def] items IH]; intros fields0 fields Hc Hnot.
  - now injection Hc as <-.
  - cbn [compile_fields] in Hc. unfold obind in Hc.
    destruct (Py.json_get field_def "type" (JStr "string")) as [ft|]; [|discriminate].
    destruct (Py.contains required field_name) as [[|]|]; [| |discriminate];
      (apply IH in Hc; [|intros Hin; apply Hnot; now right]);
      rewrite Hc; apply get_set_other; intros ->; apply Hnot; now left.
Qed.

(* ===================================================================== *)
(** ** The claims *)
(* ===================================================================== *)

(** C9.  For every declared property that the schema's [required] does
    not list, the entry that the loop of [get_tools] leaves in [fields],
    the field definitions it hands to [create_model], is
    [(python_type, None)]: the type is read from the ["type"] entry of the
    property's (last) definition and the default is [None], whatever else
    that definition holds, a ["default"] entry included.  The loop may
    start from any [fields]; the code starts it from the empty
    dictionary. *)
Theorem optional_parameter_default_is_none
  (items : list (string * json)) (required : json) (name : string) :
  forall fields0 fields,
    compile_fields items required fields0 = Ok fields ->
    In name (Py.keys items) ->
    Py.contains required name = Ok false ->
    exists field_def field_type,
      In (name, field_def) items /\
      Py.json_get field_def "type" (JStr "string") = Ok field_type /\
      Py.get fields name = Some (python_type_of field_type, PyNone).
Proof.
  induction items as [|[field_name field_def] items IH]; intros fields0 fields Hc Hin Hopt;
    [contradiction|].
  destruct (in_dec string_dec name (Py.keys items)) as [Hlater|Hlast].
  - cbn [compile_fields] in Hc. unfold obind in Hc.
    destruct (Py.json_get field_def "type" (JStr "string")) as [ft|]; [|discriminate].
    destruct (Py.contains required field_name) as [[|]|]; [| |discriminate];
      destruct (IH _ _ Hc Hlater Hopt) as (fd & fty & Hfd & Hty & Hget);
      exists fd, fty; (split; [now right | auto]).
  - destruct Hin as [Hname|Hin]; [|contradiction]. simpl in Hname. subst field_name.
    cbn [compile_fields] in Hc. unfold obind in Hc.
    destruct (Py.json_get field_def "type" (JStr "string")) as [ft|] eqn:Hty; [|discriminate].
    rewrite Hopt in Hc.
    exists field_def, ft. split; [now left|]. split; [exact Hty|].
    apply compile_fields_keeps with (name := name) in Hc; [|exact Hlast].
    rewrite Hc. apply get_set_same.
Qed.

(** C9 at the schema of [get_heavy_processes]: it declares [count] with
    default 5 and lists nothing under [required]; the field handed to
    [create_model] is [(int, None)]. *)
Lemma optional_parameter_default_is_none_witness :
  Py.get_or [("default", JNum 5); ("title", JStr "Count"); ("type", JStr "integer")]
            "default" JNull = JNum 5 /\
  exists field_def field_type,
    In ("count", field_def)
       [("count", JObj [("default", JNum 5); ("title", JStr "Count");
                        ("type", JStr "integer")])] /\
    Py.json_get field_def "type" (JStr "string") = Ok field_type /\
    Py.get [("count", (PyInt, PyNone))] "count" = Some (python_type_of field_type, PyNone).
Proof.
  split; [reflexivity|].
  apply (@optional_parameter_default_is_none
           [("count", JObj [("default", JNum 5); ("title", JStr "Count");
                            ("type", JStr "integer")])]
           (JArr []) "count" [] [("count", (PyInt, PyNone))]);
    [reflexivity | now left | reflexivity].
Defined.

Section Claims.

Variables World CallToolResult : Type.
Variable env : Env World CallToolResult.

(** One call whose name selects the tool [t]: the wrapper is called with
    the arguments of the call and the observation is what the worker
    answered, or the failure text when the worker's call raised. *)
Lemma selected_call_runs (tc : ToolCall) (t : StructuredTool) (s : St World) :
  select_tool (tools (self s)) (call_name tc) = Some t ->
  exists s' result,
    execute_tool_call env tc s = (s', Ok result) /\
    self s' = self s /\
    tool_invocations (trace s') =
      (tool_invocations (trace s)
       ++ [(wrapper_client (coroutine t), wrapper_tool_name (coroutine t), call_args tc)])%list /\
    match worker_call_tool env (wrapper_client (coroutine t))
            (wrapper_tool_name (coroutine t)) (call_args tc) (world s) with
    | (w', Ok r) => world s' = w' /\ result = observation tc (str_result env r)
    | (w', Raise e) => world s' = w' /\ result = observation tc (failure_text tc e)
    end.
Proof.
  intros Hsel. destruct (execute_tool_call_runs env tc s) as (s' & result & Hrun & Hcall).
  exists s', result. split; [exact Hrun|].
  destruct Hcall as [Hnone|t' w' r Hsel' Hw|t' w' e Hsel' Hw]; [congruence| |];
    rewrite Hsel in Hsel'; injection Hsel' as <-; rewrite Hw; cbn [self world trace];
    rewrite tool_invocations_app; auto.
Qed.


(** C4, as amended.  The executor checks no argument against the
    contract: whenever the call's name selects a tool, whatever the
    contract requires and whatever the arguments are, the worker is invoked
    with the arguments as they came, and the observation is the string of
    the worker's result, or the text ["Error executing tool ..."] when the
    worker's call raised. *)
Theorem arguments_dispatched_unvalidated
  (tc : ToolCall) (t : StructuredTool) (s : St World) w' answer :
  select_tool (tools (self s)) (call_name tc) = Some t ->
  worker_call_tool env (wrapper_client (coroutine t)) (wrapper_tool_name (coroutine t))
                   (call_args tc) (world s) = (w', answer) ->
  exists s',
    execute_tool_call env tc s =
      (s', Ok (observation tc match answer with
                              | Ok r => str_result env r
                              | Raise e => failure_text tc e
                              end)) /\
    world s' = w' /\
    tool_invocations (trace s') =
      (tool_invocations (trace s)
       ++ [(wrapper_client (coroutine t), wrapper_tool_name (coroutine t), call_args tc)])%list.
Proof.
  intros Hsel Hw. destruct (selected_call_runs tc s Hsel) as (s' & result & Hrun & _ & Hinv & Hres).
  rewrite Hw in Hres. exists s'.
  destruct answer as [r|e]; destruct Hres as [Hworld ->]; auto.
Qed.

(** C5.  A call whose name selects no tool: the executor returns the
    observation ["Error: Tool <name> not found."] under the call's id, an
    error observation; the world is untouched and the trace gains two log
    lines and no worker invocation; and when such a call is among the calls
    of a turn, [execute_tools] returns (it does not raise) with that
    observation among its results. *)
Theorem unregistered_tool_yields_error_result (tc : ToolCall) (s : St World) :
  select_tool (tools (self s)) (call_name tc) = None ->
  execute_tool_call env tc s =
    (mkSt (world s) (self s)
          (trace s ++ [executing_line env tc; output_line (not_found_text tc)]),
     Ok (observation tc (not_found_text tc))) /\
  is_error (observation tc (not_found_text tc)) = true /\
  forall messages m,
    last_message messages = Some (AI m) ->
    In tc (tool_calls m) ->
    exists s' results,
      execute_tools env messages s = (s', Ok (map Tool results)) /\
      In (observation tc (not_found_text tc)) results.
Proof.
  intros Hsel. split; [|split; [reflexivity|]].
  - destruct (execute_tool_call_runs env tc s) as (s' & result & Hrun & Hcall).
    rewrite Hrun. destruct Hcall; [reflexivity | congruence | congruence].
  - intros messages m Hlast Hin.
    destruct (execute_tools_run env messages s Hlast) as (s' & results & Hrun & Hcalls).
    exists s', results. split; [exact Hrun|].
    eapply calls_run_not_found; eauto.
Qed.

(** C6.  A turn whose calls are [before ++ tc :: after], where the calls
    in [before] have run and the worker's call for [tc] then raises [e]:
    [execute_tools] returns one observation per call, in the order of the
    calls; the one for [tc] is the error observation
    ["Error executing tool <name>: <e>"]; and every call of the turn that
    selects a tool, before or after [tc], has reached its worker exactly
    once. *)
Theorem failing_call_does_not_abort_turn
  (messages : list BaseMessage) (m : AIMessage)
  (before after : list ToolCall) (tc : ToolCall) (t : StructuredTool)
  (s s1 : St World) (results1 : list ToolMessage) w' e :
  last_message messages = Some (AI m) ->
  tool_calls m = (before ++ tc :: after)%list ->
  execute_tool_calls env before [] s = (s1, Ok (map Tool results1)) ->
  select_tool (tools (self s)) (call_name tc) = Some t ->
  worker_call_tool env (wrapper_client (coroutine t)) (wrapper_tool_name (coroutine t))
                   (call_args tc) (world s1) = (w', Raise e) ->
  exists s' results2 evs,
    execute_tools env messages s =
      (s', Ok (map Tool (results1 ++ observation tc (failure_text tc e) :: results2))) /\
    is_error (observation tc (failure_text tc e)) = true /\
    map tool_call_id results2 = map call_id after /\
    trace s' = (trace s ++ evs)%list /\
    tool_invocations evs = invocations_of (tools (self s)) (tool_calls m).
Proof.
  intros Hlast Hcalls Hbefore Hsel Hw.
  destruct (execute_tools_run env messages s Hlast) as (s' & results & Hrun & Hall).
  destruct (calls_run_invocations Hall) as (evs & Htrace & Hinv).
  assert (Hself1 : self s1 = self s).
  { destruct (execute_tool_calls_run env before [] s) as (s0 & rs0 & Heq & Hrun0).
    rewrite Hbefore in Heq. injection Heq as <- _. eapply calls_run_self; eauto. }
  rewrite <- Hself1 in Hsel.
  destruct (selected_call_runs tc s1 Hsel) as (s2 & result & Hcall & _ & _ & Hres).
  rewrite Hw in Hres. destruct Hres as [_ ->].
  destruct (execute_tool_calls_run env after
              (map Tool results1 ++ [Tool (observation tc (failure_text tc e))]) s2)
    as (s3 & results2 & Hafter & Hrun2).
  assert (Hwhole : execute_tools env messages s =
                   (s3, Ok (map Tool (results1 ++ observation tc (failure_text tc e)
                                               :: results2)))).
  { unfold execute_tools. rewrite Hlast, Hcalls, execute_tool_calls_app, Hbefore.
    cbn [execute_tool_calls]. unfold bind. rewrite Hcall, Hafter.
    now rewrite map_app, <- app_assoc. }
  rewrite Hwhole in Hrun. injection Hrun as <- Hres.
  exists s3, results2, evs. split; [exact Hwhole|]. split; [reflexivity|]. split; [|auto].
  apply (calls_run_ids Hrun2).
Qed.

(** C10.  Every observation that [execute_tools] returns is a tool
    message whose content is the string [str(output)] of what its call
    left in [output] (a worker's result object or an error text); and a
    history whose observations all have string content keeps that
    property through any sequence of requests. *)
Theorem observations_have_string_content (s : St World) :
  (forall messages s' update,
     execute_tools env messages s = (s', Ok update) ->
     Forall (fun message =>
               exists tc output,
                 message = Tool (mkToolMessage (call_id tc) (call_name tc)
                                               (CStr (py_str env output))))
            update) /\
  (forall user_inputs,
     forallb observation_is_str (conversation_history (self s)) = true ->
     exists s' outputs,
       submit_all env user_inputs s = (s', Ok outputs) /\
       forallb observation_is_str (conversation_history (self s')) = true).
Proof.
  split.
  - intros messages s' update Hrun.
    destruct (@execute_tools_ok _ _ env _ _ _ _ Hrun) as (m & results & _ & -> & Hcalls).
    apply Forall_map. eapply Forall_impl; [|apply (calls_run_outputs Hcalls)].
    intros r (tc & output & _ & ->). eauto.
  - intros user_inputs Hstr.
    destruct (submit_all_run env user_inputs s)
      as (s' & outputs & appended & evs & Hrun & Hh & _ & Hstr' & _).
    exists s', outputs. split; [exact Hrun|]. rewrite Hh. now apply forallb_app_true.
Qed.

(** C1.  From any state, [execute_tools] on a history that ends with an
    assistant message returns one tool message per tool call of that
    message, carrying the calls' ids in order, without a model query in
    between, and the graph then runs the [agent] node on the history
    extended by exactly these messages.  Hence, over any sequence of
    requests started on a history without an open call, every history the
    model is queried with has, for each assistant message with tool calls,
    the results of all its calls right after it; and so has the recorded
    history at the end.  The history of a new executor is such a start. *)
Theorem tool_results_precede_next_query (s : St World) :
  (forall fuel messages m,
     last_message messages = Some (AI m) ->
     exists s1 results,
       execute_tools env messages s = (s1, Ok (map Tool results)) /\
       map tool_call_id results = map call_id (tool_calls m) /\
       model_queries (trace s1) = model_queries (trace s) /\
       run_graph env (S fuel) tools_node messages s =
       run_graph env fuel agent_node (messages ++ map Tool results) s1) /\
  (forall user_inputs,
     resolved (conversation_history (self s)) ->
     exists s' outputs evs,
       submit_all env user_inputs s = (s', Ok outputs) /\
       trace s' = (trace s ++ evs)%list /\
       Forall resolved (model_queries evs) /\
       resolved (conversation_history (self s'))) /\
  resolved (conversation_history (new_agent env)).
Proof.
  split; [|split; [|reflexivity]].
  - intros fuel messages m Hlast.
    destruct (execute_tools_run env messages s Hlast) as (s1 & results & Hrun & Hcalls).
    exists s1, results. split; [exact Hrun|]. split; [apply (calls_run_ids Hcalls)|]. split.
    + destruct (calls_run_trace Hcalls) as (evs & -> & Hq).
      now rewrite model_queries_app, Hq, app_nil_r.
    + cbn [run_graph]. unfold bind at 1. now rewrite Hrun.
  - intros user_inputs Hres.
    destruct (submit_all_run env user_inputs s)
      as (s' & outputs & appended & evs & Hrun & _ & _ & _ & Htrace & Hinv).
    destruct (Hinv Hres) as [Hres' Hq]. exists s', outputs, evs. auto.
Qed.

Lemma select_tool_app (tools1 tools2 : list StructuredTool) (name : string) (t : StructuredTool) :
  select_tool tools1 name = Some t -> select_tool (tools1 ++ tools2) name = Some t.
Proof.
  unfold select_tool. induction tools1 as [|t1 tools1 IH]; [discriminate|].
  simpl. destruct (String.eqb (tool_name t1) name); auto.
Qed.

(** C7.  [initialize] always completes and compiles the graph; the
    catalogue given to the model is the tool list; no tool in it belongs to
    a configured worker whose start fails; and every configured worker that
    starts and lists its tools has all of them in it. *)
Theorem failed_worker_contributes_no_tools (s : St World) :
  exists s',
    initialize env s = (s', Ok tt) /\
    app (self s') = true /\
    llm_tools (self s') = tools (self s') /\
    (forall server_file,
       In server_file server_files -> start_fails env server_file ->
       forall t, In t (tools (self s')) ->
                 wrapper_client (coroutine t) <> abspath env server_file) /\
    (forall server_file infos server_tools,
       In server_file server_files -> serves env server_file infos ->
       build_tools (abspath env server_file) infos [] = Ok server_tools ->
       incl server_tools (tools (self s'))).
Proof.
  destruct (initialize_run env s) as (s' & Hrun & Happ & Hllm & _ & _ & Hown & Hserved).
  exists s'. repeat split; auto.
  intros server_file _ Hfails t Hin Hclient.
  destruct (Hown t Hin) as (file & w & w1 & _ & Hco & Hc).
  rewrite Hco in Hclient. cbn [wrapper_client] in Hclient. rewrite Hclient in Hc.
  destruct (Hfails w) as (w' & e & Hc'). congruence.
Qed.

End Claims.

(* ===================================================================== *)
(** ** The claims on the concrete deployment *)
(* ===================================================================== *)


(** C4 as the claim states it fails: [kill_process] requires [pid], the
    call gives none, and the worker is invoked with the empty mapping and
    its answer is the observation; [get_heavy_processes] declares [count]
    an integer, the call gives the text ["five"], and the worker is invoked
    with it and its answer is the observation. *)
Lemma missing_required_argument_is_dispatched :
  args_schema Demo.kill_tool = Some Demo.kill_model /\
  missing_required Demo.kill_model (call_args Demo.kill_call) = true /\
  select_tool (tools (self Demo.ready)) "kill_process" = Some Demo.kill_tool /\
  snd (execute_tool_call Demo.env Demo.kill_call Demo.ready)
    = Ok (mkToolMessage "call_4" "kill_process" (CStr "ok: kill_process")) /\
  tool_invocations (trace (fst (execute_tool_call Demo.env Demo.kill_call Demo.ready)))
    = [("/srv/maintenance_server.py", "kill_process", [])] /\
  select_tool (tools (self Demo.ready)) "get_heavy_processes" = Some Demo.heavy_tool /\
  Py.get [("count", (PyInt, PyNone))] "count" = Some (PyInt, PyNone) /\
  call_args Demo.five_call = [("count", JStr "five")] /\
  snd (execute_tool_call Demo.env Demo.five_call Demo.ready)
    = Ok (mkToolMessage "call_5" "get_heavy_processes" (CStr "ok: get_heavy_processes")) /\
  tool_invocations (trace (fst (execute_tool_call Demo.env Demo.five_call Demo.ready)))
    = [("/srv/maintenance_server.py", "get_heavy_processes", [("count", JStr "five")])].
Proof. repeat split. Qed.

(** C4 as amended, at the call of [kill_process] without [pid]. *)
Lemma arguments_dispatched_unvalidated_witness :
  missing_required Demo.kill_model (call_args Demo.kill_call) = true /\
  exists s',
    execute_tool_call Demo.env Demo.kill_call Demo.ready =
      (s', Ok (observation Demo.kill_call "ok: kill_process")) /\
    world s' = 1 /\
    tool_invocations (trace s') =
      (tool_invocations (trace Demo.ready)
       ++ [("/srv/maintenance_server.py", "kill_process", [])])%list.
Proof.
  split; [reflexivity|].
  exact (@arguments_dispatched_unvalidated nat string Demo.env
           Demo.kill_call Demo.kill_tool Demo.ready 1 (Ok "ok: kill_process")
           eq_refl eq_refl).
Defined.

(** C5 at the call of [reboot], which no worker declares. *)
Lemma unregistered_tool_yields_error_result_witness :
  select_tool (tools (self Demo.ready)) "reboot" = None /\
  snd (execute_tool_call Demo.env Demo.reboot_call Demo.ready)
    = Ok (mkToolMessage "call_3" "reboot" (CStr "Error: Tool reboot not found.")) /\
  is_error (mkToolMessage "call_3" "reboot" (CStr "Error: Tool reboot not found.")) = true /\
  exists s' results,
    execute_tools Demo.env Demo.asked Demo.ready = (s', Ok (map Tool results)) /\
    In (mkToolMessage "call_3" "reboot" (CStr "Error: Tool reboot not found.")) results.
Proof.
  pose proof (@unregistered_tool_yields_error_result nat string Demo.env
                Demo.reboot_call Demo.ready eq_refl) as (Hcall & Herr & Hturn).
  split; [reflexivity|]. split; [now rewrite Hcall|]. split; [exact Herr|].
  apply (Hturn Demo.asked Demo.request eq_refl). right. right. now left.
Defined.

(** C6 at a turn of three calls whose second times out. *)
Lemma failing_call_does_not_abort_turn_witness :
  exists s' results2 evs,
    execute_tools Demo.env Demo.asked_mid Demo.ready =
      (s', Ok (map Tool
                 ([mkToolMessage "call_2" "get_heavy_processes" (CStr "ok: get_heavy_processes")]
                  ++ mkToolMessage "call_1" "get_cpu_info"
                       (CStr "Error executing tool get_cpu_info: timed out")
                  :: results2))) /\
    is_error (mkToolMessage "call_1" "get_cpu_info"
                (CStr "Error executing tool get_cpu_info: timed out")) = true /\
    map tool_call_id results2 = ["call_3"] /\
    trace s' = (trace Demo.ready ++ evs)%list /\
    tool_invocations evs =
      [("/srv/maintenance_server.py", "get_heavy_processes",
        [("count", JNum 3); ("verbose", JBool true)]);
       ("/srv/computer_info_server.py", "get_cpu_info", [])].
Proof.
  exact (@failing_call_does_not_abort_turn nat string Demo.env
           Demo.asked_mid Demo.request_mid [Demo.heavy_call] [Demo.reboot_call]
           Demo.cpu_call Demo.cpu_tool Demo.ready
           (fst (execute_tool_calls Demo.env [Demo.heavy_call] [] Demo.ready))
           [mkToolMessage "call_2" "get_heavy_processes" (CStr "ok: get_heavy_processes")]
           2 Demo.timed_out eq_refl eq_refl eq_refl eq_refl eq_refl).
Defined.

(** C10 at the turn of the scripted client and at a session of two
    requests. *)
Lemma observations_have_string_content_witness :
  map message_content
      match snd (execute_tools Demo.env Demo.asked Demo.ready) with
      | Ok update => update
      | Raise _ => []
      end
  = [CStr "Error executing tool get_cpu_info: timed out";
     CStr "ok: get_heavy_processes";
     CStr "Error: Tool reboot not found."] /\
  exists s' outputs,
    submit_all Demo.env ["check my pc"; "again"] Demo.start = (s', Ok outputs) /\
    forallb observation_is_str (conversation_history (self s')) = true.
Proof.
  split; [reflexivity|].
  exact (proj2 (@observations_have_string_content nat string Demo.env Demo.start)
               ["check my pc"; "again"] eq_refl).
Defined.

(** C1 at the turn of the scripted client and at a session of two
    requests. *)
Lemma tool_results_precede_next_query_witness :
  (exists s1 results,
     execute_tools Demo.env Demo.asked Demo.ready = (s1, Ok (map Tool results)) /\
     map tool_call_id results = ["call_1"; "call_2"; "call_3"] /\
     model_queries (trace s1) = model_queries (trace Demo.ready) /\
     run_graph Demo.env 24 tools_node Demo.asked Demo.ready =
     run_graph Demo.env 23 agent_node (Demo.asked ++ map Tool results) s1) /\
  (exists s' outputs evs,
     submit_all Demo.env ["check my pc"; "again"] Demo.start = (s', Ok outputs) /\
     trace s' = (trace Demo.start ++ evs)%list /\
     Forall resolved (model_queries evs) /\
     resolved (conversation_history (self s'))).
Proof.
  split.
  - exact (proj1 (@tool_results_precede_next_query nat string Demo.env Demo.ready)
                 23 Demo.asked Demo.request eq_refl).
  - exact (proj1 (proj2 (@tool_results_precede_next_query nat string Demo.env Demo.start))
                 ["check my pc"; "again"] eq_refl).
Defined.

(** C7 at the deployment whose security worker does not start. *)
Lemma failed_worker_contributes_no_tools_witness :
  start_fails Demo.env "security_server.py" /\
  serves Demo.env "maintenance_server.py" [Demo.get_heavy_processes; Demo.kill_process] /\
  exists s',
    initialize Demo.env Demo.start = (s', Ok tt) /\
    app (self s') = true /\
    (forall t, In t (tools (self s')) ->
               wrapper_client (coroutine t) <> "/srv/security_server.py") /\
    incl [Demo.heavy_tool; Demo.kill_tool] (tools (self s')).
Proof.
  assert (Hfails : start_fails Demo.env "security_server.py").
  { intros w. exists w, Demo.spawn_failed. reflexivity. }
  assert (Hserves : serves Demo.env "maintenance_server.py"
                      [Demo.get_heavy_processes; Demo.kill_process]).
  { split; intros w; exists w; reflexivity. }
  split; [exact Hfails|]. split; [exact Hserves|].
  destruct (@failed_worker_contributes_no_tools nat string Demo.env Demo.start)
    as (s' & Hrun & Happ & _ & Hnone & Hall).
  exists s'. split; [exact Hrun|]. split; [exact Happ|]. split.
  - apply (Hnone "security_server.py"); [right; now left | exact Hfails].
  - apply (Hall "maintenance_server.py" [Demo.get_heavy_processes; Demo.kill_process]);
      [right; right; now left | exact Hserves | reflexivity].
Defined.

(* ===================================================================== *)
(** ** More on the argument contract *)
(* ===================================================================== *)

Lemma keys_set_new {V} (d : Py.dict V) (k : string) (v : V) :
  ~ In k (Py.keys d) -> Py.keys (Py.set d k v) = (Py.keys d ++ [k])%list.
Proof.
  induction d as [|[k0 v0] d IH]; intros Hnot; [reflexivity|].
  simpl. destruct (String.eqb_spec k0 k) as [->|Hne].
  - exfalso. apply Hnot. now left.
  - simpl. f_equal. apply IH. intros Hin. apply Hnot. now right.
Qed.

(** A malformed tool makes the whole listing fail. *)
Lemma build_tools_raises (path : string) (infos : list tool_info) (info : tool_info) e0 :
  In info infos ->
  build_tool path info = Raise e0 ->
  forall acc, exists e, build_tools path infos acc = Raise e.
Proof.
  induction infos as [|info0 infos IH]; intros Hin Hbad acc; [contradiction|].
  cbn [build_tools]. unfold obind.
  destruct (build_tool path info0) as [t|e] eqn:Hb; [|eauto].
  destruct Hin as [->|Hin]; [congruence|]. apply IH; auto.
Qed.

(** X1.  For every declared property that the schema's [required] lists,
    the entry that the loop of [get_tools] leaves in [fields], the field
    definitions it hands to [create_model], is [(python_type, ...)]: the
    type is read from the ["type"] entry of the property's (last)
    definition and the second component is the ellipsis, never a default
    value. *)
Theorem required_parameter_has_no_default
  (items : list (string * json)) (required : json) (name : string) :
  forall fields0 fields,
    compile_fields items required fields0 = Ok fields ->
    In name (Py.keys items) ->
    Py.contains required name = Ok true ->
    exists field_def field_type,
      In (name, field_def) items /\
      Py.json_get field_def "type" (JStr "string") = Ok field_type /\
      Py.get fields name = Some (python_type_of field_type, Ellipsis).
Proof.
  induction items as [|[field_name field_def] items IH]; intros fields0 fields Hc Hin Hreq;
    [contradiction|].
  destruct (in_dec string_dec name (Py.keys items)) as [Hlater|Hlast].
  - cbn [compile_fields] in Hc. unfold obind in Hc.
    destruct (Py.json_get field_def "type" (JStr "string")) as [ft|]; [|discriminate].
    destruct (Py.contains required field_name) as [[|]|]; [| |discriminate];
      destruct (IH _ _ Hc Hlater Hreq) as (fd & fty & Hfd & Hty & Hget);
      exists fd, fty; (split; [now right | auto]).
  - destruct Hin as [Hname|Hin]; [|contradiction]. simpl in Hname. subst field_name.
    cbn [compile_fields] in Hc. unfold obind in Hc.
    destruct (Py.json_get field_def "type" (JStr "string")) as [ft|] eqn:Hty; [|discriminate].
    rewrite Hreq in Hc.
    exists field_def, ft. split; [now left|]. split; [exact Hty|].
    apply compile_fields_keeps with (name := name) in Hc; [|exact Hlast].
    rewrite Hc. apply get_set_same.
Qed.

(** X1 at the schema of [kill_process], which lists [pid] under
    [required]. *)
Lemma required_parameter_has_no_default_witness :
  exists field_def field_type,
    In ("pid", field_def)
       [("pid", JObj [("title", JStr "Pid"); ("type", JStr "integer")])] /\
    Py.json_get field_def "type" (JStr "string") = Ok field_type /\
    Py.get [("pid", (PyInt, Ellipsis))] "pid" = Some (python_type_of field_type, Ellipsis).
Proof.
  apply (@required_parameter_has_no_default
           [("pid", JObj [("title", JStr "Pid"); ("type", JStr "integer")])]
           (JArr [JStr "pid"]) "pid" [] [("pid", (PyInt, Ellipsis))]);
    [reflexivity | now left | reflexivity].
Defined.

(** X2.  When the loop of [get_tools] over the declared properties
    completes, [fields] holds one entry per declared property, after the
    entries it started with and in the order of declaration (the names of
    a dictionary's entries are distinct; the code starts from the empty
    dictionary).  These are the field definitions handed to
    [create_model]. *)
Theorem fields_follow_declared_properties
  (items : list (string * json)) (required : json) :
  forall fields0 fields,
    compile_fields items required fields0 = Ok fields ->
    NoDup (Py.keys fields0 ++ Py.keys items) ->
    Py.keys fields = (Py.keys fields0 ++ Py.keys items)%list.
Proof.
  induction items as [|[field_name field_def] items IH]; intros fields0 fields Hc Hnd.
  - injection Hc as <-. now rewrite app_nil_r.
  - assert (Hnew : ~ In field_name (Py.keys fields0)).
    { intros Hin. apply NoDup_remove_2 in Hnd. apply Hnd. apply in_or_app. now left. }
    cbn [compile_fields] in Hc. unfold obind in Hc.
    destruct (Py.json_get field_def "type" (JStr "string")) as [ft|]; [|discriminate].
    destruct (Py.contains required field_name) as [[|]|]; [| |discriminate];
      (apply IH in Hc;
       [rewrite Hc, keys_set_new by exact Hnew; now rewrite <- app_assoc
       |rewrite keys_set_new by exact Hnew; now rewrite <- app_assoc]).
Qed.

(** X2 at a schema with the two properties [path] and [depth], of which
    the second is required. *)
Lemma fields_follow_declared_properties_witness :
  Py.keys [("path", (PyStr, PyNone)); ("depth", (PyInt, Ellipsis))]
  = ([] ++ ["path"; "depth"])%list.
Proof.
  apply (@fields_follow_declared_properties
           [("path", JObj [("type", JStr "string")]);
            ("depth", JObj [("type", JStr "integer")])]
           (JArr [JStr "depth"]) []
           [("path", (PyStr, PyNone)); ("depth", (PyInt, Ellipsis))] eq_refl).
  repeat constructor; simpl; intuition discriminate.
Defined.

(** X3.  With a list under [required], the loop of [get_tools] over the
    declared properties completes exactly when every property definition
    is an object; on a definition that is not, it raises
    [AttributeError]. *)
Theorem fields_compile_iff_definitions_are_objects
  (items : list (string * json)) (required : list json) :
  forall fields0,
    if definitions_are_objects items
    then exists fields, compile_fields items (JArr required) fields0 = Ok fields
    else exists e, compile_fields items (JArr required) fields0 = Raise e /\
                   exc_class e = "AttributeError".
Proof.
  induction items as [|[field_name field_def] items IH]; intros fields0.
  - simpl. eauto.
  - unfold definitions_are_objects in *. cbn [forallb snd compile_fields].
    destruct field_def; cbn [Py.json_get obind andb]; eauto.
    cbn [Py.contains obind].
    match goal with
    | |- context [existsb ?f required] => destruct (existsb f required)
    end; apply IH.
Qed.

(** X3 at the schema of [kill_process], whose definitions are objects, and
    at a schema whose property is defined by a string. *)
Lemma fields_compile_iff_definitions_are_objects_witness :
  (exists fields,
      compile_fields [("pid", JObj [("title", JStr "Pid"); ("type", JStr "integer")])]
                     (JArr [JStr "pid"]) [] = Ok fields) /\
  (exists e,
      compile_fields [("pid", JStr "integer")] (JArr []) [] = Raise e /\
      exc_class e = "AttributeError").
Proof.
  split.
  - exact (@fields_compile_iff_definitions_are_objects
             [("pid", JObj [("title", JStr "Pid"); ("type", JStr "integer")])]
             [JStr "pid"] []).
  - exact (@fields_compile_iff_definitions_are_objects
             [("pid", JStr "integer")] [] []).
Defined.

(* ===================================================================== *)
(** ** More on discovery and setup *)
(* ===================================================================== *)

Lemma log_lines_app evs1 evs2 :
  log_lines (evs1 ++ evs2) = (log_lines evs1 ++ log_lines evs2)%list.
Proof.
  induction evs1 as [|ev evs1 IH]; [reflexivity|].
  destruct ev; simpl; now rewrite IH.
Qed.

Lemma worker_starts_app evs1 evs2 :
  worker_starts (evs1 ++ evs2) = (worker_starts evs1 ++ worker_starts evs2)%list.
Proof.
  induction evs1 as [|ev evs1 IH]; [reflexivity|].
  destruct ev; simpl; now rewrite IH.
Qed.

Lemma worker_listings_app evs1 evs2 :
  worker_listings (evs1 ++ evs2) = (worker_listings evs1 ++ worker_listings evs2)%list.
Proof.
  induction evs1 as [|ev evs1 IH]; [reflexivity|].
  destruct ev; simpl; now rewrite IH.
Qed.

Lemma bound_catalogues_app evs1 evs2 :
  bound_catalogues (evs1 ++ evs2) = (bound_catalogues evs1 ++ bound_catalogues evs2)%list.
Proof.
  induction evs1 as [|ev evs1 IH]; [reflexivity|].
  destruct ev; simpl; now rewrite IH.
Qed.

Section DiscoveryFacts.

Variables World CallToolResult : Type.
Variable env : Env World CallToolResult.

(** X4.  When [get_tools] returns, the client is connected, the worker was
    asked once for its tools, and the result has one tool per listed tool,
    in the order listed, under the listed name, each bound to this client
    under that same name. *)
Theorem listed_tools_are_wrapped_in_order
  (client : MCPClient) (s s' : St World) (ts : list StructuredTool) :
  get_tools env client s = (s', Ok ts) ->
  session client = true /\
  trace s' = (trace s ++ [EvListTools (server_script_path client)])%list /\
  exists infos,
    worker_list_tools env (server_script_path client) (world s) = (world s', Ok infos) /\
    map tool_name ts = map info_name infos /\
    Forall (fun t => coroutine t = mkWrapper (server_script_path client) (tool_name t)) ts.
Proof.
  unfold get_tools, bind, external, lift, raise. intros Hrun.
  destruct (session client); cbn [negb] in Hrun; [|discriminate].
  destruct (worker_list_tools env (server_script_path client) (world s))
    as [w' [infos|e]] eqn:Hlist; [|discriminate].
  destruct (build_tools (server_script_path client) infos []) as [built|e] eqn:Hb;
    [|discriminate].
  injection Hrun as <- <-. cbn [trace world]. split; [reflexivity|]. split; [reflexivity|].
  exists infos. split; [reflexivity|].
  apply build_tools_built in Hb. destruct Hb as (built' & -> & Hn & Hown). auto.
Qed.

(** X5.  A worker that starts and lists its tools, one of which has a
    schema that does not compile, contributes no tool at all: the tool list
    is left as it was, the client stays registered in [mcp_clients] with
    its session, and the one line logged reports a failure to connect. *)
Theorem malformed_schema_drops_worker_tools
  (server_file : string) (tools0 : list StructuredTool) (s : St World)
  (infos : list tool_info) (info : tool_info) w1 w2 e0 :
  worker_connect env (abspath env server_file) (world s) = (w1, Ok tt) ->
  worker_list_tools env (abspath env server_file) w1 = (w2, Ok infos) ->
  In info infos ->
  build_tool (abspath env server_file) info = Raise e0 ->
  exists s' e,
    connect_server env server_file tools0 s = (s', Ok tools0) /\
    tools (self s') = tools (self s) /\
    mcp_clients (self s')
    = (mcp_clients (self s) ++ [mkClient (abspath env server_file) true])%list /\
    log_lines (trace s')
    = (log_lines (trace s)
       ++ [("[Error] Failed to connect to " ++ server_file ++ ": " ++ exc_str e)%string])%list.
Proof.
  intros Hc Hl Hin Hbad.
  destruct (@build_tools_raises _ infos info e0 Hin Hbad []) as [e Hb].
  unfold connect_server, connect, get_tools, try_except, external, get_self,
    set_self, log_callback, emit, lift, raise, bind, ret. simpl.
  rewrite Hc. simpl. rewrite Hl. simpl. rewrite Hb. simpl.
  eexists _, e. split; [reflexivity|]. simpl.
  rewrite !log_lines_app. simpl. rewrite !app_nil_r. auto.
Qed.

End DiscoveryFacts.

(** X4 at the maintenance worker, which lists two tools. *)
Lemma listed_tools_are_wrapped_in_order_witness :
  session (mkClient "/srv/maintenance_server.py" true) = true /\
  trace (fst (get_tools Demo.env (mkClient "/srv/maintenance_server.py" true) Demo.start))
  = (trace Demo.start ++ [EvListTools "/srv/maintenance_server.py"])%list /\
  exists infos,
    worker_list_tools Demo.env "/srv/maintenance_server.py" (world Demo.start)
    = (world (fst (get_tools Demo.env (mkClient "/srv/maintenance_server.py" true)
                     Demo.start)), Ok infos) /\
    map tool_name [Demo.heavy_tool; Demo.kill_tool] = map info_name infos /\
    Forall (fun t => coroutine t = mkWrapper "/srv/maintenance_server.py" (tool_name t))
           [Demo.heavy_tool; Demo.kill_tool].
Proof.
  exact (@listed_tools_are_wrapped_in_order nat string Demo.env
           (mkClient "/srv/maintenance_server.py" true) Demo.start _
           [Demo.heavy_tool; Demo.kill_tool] eq_refl).
Defined.

(** X5 at a maintenance worker that lists a malformed tool after a good
    one. *)
Lemma malformed_schema_drops_worker_tools_witness :
  exists s' e,
    connect_server Cases.env_broken "maintenance_server.py" [Demo.cpu_tool] Cases.start_broken
    = (s', Ok [Demo.cpu_tool]) /\
    tools (self s') = tools (self Cases.start_broken) /\
    mcp_clients (self s')
    = (mcp_clients (self Cases.start_broken)
       ++ [mkClient "/srv/maintenance_server.py" true])%list /\
    log_lines (trace s')
    = (log_lines (trace Cases.start_broken)
       ++ [("[Error] Failed to connect to " ++ "maintenance_server.py" ++ ": "
            ++ exc_str e)%string])%list.
Proof.
  exact (@malformed_schema_drops_worker_tools nat string Cases.env_broken
           "maintenance_server.py" [Demo.cpu_tool] Cases.start_broken
           [Demo.get_heavy_processes; Cases.broken_tool] Cases.broken_tool 0 0
           (mkExn "AttributeError" "object has no attribute 'get'")
           eq_refl eq_refl (or_intror (or_introl eq_refl)) eq_refl).
Defined.

(* ===================================================================== *)
(** ** More on turns *)
(* ===================================================================== *)

Lemma request_events_nil bound : request_events bound [].
Proof. repeat split. constructor. Qed.

Lemma request_events_app bound evs1 evs2 :
  request_events bound evs1 -> request_events bound evs2 ->
  request_events bound (evs1 ++ evs2).
Proof.
  intros (Hs1 & Hl1 & Hb1) (Hs2 & Hl2 & Hb2). unfold request_events.
  rewrite worker_starts_app, worker_listings_app, bound_catalogues_app, Hs1, Hs2, Hl1, Hl2.
  repeat split. apply Forall_app. auto.
Qed.

Lemma invocations_of_app tools calls1 calls2 :
  invocations_of tools (calls1 ++ calls2)
  = (invocations_of tools calls1 ++ invocations_of tools calls2)%list.
Proof. unfold invocations_of. apply flat_map_app. Qed.

Lemma requested_calls_app messages1 messages2 :
  requested_calls (messages1 ++ messages2)
  = (requested_calls messages1 ++ requested_calls messages2)%list.
Proof.
  induction messages1 as [|m messages1 IH]; [reflexivity|].
  destruct m; simpl; rewrite IH; auto using app_assoc.
Qed.

Lemma requested_calls_observations (results : list ToolMessage) :
  requested_calls (map Tool results) = [].
Proof. induction results; simpl; auto. Qed.

Section TurnFacts.

Variables World CallToolResult : Type.
Variable env : Env World CallToolResult.

(** What running the calls of a turn does to the outside. *)
Lemma calls_run_effects tcs (s s' : St World) rs bound :
  calls_run env tcs s s' rs ->
  exists evs,
    trace s' = (trace s ++ evs)%list /\
    request_events bound evs /\
    tool_invocations evs = invocations_of (tools (self s)) tcs.
Proof.
  induction 1 as [|tc rest s s1 s2 r rs Hcall _ (evs2 & Ht2 & Hq2 & Hi2)].
  - exists []. rewrite app_nil_r. split; [reflexivity|]. split; [apply request_events_nil|].
    reflexivity.
  - rewrite (call_runs_self Hcall) in Hi2.
    unfold invocations_of. cbn [flat_map]. fold (invocations_of (tools (self s)) rest).
    destruct Hcall as [Hsel|t w' v Hsel Hw|t w' e Hsel Hw]; rewrite Hsel;
      cbn [trace] in Ht2; eexists; rewrite Ht2, <- app_assoc;
      (split; [reflexivity|]);
      (split; [apply request_events_app; [repeat split; constructor | exact Hq2]|]);
      rewrite tool_invocations_app, Hi2; reflexivity.
Qed.

(** What a run of the graph does to the outside: no worker is started or
    listed, every model query uses the bound catalogue, and a run that
    returns ends on an assistant message without tool calls, having
    invoked exactly the waiting and the newly requested calls that select
    a tool. *)
Lemma run_graph_effects (fuel : nat) :
  forall (n : node) (messages : list BaseMessage) (s s' : St World) r,
    run_graph env fuel n messages s = (s', r) ->
    exists evs,
      trace s' = (trace s ++ evs)%list /\
      request_events (llm_tools (self s)) evs /\
      forall final, r = Ok final ->
        exists new,
          final = (messages ++ new)%list /\
          (exists m, last_message final = Some (AI m) /\ tool_calls m = []) /\
          tool_invocations evs
          = invocations_of (tools (self s)) (waiting_calls n messages ++ requested_calls new).
Proof.
  induction fuel as [|fuel IH]; intros n messages s s' r Hrun.
  - injection Hrun as <- <-. exists []. rewrite app_nil_r.
    split; [reflexivity|]. split; [apply request_events_nil | discriminate].
  - destruct n; cbn [run_graph] in Hrun; unfold bind at 1 in Hrun.
    + rewrite call_model_run in Hrun.
      destruct (model_ainvoke env (llm_tools (self s)) messages (world s))
        as [w' [response|e]].
      * unfold bind at 1 in Hrun. rewrite should_continue_run in Hrun.
        destruct (tool_calls response) as [|tc tcs] eqn:Hcalls.
        -- destruct fuel as [|fuel']; injection Hrun as <- <-;
             (eexists; split; [reflexivity|]; split; [repeat split; repeat constructor|]);
             [discriminate|].
           intros final [= <-]. exists [AI response]. split; [reflexivity|]. split.
              ** exists response. split; [apply last_message_snoc | exact Hcalls].
              ** simpl. now rewrite Hcalls.
        -- apply IH in Hrun. destruct Hrun as (evs & Htrace & Hev & Hfinal).
           cbn [trace self] in Htrace, Hev, Hfinal.
           eexists. split; [rewrite Htrace, <- !app_assoc; reflexivity|]. split.
           ++ apply (@request_events_app _ [_; _] (_ :: evs)).
              ** repeat split. repeat constructor.
              ** apply (@request_events_app _ [_] evs); [|exact Hev].
                 repeat split. constructor.
           ++ intros final Hfin. destruct (Hfinal final Hfin) as (new & -> & Hlast & Hinv).
              exists (AI response :: new). split; [now rewrite <- app_assoc|].
              split; [exact Hlast|].
              cbn [List.app tool_invocations]. rewrite Hinv.
              cbn [waiting_calls requested_calls List.app]. now rewrite last_message_snoc.
      * injection Hrun as <- <-. eexists. split; [reflexivity|]. split; [|discriminate].
        repeat split. repeat constructor.
    + destruct (execute_tools env messages s) as [s1 [update|e]] eqn:Htools.
      * destruct (@execute_tools_ok _ _ env messages update s s1 Htools)
          as (m & rs & Hlast & -> & Hcalls).
        apply IH in Hrun. destruct Hrun as (evs & Htrace & Hev & Hfinal).
        destruct (calls_run_effects (llm_tools (self s)) Hcalls) as (evs1 & Htrace1 & Hev1 & Hinv1).
        rewrite (calls_run_self Hcalls) in Hev, Hfinal.
        exists (evs1 ++ evs)%list. split; [rewrite Htrace, Htrace1, <- app_assoc; reflexivity|].
        split; [now apply request_events_app|].
        intros final Hfin. destruct (Hfinal final Hfin) as (new & -> & Hlastf & Hinv).
        exists (map Tool rs ++ new)%list. split; [now rewrite <- app_assoc|].
        split; [exact Hlastf|].
        rewrite tool_invocations_app, Hinv1, Hinv.
        cbn [waiting_calls List.app]. rewrite Hlast.
        now rewrite requested_calls_app, requested_calls_observations, invocations_of_app.
      * injection Hrun as <- <-. apply execute_tools_raise in Htools. subst s1.
        exists []. rewrite app_nil_r. split; [reflexivity|].
        split; [apply request_events_nil | discriminate].
Qed.

End TurnFacts.

(* ===================================================================== *)
(** ** More on setup: who is started, listed and registered *)
(* ===================================================================== *)

Section RegistrationFacts.

Variables World CallToolResult : Type.
Variable env : Env World CallToolResult.

(** One iteration of the loop of [initialize], seen from outside. *)
Lemma connect_server_effects (server_file : string) (tools0 : list StructuredTool)
  (s : St World) :
  exists s' ts evs clients,
    connect_server env server_file tools0 s = (s', Ok ts) /\
    trace s' = (trace s ++ evs)%list /\
    worker_starts evs = [abspath env server_file] /\
    worker_listings evs = map server_script_path clients /\
    mcp_clients (self s') = (mcp_clients (self s) ++ clients)%list /\
    match worker_connect env (abspath env server_file) (world s) with
    | (_, Ok _) => clients = [mkClient (abspath env server_file) true]
    | (_, Raise _) => clients = []
    end.
Proof.
  unfold connect_server, connect, get_tools, try_except, external, get_self,
    set_self, log_callback, emit, lift, raise, bind, ret. simpl.
  destruct (worker_connect env (abspath env server_file) (world s))
    as [w1 [[]|e]] eqn:Hconnect; simpl.
  - destruct (worker_list_tools env (abspath env server_file) w1)
      as [w2 [infos|e]] eqn:Hlist; simpl.
    + destruct (build_tools (abspath env server_file) infos []) as [ts|e] eqn:Hbuild; simpl;
        eexists _, _, _, [_]; (split; [reflexivity|]); simpl;
        rewrite <- !app_assoc; repeat split; try reflexivity.
    + eexists _, _, _, [_]. split; [reflexivity|]. simpl.
      rewrite <- !app_assoc. repeat split; try reflexivity.
  - eexists _, _, _, []. split; [reflexivity|]. simpl.
    split; [rewrite <- app_assoc; reflexivity|].
    repeat split; try reflexivity. now rewrite app_nil_r.
Qed.

(** The loop of [initialize], seen from outside. *)
Lemma connect_servers_effects (files : list string) :
  forall (tools0 : list StructuredTool) (s : St World),
  exists s' ts evs clients,
    connect_servers env files tools0 s = (s', Ok ts) /\
    trace s' = (trace s ++ evs)%list /\
    worker_starts evs = map (abspath env) files /\
    worker_listings evs = map server_script_path clients /\
    mcp_clients (self s') = (mcp_clients (self s) ++ clients)%list /\
    (forall client, In client clients ->
       exists file w w1,
         In file files /\
         client = mkClient (abspath env file) true /\
         worker_connect env (abspath env file) w = (w1, Ok tt)) /\
    (forall file,
       In file files ->
       (forall w, exists w', worker_connect env (abspath env file) w = (w', Ok tt)) ->
       In (mkClient (abspath env file) true) clients).
Proof.
  induction files as [|file files IH]; intros tools0 s.
  - exists s, tools0, [], []. rewrite !app_nil_r. repeat split; try contradiction.
  - destruct (connect_server_effects file tools0 s)
      as (s1 & ts1 & evs1 & cs1 & Hrun1 & Ht1 & Hs1 & Hl1 & Hm1 & Hcase).
    destruct (IH ts1 s1) as (s2 & ts2 & evs2 & cs2 & Hrun2 & Ht2 & Hs2 & Hl2 & Hm2 & Hown & Hall).
    exists s2, ts2, (evs1 ++ evs2)%list, (cs1 ++ cs2)%list.
    split; [cbn [connect_servers]; unfold bind; now rewrite Hrun1, Hrun2|].
    split; [now rewrite Ht2, Ht1, <- app_assoc|].
    split; [now rewrite worker_starts_app, Hs1, Hs2|].
    split; [now rewrite worker_listings_app, Hl1, Hl2, map_app|].
    split; [now rewrite Hm2, Hm1, <- app_assoc|]. split.
    + intros client Hin. apply in_app_or in Hin. destruct Hin as [Hin|Hin].
      * destruct (worker_connect env (abspath env file) (world s)) as [w1 [[]|e]] eqn:Hc;
          subst cs1; [|contradiction].
        destruct Hin as [<-|[]]. exists file, (world s), w1. simpl. auto.
      * destruct (Hown client Hin) as (f & w & w1 & Hf & Hcl & Hc).
        exists f, w, w1. simpl. auto.
    + intros f [<-|Hin] Halways.
      * destruct (Halways (world s)) as [w' Hc]. rewrite Hc in Hcase. subst cs1.
        apply in_or_app. left. now left.
      * apply in_or_app. right. auto.
Qed.

(** [initialize] starts the configured workers, in order. *)
Lemma initialize_starts (s : St World) :
  exists s' evs,
    initialize env s = (s', Ok tt) /\
    trace s' = (trace s ++ evs)%list /\
    worker_starts evs = map (abspath env) server_files.
Proof.
  unfold initialize, bind, log_callback, emit, get_self, set_self, ret. cbv beta.
  match goal with
  | |- context [connect_servers env server_files [] ?s0] =>
      destruct (connect_servers_effects server_files [] s0)
        as (s1 & ts & evs & clients & Hrun & Ht & Hs & _)
  end.
  rewrite Hrun. cbn [trace] in *.
  eexists _, (_ :: evs ++ [_])%list. split; [reflexivity|]. cbn [trace].
  split; [rewrite Ht, <- !app_assoc; reflexivity|].
  cbn [worker_starts]. rewrite worker_starts_app, Hs. apply app_nil_r.
Qed.

(** X6.  [initialize] starts every configured worker exactly once, in the
    configured order, and asks exactly the workers that started for their
    tools; the clients it registers in [mcp_clients] are those of the
    workers that started, each with its session, whether or not listing
    their tools succeeded: no client is registered for a worker whose
    start fails, and one is for every worker that starts. *)
Theorem started_workers_are_registered (s : St World) :
  exists s' evs clients,
    initialize env s = (s', Ok tt) /\
    trace s' = (trace s ++ evs)%list /\
    worker_starts evs = map (abspath env) server_files /\
    worker_listings evs = map server_script_path clients /\
    mcp_clients (self s') = (mcp_clients (self s) ++ clients)%list /\
    Forall (fun client => session client = true) clients /\
    (forall server_file,
       In server_file server_files -> start_fails env server_file ->
       ~ In (abspath env server_file) (map server_script_path clients)) /\
    (forall server_file,
       In server_file server_files ->
       (forall w, exists w', worker_connect env (abspath env server_file) w = (w', Ok tt)) ->
       In (mkClient (abspath env server_file) true) clients).
Proof.
  unfold initialize, bind, log_callback, emit, get_self, set_self, ret. cbv beta.
  match goal with
  | |- context [connect_servers env server_files [] ?s0] =>
      destruct (connect_servers_effects server_files [] s0)
        as (s1 & ts & evs & clients & Hrun & Ht & Hs & Hl & Hm & Hown & Hall)
  end.
  rewrite Hrun. cbn [trace self mcp_clients] in *.
  eexists _, (_ :: evs ++ [_])%list, clients. split; [reflexivity|].
  cbn [trace self mcp_clients].
  split; [rewrite Ht, <- !app_assoc; reflexivity|].
  split; [cbn [worker_starts]; rewrite worker_starts_app, Hs; apply app_nil_r|].
  split; [cbn [worker_listings]; rewrite worker_listings_app, Hl; apply app_nil_r|].
  split; [exact Hm|]. split; [|split; [|exact Hall]].
  - apply Forall_forall. intros client Hin.
    destruct (Hown client Hin) as (f & w & w1 & _ & -> & _). reflexivity.
  - intros server_file _ Hfails Hin. apply in_map_iff in Hin.
    destruct Hin as (client & Hpath & Hin).
    destruct (Hown client Hin) as (f & w & w1 & _ & -> & Hc).
    cbn [server_script_path] in Hpath. rewrite Hpath in Hc.
    destruct (Hfails w) as (w' & e & Hc'). congruence.
Qed.

End RegistrationFacts.

(** X6 at the deployment whose security worker does not start. *)
Lemma started_workers_are_registered_witness :
  start_fails Demo.env "security_server.py" /\
  exists s' evs clients,
    initialize Demo.env Demo.start = (s', Ok tt) /\
    trace s' = (trace Demo.start ++ evs)%list /\
    worker_starts evs
    = ["/srv/computer_info_server.py"; "/srv/security_server.py";
       "/srv/maintenance_server.py"] /\
    worker_listings evs = map server_script_path clients /\
    ~ In "/srv/security_server.py" (map server_script_path clients) /\
    In (mkClient "/srv/maintenance_server.py" true) clients.
Proof.
  assert (Hfails : start_fails Demo.env "security_server.py").
  { intros w. exists w, Demo.spawn_failed. reflexivity. }
  split; [exact Hfails|].
  destruct (@started_workers_are_registered nat string Demo.env Demo.start)
    as (s' & evs & clients & Hrun & Ht & Hs & Hl & _ & _ & Hnone & Hall).
  exists s', evs, clients. repeat split; auto.
  - apply (Hnone "security_server.py"); [right; now left | exact Hfails].
  - apply (Hall "maintenance_server.py"); [right; right; now left|].
    intros w. exists w. reflexivity.
Defined.

(* ===================================================================== *)
(** ** More on requests *)
(* ===================================================================== *)

Lemma select_tool_name (tools : list StructuredTool) (name : string) (t : StructuredTool) :
  select_tool tools name = Some t -> In t tools /\ tool_name t = name.
Proof.
  unfold select_tool. intros Hfind. apply find_some in Hfind.
  destruct Hfind as [Hin Heq]. split; [exact Hin|]. now apply String.eqb_eq.
Qed.

Lemma same_setup_refl (a : Agent) : same_setup a a.
Proof. repeat split. Qed.

Section RequestFacts.

Variables World CallToolResult : Type.
Variable env : Env World CallToolResult.

(** On an initialized executor, [invoke] is its [try] and [except] blocks
    run on the state with the user's message. *)
Lemma invoke_initialized (inputs : Py.dict string) (s : St World) :
  app (self s) = true ->
  invoke env inputs s =
  try_except
    (invoke_try env (conversation_history (self s)
                     ++ [HumanMessage (Py.get_or inputs "input" "")]))
    (invoke_except (World := World))
    (submitted s (Py.get_or inputs "input" "")).
Proof.
  intros Happ. unfold invoke. unfold bind at 1, get_self at 1. unfold bind at 1.
  rewrite Happ. reflexivity.
Qed.

(** On an executor that is not initialized, [invoke] first initializes
    it. *)
Lemma invoke_uninitialized (inputs : Py.dict string) (s s1 : St World) :
  app (self s) = false ->
  initialize env s = (s1, Ok tt) ->
  invoke env inputs s = invoke env inputs s1.
Proof.
  intros Happ Hinit.
  destruct (initialize_run env s) as (s1' & Hinit' & Happ1 & _).
  rewrite Hinit in Hinit'. injection Hinit' as <-.
  rewrite (invoke_initialized inputs s1 Happ1).
  unfold invoke. unfold bind at 1, get_self at 1. unfold bind at 1.
  rewrite Happ, Hinit. reflexivity.
Qed.

(** The [try] block leaves the setup alone and talks only to the model
    and to tools. *)
Lemma invoke_try_effects (init : list BaseMessage) (s s' : St World) r :
  invoke_try env init s = (s', r) ->
  same_setup (self s) (self s') /\
  exists evs,
    trace s' = (trace s ++ evs)%list /\
    request_events (llm_tools (self s)) evs.
Proof.
  intros Hrun. unfold invoke_try, ainvoke in Hrun. unfold bind at 1 in Hrun.
  destruct (run_graph env (recursion_limit env) agent_node init s) as [s1 [final|e]] eqn:Hgraph.
  - destruct (run_graph_spec env _ _ _ _ Hgraph) as (Hself & _).
    destruct (run_graph_effects env _ _ _ _ Hgraph) as (evs & Htrace & Hev & _).
    unfold bind at 1 in Hrun. destruct (last_message final) as [last|].
    + unfold bind, ret, get_self, set_self, lift in Hrun. cbv beta in Hrun.
      assert (Hs' : same_setup (self s1) (self s') /\ trace s' = trace s1).
      { destruct (output_text_of (message_content last));
          injection Hrun as <- _; simpl; split; auto using same_setup_refl;
          repeat split. }
      destruct Hs' as [Hsame Ht]. rewrite Hself in Hsame. split; [exact Hsame|].
      exists evs. rewrite Ht. auto.
    + unfold raise in Hrun. injection Hrun as <- _. rewrite Hself.
      split; [apply same_setup_refl | eauto].
  - injection Hrun as <- _.
    destruct (run_graph_spec env _ _ _ _ Hgraph) as (Hself & _).
    destruct (run_graph_effects env _ _ _ _ Hgraph) as (evs & Htrace & Hev & _).
    rewrite Hself. split; [apply same_setup_refl | eauto].
Qed.

(** A request on an initialized executor, seen from outside. *)
Lemma invoke_frozen (inputs : Py.dict string) (s : St World) :
  app (self s) = true ->
  exists s' output evs,
    invoke env inputs s = (s', Ok output) /\
    same_setup (self s) (self s') /\
    trace s' = (trace s ++ evs)%list /\
    request_events (llm_tools (self s)) evs.
Proof.
  intros Happ. rewrite (invoke_initialized inputs s Happ). unfold try_except.
  set (u := Py.get_or inputs "input" "").
  destruct (invoke_try env (conversation_history (self s) ++ [HumanMessage u]) (submitted s u))
    as [s3 [output|e]] eqn:Htry;
    destruct (invoke_try_effects _ _ Htry) as (Hsame & evs & Ht & Hev);
    cbn [submitted self trace llm_tools] in Hsame, Ht, Hev.
  - exists s3, output, (EvLog ("[LangGraph] Processing: " ++ u) :: evs).
    split; [reflexivity|]. split; [|split].
    + destruct Hsame as (H1 & H2 & H3 & H4). repeat split; assumption.
    + rewrite Ht, <- app_assoc. reflexivity.
    + apply (@request_events_app _ [_] evs); [repeat split; constructor | exact Hev].
  - destruct (invoke_except_run e s3) as [text Hexc]. rewrite Hexc.
    eexists _, text, (EvLog ("[LangGraph] Processing: " ++ u) :: evs ++ [_])%list.
    split; [reflexivity|]. cbn [self trace]. split; [|split].
    + destruct Hsame as (H1 & H2 & H3 & H4). repeat split; assumption.
    + rewrite Ht, <- !app_assoc. reflexivity.
    + apply (@request_events_app _ [_] (evs ++ [_])); [repeat split; constructor|].
      apply request_events_app; [exact Hev | repeat split; constructor].
Qed.

(** A sequence of requests on an initialized executor. *)
Lemma submit_all_frozen (user_inputs : list string) :
  forall s : St World,
    app (self s) = true ->
    exists s' outputs evs,
      submit_all env user_inputs s = (s', Ok outputs) /\
      same_setup (self s) (self s') /\
      trace s' = (trace s ++ evs)%list /\
      request_events (llm_tools (self s)) evs.
Proof.
  induction user_inputs as [|u rest IH]; intros s Happ.
  - exists s, [], []. rewrite app_nil_r.
    repeat split; auto using same_setup_refl.
  - destruct (invoke_frozen [("input", u)] s Happ)
      as (s1 & output & evs1 & Hrun1 & Hsame1 & Ht1 & Hev1).
    pose proof Hsame1 as (Ha1 & Hm1 & Htl1 & Hl1).
    assert (Happ1 : app (self s1) = true) by congruence.
    destruct (IH s1 Happ1) as (s2 & outputs & evs2 & Hrun2 & Hsame2 & Ht2 & Hev2).
    destruct Hsame2 as (Ha2 & Hm2 & Htl2 & Hl2). rewrite Hl1 in Hev2.
    exists s2, (output :: outputs), (evs1 ++ evs2)%list.
    split; [cbn [submit_all]; unfold bind; now rewrite Hrun1, Hrun2|].
    split; [repeat split; congruence|].
    split; [now rewrite Ht2, Ht1, <- app_assoc|].
    now apply request_events_app.
Qed.

End RequestFacts.

Section RequestClaims.

Variables World CallToolResult : Type.
Variable env : Env World CallToolResult.

(** X7.  With the tool list that [initialize] builds, a call whose name
    selects a tool is sent to one of the configured workers under exactly
    the name the decision client asked for, with the call's arguments. *)
Theorem call_is_routed_under_requested_name
  (s0 s : St World) (tc : ToolCall) (t : StructuredTool) :
  tools (self s) = tools (self (fst (initialize env s0))) ->
  select_tool (tools (self s)) (call_name tc) = Some t ->
  exists s' result server_file,
    execute_tool_call env tc s = (s', Ok result) /\
    In server_file server_files /\
    tool_invocations (trace s')
    = (tool_invocations (trace s)
       ++ [(abspath env server_file, call_name tc, call_args tc)])%list.
Proof.
  intros Htools Hsel.
  destruct (initialize_run env s0) as (s1 & Hinit & _ & _ & _ & _ & Hown & _).
  rewrite Hinit in Htools. cbn [fst] in Htools.
  destruct (select_tool_name _ _ Hsel) as [Hin Hname].
  rewrite Htools in Hin. destruct (Hown t Hin) as (file & w & w1 & Hfile & Hco & _).
  destruct (execute_tool_call_runs env tc s) as (s' & result & Hrun & Hcall).
  exists s', result, file. split; [exact Hrun|]. split; [exact Hfile|].
  destruct Hcall as [Hnone|t' w' r Hsel' Hw|t' w' e Hsel' Hw]; [congruence| |];
    rewrite Hsel in Hsel'; injection Hsel' as <-; cbn [trace];
    rewrite tool_invocations_app, Hco, Hname; reflexivity.
Qed.

(** X8.  When the [try] block of [invoke] returns an output, the last
    message of the recorded history is an assistant message without tool
    calls, and the output is the text read off that message's content. *)
Theorem reply_is_text_of_final_answer
  (init : list BaseMessage) (s s' : St World) (output : string) :
  conversation_history (self s) = init ->
  invoke_try env init s = (s', Ok output) ->
  exists m,
    last_message (conversation_history (self s')) = Some (AI m) /\
    tool_calls m = [] /\
    output_text_of (ai_content m) = Ok output.
Proof.
  intros Hhist Hrun. unfold invoke_try, ainvoke in Hrun. unfold bind at 1 in Hrun.
  destruct (run_graph env (recursion_limit env) agent_node init s) as [s1 [final|e]] eqn:Hgraph;
    [|discriminate].
  destruct (run_graph_spec env _ _ _ _ Hgraph) as (Hself & _).
  destruct (run_graph_effects env _ _ _ _ Hgraph) as (evs & _ & _ & Hfinal).
  destruct (Hfinal final eq_refl) as (new & -> & (m & Hlast & Hcalls) & _).
  unfold bind at 1 in Hrun. rewrite Hlast in Hrun.
  unfold bind, ret, get_self, set_self, lift in Hrun. cbv beta in Hrun.
  rewrite Hself, Hhist, skipn_length_app in Hrun. cbn [message_content] in Hrun.
  destruct (output_text_of (ai_content m)) as [text|e] eqn:Htext; [|discriminate].
  injection Hrun as <- <-. exists m. cbn [self conversation_history]. auto.
Qed.

(** X9.  When the graph raises during a request on an initialized
    executor (the decision client fails, a node fails, the recursion limit
    is reached), [invoke] still returns: the output is the error text for
    that exception, one error line is logged, and the recorded history is
    the earlier history with only the user's message added; the assistant
    and tool messages of the failed turn are not recorded. *)
Theorem failed_turn_keeps_only_user_message
  (inputs : Py.dict string) (s s3 : St World) (e : exn) :
  app (self s) = true ->
  ainvoke env (conversation_history (self s) ++ [HumanMessage (Py.get_or inputs "input" "")])
          (submitted s (Py.get_or inputs "input" "")) = (s3, Raise e) ->
  invoke env inputs s
  = (mkSt (world s3) (self s3)
          (trace s3 ++ [EvLog ("[Error] LangGraph Error: " ++ exc_str e)]),
     Ok (reported_error e)) /\
  conversation_history (self s3)
  = (conversation_history (self s) ++ [HumanMessage (Py.get_or inputs "input" "")])%list.
Proof.
  intros Happ Hgraph. rewrite (invoke_initialized env inputs s Happ).
  unfold try_except, invoke_try. unfold bind at 1. rewrite Hgraph. split.
  - unfold invoke_except, reported_error, bind, log_callback, emit, ret.
    destruct (Py.str_contains "404" (exc_str e)
              || Py.str_contains "not found" (Py.lower (exc_str e))); reflexivity.
  - unfold ainvoke in Hgraph.
    destruct (run_graph_spec env _ _ _ _ Hgraph) as (Hself & _). now rewrite Hself.
Qed.

(** X10.  When the graph returns but the text of the final message cannot
    be read (a part's ['text'] is not a string, so joining the parts
    raises), [invoke] returns the error text for that exception although
    the turn has been recorded: the history holds every message of the
    final state. *)
Theorem unreadable_answer_is_recorded
  (inputs : Py.dict string) (s s3 : St World)
  (final : list BaseMessage) (last : BaseMessage) (e : exn) :
  app (self s) = true ->
  ainvoke env (conversation_history (self s) ++ [HumanMessage (Py.get_or inputs "input" "")])
          (submitted s (Py.get_or inputs "input" "")) = (s3, Ok final) ->
  last_message final = Some last ->
  output_text_of (message_content last) = Raise e ->
  exists s',
    invoke env inputs s = (s', Ok (reported_error e)) /\
    conversation_history (self s') = final.
Proof.
  intros Happ Hgraph Hlast Htext. rewrite (invoke_initialized env inputs s Happ).
  unfold try_except, invoke_try. unfold bind at 1. rewrite Hgraph.
  unfold bind at 1. rewrite Hlast.
  unfold bind, ret, get_self, set_self, lift. cbv beta. rewrite Htext.
  unfold ainvoke in Hgraph.
  destruct (run_graph_spec env _ _ _ _ Hgraph) as (Hself & _ & Hfinal).
  destruct (Hfinal final eq_refl) as (new & -> & _).
  rewrite Hself. cbn [submitted self conversation_history]. rewrite skipn_length_app.
  eexists. split.
  - unfold invoke_except, reported_error, bind, log_callback, emit, ret.
    destruct (Py.str_contains "404" (exc_str e)
              || Py.str_contains "not found" (Py.lower (exc_str e))); reflexivity.
  - destruct (Py.str_contains "404" (exc_str e)
              || Py.str_contains "not found" (Py.lower (exc_str e))); reflexivity.
Qed.

(** X11.  Over any sequence of requests on an initialized executor, no
    worker is started or asked for its tools again, the compiled graph, the
    registered clients, the tool list and the bound catalogue stay as they
    are, and every query to the model is made with that catalogue. *)
Theorem initialized_executor_is_frozen (user_inputs : list string) (s : St World) :
  app (self s) = true ->
  exists s' outputs evs,
    submit_all env user_inputs s = (s', Ok outputs) /\
    same_setup (self s) (self s') /\
    trace s' = (trace s ++ evs)%list /\
    worker_starts evs = [] /\
    worker_listings evs = [] /\
    Forall (eq (llm_tools (self s))) (bound_catalogues evs).
Proof.
  intros Happ.
  destruct (submit_all_frozen env user_inputs s Happ)
    as (s' & outputs & evs & Hrun & Hsame & Ht & Hs & Hl & Hb).
  exists s', outputs, evs. repeat split; solve [assumption | apply Hsame].
Qed.

(** X12.  Over a session that starts on an executor that is not
    initialized, the first request initializes it and no later one does:
    each configured worker is started exactly once, in the configured
    order, and every query to the model is made with the one catalogue
    built then. *)
Theorem workers_are_started_once_per_session
  (user_input : string) (user_inputs : list string) (s : St World) :
  app (self s) = false ->
  exists s' outputs evs,
    submit_all env (user_input :: user_inputs) s = (s', Ok outputs) /\
    trace s' = (trace s ++ evs)%list /\
    worker_starts evs = map (abspath env) server_files /\
    Forall (eq (llm_tools (self s'))) (bound_catalogues evs).
Proof.
  intros Happ.
  destruct (initialize_starts env s) as (s1 & evs0 & Hinit & Ht0 & Hs0).
  destruct (initialize_run env s) as (s1' & Hinit' & Happ1 & _ & _ & (evs0' & Ht0' & Hq0) & _).
  rewrite Hinit in Hinit'. injection Hinit' as <-.
  assert (Hb0 : bound_catalogues evs0 = []).
  { rewrite Ht0 in Ht0'. apply app_inv_head in Ht0'. subst evs0'.
    clear - Hq0. induction evs0 as [|ev evs0 IH]; [reflexivity|].
    destruct ev; simpl in *; auto; discriminate. }
  destruct (submit_all_frozen env (user_input :: user_inputs) s1 Happ1)
    as (s' & outputs & evs & Hrun & Hsame & Ht & Hs & Hl & Hb).
  exists s', outputs, (evs0 ++ evs)%list.
  split; [|split; [|split]].
  - cbn [submit_all] in *. unfold bind in *.
    now rewrite (invoke_uninitialized env [("input", user_input)] s Happ Hinit).
  - now rewrite Ht, Ht0, <- app_assoc.
  - now rewrite worker_starts_app, Hs0, Hs, app_nil_r.
  - rewrite bound_catalogues_app, Hb0. cbn [List.app].
    destruct Hsame as (_ & _ & _ & Hllm). now rewrite Hllm.
Qed.

(** X13.  When a run of the graph returns, the tools invoked during the
    run are exactly the calls that the assistant messages added by the run
    ask for and whose name selects a tool, each once and in the order
    asked: no tool is invoked that the decision client did not request. *)
Theorem only_requested_tools_are_invoked
  (init final : list BaseMessage) (s s' : St World) :
  ainvoke env init s = (s', Ok final) ->
  exists new evs,
    final = (init ++ new)%list /\
    trace s' = (trace s ++ evs)%list /\
    tool_invocations evs = invocations_of (tools (self s)) (requested_calls new).
Proof.
  intros Hrun. unfold ainvoke in Hrun.
  destruct (run_graph_effects env _ _ _ _ Hrun) as (evs & Ht & _ & Hfinal).
  destruct (Hfinal final eq_refl) as (new & -> & _ & Hinv).
  exists new, evs. auto.
Qed.

End RequestClaims.

(** X7 at the call of [get_heavy_processes]. *)
Lemma call_is_routed_under_requested_name_witness :
  exists s' result server_file,
    execute_tool_call Demo.env Demo.heavy_call Demo.ready = (s', Ok result) /\
    In server_file server_files /\
    tool_invocations (trace s')
    = (tool_invocations (trace Demo.ready)
       ++ [(Demo.abspath server_file, "get_heavy_processes",
            [("count", JNum 3); ("verbose", JBool true)])])%list.
Proof.
  refine (@call_is_routed_under_requested_name nat string Demo.env
            Demo.start Demo.ready Demo.heavy_call Demo.heavy_tool _ _);
    vm_compute; reflexivity.
Defined.

(** X8 at the first request of a session with the scripted client. *)
Lemma reply_is_text_of_final_answer_witness :
  exists m,
    last_message
      (conversation_history
         (self (fst (invoke_try Demo.env Cases.first_request
                       (submitted Demo.ready "check my pc")))))
    = Some (AI m) /\
    tool_calls m = [] /\
    output_text_of (ai_content m) = Ok "System is very clean.".
Proof.
  refine (@reply_is_text_of_final_answer nat string Demo.env
            Cases.first_request (submitted Demo.ready "check my pc")
            (fst (invoke_try Demo.env Cases.first_request (submitted Demo.ready "check my pc")))
            "System is very clean." _ _);
    vm_compute; reflexivity.
Defined.

(** X9 at a client that never stops asking for tools: the recursion limit
    ends the turn after tools have been invoked, and none of it is
    recorded. *)
Lemma failed_turn_keeps_only_user_message_witness :
  tool_invocations
    (trace (fst (ainvoke Cases.env_endless Cases.first_request
                   (submitted Cases.ready_endless "check my pc")))) <> [] /\
  snd (invoke Cases.env_endless [("input", "check my pc")] Cases.ready_endless)
  = Ok "An error occurred: Recursion limit reached without hitting a stop condition" /\
  conversation_history
    (self (fst (ainvoke Cases.env_endless Cases.first_request
                  (submitted Cases.ready_endless "check my pc"))))
  = Cases.first_request.
Proof.
  split; [vm_compute; discriminate|].
  assert (Happ : app (self Cases.ready_endless) = true) by (vm_compute; reflexivity).
  assert (Hgraph : ainvoke Cases.env_endless
                     (conversation_history (self Cases.ready_endless)
                      ++ [HumanMessage (Py.get_or [("input", "check my pc")] "input" "")])
                     (submitted Cases.ready_endless
                        (Py.get_or [("input", "check my pc")] "input" ""))
                   = (fst (ainvoke Cases.env_endless Cases.first_request
                             (submitted Cases.ready_endless "check my pc")),
                      Raise recursion_error)) by (vm_compute; reflexivity).
  destruct (@failed_turn_keeps_only_user_message nat string Cases.env_endless
              [("input", "check my pc")] Cases.ready_endless _ _ Happ Hgraph) as [Hrun Hhist].
  split; [rewrite Hrun; vm_compute; reflexivity | rewrite Hhist; vm_compute; reflexivity].
Defined.

(** X10 at an answer with a part whose text is a number. *)
Lemma unreadable_answer_is_recorded_witness :
  exists s',
    invoke Cases.env_odd [("input", "check my pc")] Cases.ready_odd
    = (s', Ok (reported_error join_error)) /\
    conversation_history (self s') = (Cases.first_request ++ [AI Cases.odd_answer])%list.
Proof.
  refine (@unreadable_answer_is_recorded nat string Cases.env_odd
            [("input", "check my pc")] Cases.ready_odd
            (fst (ainvoke Cases.env_odd Cases.first_request
                    (submitted Cases.ready_odd "check my pc")))
            (Cases.first_request ++ [AI Cases.odd_answer])%list
            (AI Cases.odd_answer) join_error _ _ _ _);
    vm_compute; reflexivity.
Defined.

(** X11 at two requests on the initialized deployment. *)
Lemma initialized_executor_is_frozen_witness :
  exists s' outputs evs,
    submit_all Demo.env ["check my pc"; "again"] Demo.ready = (s', Ok outputs) /\
    same_setup (self Demo.ready) (self s') /\
    trace s' = (trace Demo.ready ++ evs)%list /\
    worker_starts evs = [] /\
    worker_listings evs = [] /\
    Forall (eq [Demo.cpu_tool; Demo.heavy_tool; Demo.kill_tool]) (bound_catalogues evs).
Proof.
  refine (@initialized_executor_is_frozen nat string Demo.env
            ["check my pc"; "again"] Demo.ready _);
    vm_compute; reflexivity.
Defined.

(** X12 at a session of two requests. *)
Lemma workers_are_started_once_per_session_witness :
  exists s' outputs evs,
    submit_all Demo.env ["check my pc"; "again"] Demo.start = (s', Ok outputs) /\
    trace s' = (trace Demo.start ++ evs)%list /\
    worker_starts evs
    = ["/srv/computer_info_server.py"; "/srv/security_server.py";
       "/srv/maintenance_server.py"] /\
    Forall (eq (llm_tools (self s'))) (bound_catalogues evs).
Proof.
  refine (@workers_are_started_once_per_session nat string Demo.env
            "check my pc" ["again"] Demo.start _);
    vm_compute; reflexivity.
Defined.

(** X13 at the first request of a session with the scripted client. *)
Lemma only_requested_tools_are_invoked_witness :
  exists new evs,
    match snd (ainvoke Demo.env Cases.first_request (submitted Demo.ready "check my pc")) with
    | Ok final => final
    | Raise _ => []
    end = (Cases.first_request ++ new)%list /\
    trace (fst (ainvoke Demo.env Cases.first_request (submitted Demo.ready "check my pc")))
    = (trace (submitted Demo.ready "check my pc") ++ evs)%list /\
    tool_invocations evs
    = invocations_of [Demo.cpu_tool; Demo.heavy_tool; Demo.kill_tool] (requested_calls new).
Proof.
  refine (@only_requested_tools_are_invoked nat string Demo.env
            Cases.first_request
            match snd (ainvoke Demo.env Cases.first_request
                         (submitted Demo.ready "check my pc")) with
            | Ok final => final
            | Raise _ => []
            end
            (submitted Demo.ready "check my pc")
            (fst (ainvoke Demo.env Cases.first_request (submitted Demo.ready "check my pc")))
            _);
    vm_compute; reflexivity.
Defined.

(* ===================================================================== *)
(** ** Tool names declared twice *)
(* ===================================================================== *)

(** A name that a tool of the list carries selects some tool. *)
Lemma select_tool_registered (tools : list StructuredTool) (t : StructuredTool) :
  In t tools -> exists t', select_tool tools (tool_name t) = Some t'.
Proof.
  unfold select_tool. induction tools as [|t0 tools IH]; intros Hin; [contradiction|].
  simpl. destruct (String.eqb (tool_name t0) (tool_name t)) eqn:E; [eauto|].
  destruct Hin as [->|Hin]; [|auto]. now rewrite String.eqb_refl in E.
Qed.

(** Setup steps keep what was logged. *)
Lemma setup_step_logged {World} (s s' : St World) (line : string) :
  setup_step s s' -> In line (log_lines (trace s)) -> In line (log_lines (trace s')).
Proof.
  intros (_ & _ & _ & _ & evs & -> & _) Hin. rewrite log_lines_app.
  apply in_or_app. now left.
Qed.

Section RegistrationClaims.

Variables World CallToolResult : Type.
Variable env : Env World CallToolResult.

(** The loop of [initialize] over two runs of workers. *)
Lemma connect_servers_app (files1 files2 : list string) :
  forall (tools0 : list StructuredTool) (s : St World),
    connect_servers env (files1 ++ files2) tools0 s
    = match connect_servers env files1 tools0 s with
      | (s1, Ok tools1) => connect_servers env files2 tools1 s1
      | (s1, Raise e) => (s1, Raise e)
      end.
Proof.
  induction files1 as [|file files1 IH]; intros tools0 s; [reflexivity|].
  cbn [List.app connect_servers]. unfold bind.
  destruct (connect_server env file tools0 s) as [s1 [tools1|e]]; [apply IH | reflexivity].
Qed.

(** A worker that starts and lists [infos] gets its tools appended and is
    logged as connected. *)
Lemma connect_server_serves (server_file : string) (infos : list tool_info)
  (server_tools tools0 : list StructuredTool) (s : St World) :
  serves env server_file infos ->
  build_tools (abspath env server_file) infos [] = Ok server_tools ->
  exists s',
    connect_server env server_file tools0 s = (s', Ok (tools0 ++ server_tools)%list) /\
    setup_step s s' /\
    In (connected_line server_file server_tools) (log_lines (trace s')).
Proof.
  intros Hserves Hbuild.
  destruct (connect_server_run env server_file tools0 s) as (s' & ts & Hrun & Hcontrib & Hstep).
  pose proof (server_contributes_serves Hcontrib Hserves Hbuild) as ->.
  exists s'. split; [exact Hrun|]. split; [exact Hstep|].
  destruct Hserves as [Hstart Hlist].
  destruct (Hstart (world s)) as [w1 Hc]. destruct (Hlist w1) as [w2 Hl].
  revert Hrun.
  unfold connect_server, connect, get_tools, try_except, external, get_self,
    set_self, log_callback, emit, lift, raise, bind, ret. simpl.
  rewrite Hc. simpl. rewrite Hl. simpl. rewrite Hbuild. simpl.
  intros [= <-]. cbn [trace]. rewrite !log_lines_app. simpl.
  apply in_or_app. right. now left.
Qed.

(** The loop of [initialize] over a configuration in which two workers
    start and list their tools. *)
Lemma connect_servers_two (pre mid post : list string) (file1 file2 : string)
  (infos1 infos2 : list tool_info) (tools1 tools2 : list StructuredTool) (s : St World) :
  serves env file1 infos1 ->
  serves env file2 infos2 ->
  build_tools (abspath env file1) infos1 [] = Ok tools1 ->
  build_tools (abspath env file2) infos2 [] = Ok tools2 ->
  exists s' before between after,
    connect_servers env (pre ++ file1 :: mid ++ file2 :: post) [] s
    = (s', Ok (before ++ tools1 ++ between ++ tools2 ++ after)%list) /\
    In (connected_line file2 tools2) (log_lines (trace s')).
Proof.
  intros Hs1 Hs2 Hb1 Hb2.
  destruct (connect_servers_run env pre [] s) as (sa & before & Hra & _).
  destruct (connect_server_serves ([] ++ before) sa Hs1 Hb1) as (sb & Hrb & _).
  destruct (connect_servers_run env mid (([] ++ before) ++ tools1) sb)
    as (sc & between & Hrc & _).
  destruct (connect_server_serves (((([] ++ before) ++ tools1) ++ between)) sc Hs2 Hb2)
    as (sd & Hrd & _ & Hlog).
  destruct (connect_servers_run env post (((([] ++ before) ++ tools1) ++ between) ++ tools2) sd)
    as (se & after & Hre & Hstep & _).
  exists se, before, between, after. split.
  - rewrite connect_servers_app, Hra. cbn [connect_servers]. unfold bind at 1. rewrite Hrb.
    rewrite connect_servers_app, Hrc. cbn [connect_servers]. unfold bind at 1. rewrite Hrd.
    rewrite Hre. cbn [List.app]. now rewrite <- !app_assoc.
  - eapply setup_step_logged; eauto.
Qed.

(** C2, as amended.  When two configured workers start and list their
    tools, and a tool of the later one carries the name of a tool of the
    earlier one, registration does not fail: [initialize] completes, the
    later worker is logged as connected with all its tools, the tool list
    holds the tools of both workers, those of the earlier one first, and it
    is the catalogue bound to the decision client, so both same-named tools
    are in it; and the name selects in the whole list the tool it selected
    when the earlier worker had just been registered. *)
Theorem duplicate_name_keeps_first_registration
  (pre mid post : list string) (file1 file2 : string)
  (infos1 infos2 : list tool_info) (tools1 tools2 : list StructuredTool)
  (t1 t2 : StructuredTool) (s : St World) :
  server_files = (pre ++ file1 :: mid ++ file2 :: post)%list ->
  serves env file1 infos1 ->
  serves env file2 infos2 ->
  build_tools (abspath env file1) infos1 [] = Ok tools1 ->
  build_tools (abspath env file2) infos2 [] = Ok tools2 ->
  In t1 tools1 ->
  In t2 tools2 ->
  tool_name t1 = tool_name t2 ->
  exists s' before between after,
    initialize env s = (s', Ok tt) /\
    In (connected_line file2 tools2) (log_lines (trace s')) /\
    tools (self s') = (before ++ tools1 ++ between ++ tools2 ++ after)%list /\
    llm_tools (self s') = tools (self s') /\
    In t1 (llm_tools (self s')) /\
    In t2 (llm_tools (self s')) /\
    exists t,
      select_tool (before ++ tools1) (tool_name t2) = Some t /\
      select_tool (tools (self s')) (tool_name t2) = Some t.
Proof.
  intros Hfiles Hs1 Hs2 Hb1 Hb2 Hin1 Hin2 Hname.
  unfold initialize, bind, log_callback, emit, get_self, set_self, ret. cbv beta.
  rewrite Hfiles.
  match goal with
  | |- context [connect_servers env _ [] ?s0] =>
      destruct (connect_servers_two pre mid post s0 Hs1 Hs2 Hb1 Hb2)
        as (s1 & before & between & after & Hrun & Hlog)
  end.
  rewrite Hrun. eexists _, before, between, after.
  split; [reflexivity|]. cbn [self trace tools llm_tools].
  split; [rewrite log_lines_app; apply in_or_app; now left|].
  split; [reflexivity|]. split; [reflexivity|].
  split; [apply in_or_app; right; apply in_or_app; now left|].
  split; [do 3 (apply in_or_app; right); apply in_or_app; now left|].
  destruct (@select_tool_registered (before ++ tools1) t1) as [t Hsel];
    [apply in_or_app; now right|].
  rewrite Hname in Hsel. exists t. split; [exact Hsel|].
  rewrite app_assoc. now apply select_tool_app.
Qed.

End RegistrationClaims.

(** C2 as the claim states it fails: two workers declare
    [get_active_connections]; [initialize] completes, the second
    registration is in the tool list and in the catalogue bound to the
    decision client, next to the first, and the log reports three
    successful connections and no error. *)
Lemma duplicate_tool_name_is_registered :
  snd (initialize Demo.env_dup Demo.start_dup) = Ok tt /\
  tools (self (fst (initialize Demo.env_dup Demo.start_dup)))
    = [Demo.connections_tool "computer_info_server.py";
       Demo.connections_tool "security_server.py";
       Demo.heavy_tool] /\
  llm_tools (self (fst (initialize Demo.env_dup Demo.start_dup)))
    = [Demo.connections_tool "computer_info_server.py";
       Demo.connections_tool "security_server.py";
       Demo.heavy_tool] /\
  tool_name (Demo.connections_tool "computer_info_server.py")
    = tool_name (Demo.connections_tool "security_server.py") /\
  trace (fst (initialize Demo.env_dup Demo.start_dup))
    = [EvLog "[System] Connecting to MCP Servers...";
       EvConnect "/srv/computer_info_server.py";
       EvListTools "/srv/computer_info_server.py";
       EvLog "[System] Connected to computer_info_server.py (1 tools)";
       EvConnect "/srv/security_server.py";
       EvListTools "/srv/security_server.py";
       EvLog "[System] Connected to security_server.py (1 tools)";
       EvConnect "/srv/maintenance_server.py";
       EvListTools "/srv/maintenance_server.py";
       EvLog "[System] Connected to maintenance_server.py (1 tools)";
       EvLog "[System] Agent initialized with MCP tools."].
Proof. repeat split. Qed.

(** C2 as amended, at the deployment whose first two workers declare
    [get_active_connections]. *)
Lemma duplicate_name_keeps_first_registration_witness :
  exists s' before between after,
    initialize Demo.env_dup Demo.start_dup = (s', Ok tt) /\
    In (connected_line "security_server.py" [Demo.connections_tool "security_server.py"])
       (log_lines (trace s')) /\
    tools (self s')
    = (before ++ [Demo.connections_tool "computer_info_server.py"] ++ between
       ++ [Demo.connections_tool "security_server.py"] ++ after)%list /\
    llm_tools (self s') = tools (self s') /\
    In (Demo.connections_tool "computer_info_server.py") (llm_tools (self s')) /\
    In (Demo.connections_tool "security_server.py") (llm_tools (self s')) /\
    exists t,
      select_tool (before ++ [Demo.connections_tool "computer_info_server.py"])
                  "get_active_connections" = Some t /\
      select_tool (tools (self s')) "get_active_connections" = Some t.
Proof.
  apply (@duplicate_name_keeps_first_registration nat string Demo.env_dup
           [] [] ["maintenance_server.py"] "computer_info_server.py" "security_server.py"
           [Demo.get_active_connections] [Demo.get_active_connections]
           [Demo.connections_tool "computer_info_server.py"]
           [Demo.connections_tool "security_server.py"]
           (Demo.connections_tool "computer_info_server.py")
           (Demo.connections_tool "security_server.py") Demo.start_dup);
    try reflexivity; try (now left); split; intros w; exists w; reflexivity.
Defined.

(* ===================================================================== *)
(** ** What a request records *)
(* ===================================================================== *)

Section HistoryClaims.

Variables World CallToolResult : Type.
Variable env : Env World CallToolResult.

(** A run of the graph that returns has added the messages of the turn:
    from [agent], the whole turn; from [tools], the observations of the
    waiting calls and then the rest of the turn. *)
Lemma run_graph_turn (fuel : nat) :
  forall (n : node) (messages : list BaseMessage) (s s' : St World) final,
    run_graph env fuel n messages s = (s', Ok final) ->
    match n with
    | agent_node =>
        exists new, final = (messages ++ new)%list /\ turn_adds env messages s s' new
    | tools_node =>
        forall m, last_message messages = Some (AI m) ->
          exists s1 results rest,
            calls_run env (tool_calls m) s s1 results /\
            final = ((messages ++ map Tool results) ++ rest)%list /\
            turn_adds env (messages ++ map Tool results) s1 s' rest
    end.
Proof.
  induction fuel as [|fuel IH]; intros n messages s s' final Hrun; [discriminate|].
  destruct n; cbn [run_graph] in Hrun; unfold bind at 1 in Hrun.
  - rewrite call_model_run in Hrun.
    destruct (model_ainvoke env (llm_tools (self s)) messages (world s))
      as [w' [response|e]] eqn:Hmodel; [|discriminate].
    unfold bind at 1 in Hrun. rewrite should_continue_run in Hrun.
    destruct (tool_calls response) as [|tc tcs] eqn:Hcalls.
    + destruct fuel; [discriminate|]. injection Hrun as <- <-.
      exists [AI response]. split; [reflexivity|]. now apply turn_answers.
    + apply IH in Hrun.
      destruct (Hrun response (last_message_snoc _ _)) as (s1 & results & rest & Hc & -> & Hrest).
      exists (AI response :: map Tool results ++ rest)%list. split.
      * now rewrite <- !app_assoc.
      * apply turn_calls_tools with (w' := w') (s1 := s1);
          [exact Hmodel | rewrite Hcalls; discriminate | | exact Hrest].
        unfold detected_calls, asked_model. rewrite Hcalls in *. exact Hc.
  - destruct (execute_tools env messages s) as [s1 [update|e]] eqn:Htools; [|discriminate].
    destruct (@execute_tools_ok _ _ env messages update s s1 Htools)
      as (m' & results & Hlast & -> & Hcalls).
    apply IH in Hrun. destruct Hrun as (rest & -> & Hrest).
    intros m Hm. rewrite Hlast in Hm. injection Hm as <-.
    exists s1, results, rest. auto.
Qed.

(** [invoke] goes on from the initialized state. *)
Lemma invoke_from_initialized (inputs : Py.dict string) (s : St World) :
  app (self (initialized env s)) = true /\
  conversation_history (self (initialized env s)) = conversation_history (self s) /\
  invoke env inputs s = invoke env inputs (initialized env s).
Proof.
  unfold initialized. destruct (app (self s)) eqn:Happ; [auto|].
  destruct (initialize_run env s) as (s1 & Hinit & Happ1 & _ & Hh & _).
  rewrite Hinit. cbn [fst]. split; [exact Happ1|]. split; [exact Hh|].
  now apply invoke_uninitialized.
Qed.

(** The history [invoke] leaves, by the outcome of the graph: the final
    state of a run that returns, and the history with the user's message
    when the run raises. *)
Lemma invoke_history (inputs : Py.dict string) (s : St World) :
  match ainvoke env (conversation_history (self s)
                     ++ [HumanMessage (Py.get_or inputs "input" "")])
                (submitted (initialized env s) (Py.get_or inputs "input" "")) with
  | (_, Ok final) => conversation_history (self (fst (invoke env inputs s))) = final
  | (_, Raise _) =>
      conversation_history (self (fst (invoke env inputs s)))
      = (conversation_history (self s) ++ [HumanMessage (Py.get_or inputs "input" "")])%list
  end.
Proof.
  destruct (invoke_from_initialized inputs s) as (Happ & Hh & ->).
  rewrite (invoke_initialized env inputs _ Happ), Hh.
  set (u := Py.get_or inputs "input" "").
  destruct (ainvoke env (conversation_history (self s) ++ [HumanMessage u])
                    (submitted (initialized env s) u)) as [s3 [final|e]] eqn:Hgraph;
    unfold try_except, invoke_try; unfold bind at 1; rewrite Hgraph;
    unfold ainvoke in Hgraph;
    destruct (run_graph_spec env _ _ _ _ Hgraph) as (Hself & _ & Hfinal).
  - destruct (run_graph_effects env _ _ _ _ Hgraph) as (evs & _ & _ & Hlast).
    destruct (Hlast final eq_refl) as (new & -> & (m & Hm & _) & _).
    unfold bind at 1. rewrite Hm.
    unfold bind, ret, get_self, set_self, lift. cbv beta.
    rewrite Hself. cbn [submitted self conversation_history]. rewrite Hh, skipn_length_app.
    destruct (output_text_of (message_content (AI m))) as [text|e]; [reflexivity|].
    unfold invoke_except, bind, log_callback, emit, ret.
    destruct (Py.str_contains "404" (exc_str e)
              || Py.str_contains "not found" (Py.lower (exc_str e))); reflexivity.
  - unfold invoke_except, bind, log_callback, emit, ret.
    destruct (Py.str_contains "404" (exc_str e)
              || Py.str_contains "not found" (Py.lower (exc_str e)));
      cbn [fst self]; rewrite Hself; cbn [submitted self conversation_history];
      now rewrite Hh.
Qed.

(** C8, as amended.  [invoke] always returns, and afterwards the recorded
    history is the history before, unchanged and in order, followed by the
    new user message and then only assistant and tool messages.  When the
    graph run of the request returns, these are exactly the messages of the
    turn, in the order produced: each response of the decision client,
    followed by one observation per tool call it asks for.  When the run
    raises, nothing follows the user message.  Every query to the model
    during the request carries the whole earlier history and the new user
    message as its first messages.  Over any sequence of requests the
    history only grows, by one such block per request. *)
Theorem history_is_append_only (s : St World) :
  (forall inputs,
     exists s' output new evs,
       invoke env inputs s = (s', Ok output) /\
       conversation_history (self s') =
         (conversation_history (self s)
          ++ HumanMessage (Py.get_or inputs "input" "") :: new)%list /\
       forallb is_turn_message new = true /\
       match ainvoke env (conversation_history (self s)
                          ++ [HumanMessage (Py.get_or inputs "input" "")])
                     (submitted (initialized env s) (Py.get_or inputs "input" "")) with
       | (s3, Ok final) =>
           final = (conversation_history (self s)
                    ++ HumanMessage (Py.get_or inputs "input" "") :: new)%list /\
           turn_adds env (conversation_history (self s)
                          ++ [HumanMessage (Py.get_or inputs "input" "")])
                     (submitted (initialized env s) (Py.get_or inputs "input" "")) s3 new
       | (_, Raise _) => new = []
       end /\
       trace s' = (trace s ++ evs)%list /\
       Forall (prefix_of (conversation_history (self s)
                          ++ [HumanMessage (Py.get_or inputs "input" "")]))
              (model_queries evs)) /\
  (forall user_inputs,
     exists s' outputs appended,
       submit_all env user_inputs s = (s', Ok outputs) /\
       conversation_history (self s') = (conversation_history (self s) ++ appended)%list /\
       turns_appended user_inputs appended).
Proof.
  split.
  - intros inputs.
    destruct (invoke_run env inputs s)
      as (s' & output & Hrun & new & evs & Hh & Hturn & _ & Ht & Hpre & _).
    exists s', output, new, evs.
    split; [exact Hrun|]. split; [exact Hh|]. split; [exact Hturn|].
    split; [|split; [exact Ht | exact Hpre]].
    pose proof (invoke_history inputs s) as Hrec. rewrite Hrun in Hrec. cbn [fst] in Hrec.
    destruct (ainvoke env (conversation_history (self s)
                           ++ [HumanMessage (Py.get_or inputs "input" "")])
                      (submitted (initialized env s) (Py.get_or inputs "input" "")))
      as [s3 [final|e]] eqn:Hgraph.
    + unfold ainvoke in Hgraph. apply run_graph_turn in Hgraph.
      destruct Hgraph as (new' & Hfinal & Hadds).
      rewrite Hh, Hfinal, <- app_assoc in Hrec. apply app_inv_head in Hrec.
      injection Hrec as ->. split; [now rewrite Hfinal, <- app_assoc | exact Hadds].
    + rewrite Hh in Hrec. apply app_inv_head in Hrec. now injection Hrec.
  - intros user_inputs.
    destruct (submit_all_run env user_inputs s)
      as (s' & outputs & appended & evs & Hrun & Hh & Happ & _).
    exists s', outputs, appended. auto.
Qed.

End HistoryClaims.

(** C8 as the claim states it fails: the decision client asks for three
    tools and its next call fails.  The response and the three observations
    of the turn were produced (the second query to the model carries them)
    and two workers were invoked, yet the history [invoke] leaves holds the
    user's message and nothing of the turn. *)
Lemma failed_turn_is_not_recorded :
  conversation_history (self Cases.ready_flaky)
  = [SystemMessage "You are 'Local Security Auditor'."] /\
  model_queries
    (trace (fst (invoke Cases.env_flaky [("input", "check my pc")] Cases.ready_flaky)))
  = [Cases.first_request;
     (Cases.first_request
      ++ [AI Demo.request;
          Tool (mkToolMessage "call_1" "get_cpu_info"
                  (CStr "Error executing tool get_cpu_info: timed out"));
          Tool (mkToolMessage "call_2" "get_heavy_processes"
                  (CStr "ok: get_heavy_processes"));
          Tool (mkToolMessage "call_3" "reboot"
                  (CStr "Error: Tool reboot not found."))])%list] /\
  tool_invocations
    (trace (fst (invoke Cases.env_flaky [("input", "check my pc")] Cases.ready_flaky)))
  = [("/srv/computer_info_server.py", "get_cpu_info", []);
     ("/srv/maintenance_server.py", "get_heavy_processes",
      [("count", JNum 3); ("verbose", JBool true)])] /\
  invoke Cases.env_flaky [("input", "check my pc")] Cases.ready_flaky
  = (fst (invoke Cases.env_flaky [("input", "check my pc")] Cases.ready_flaky),
     Ok "An error occurred: 429 quota exceeded") /\
  conversation_history
    (self (fst (invoke Cases.env_flaky [("input", "check my pc")] Cases.ready_flaky)))
  = Cases.first_request.
Proof. vm_compute. repeat split. Qed.

(* ===================================================================== *)
(** ** Shutdown *)
(* ===================================================================== *)

Section CleanupFacts.

Variable World : Type.
Variable aclose : string -> World -> World * outcome unit.

Lemma cleanup_clients_app (clients1 clients2 : list MCPClient) :
  forall st,
    cleanup_clients aclose (clients1 ++ clients2) st =
    match cleanup_clients aclose clients1 st with
    | (st1, Ok _) => cleanup_clients aclose clients2 st1
    | (st1, Raise e) => (st1, Raise e)
    end.
Proof.
  induction clients1 as [|client clients1 IH]; intros st; [reflexivity|].
  cbn [List.app cleanup_clients].
  destruct (client_cleanup aclose client st) as [st1 [[]|e]]; [apply IH | reflexivity].
Qed.

Lemma cleanup_clients_all (clients : list MCPClient) :
  (forall path w, exists w', aclose path w = (w', Ok tt)) ->
  forall st,
  exists w',
    cleanup_clients aclose clients st
    = ((w', snd st ++ map server_script_path clients)%list, Ok tt).
Proof.
  intros Hok. induction clients as [|client clients IH]; intros [w closed].
  - exists w. simpl. now rewrite app_nil_r.
  - cbn [cleanup_clients]. unfold client_cleanup. cbn [fst snd].
    destruct (Hok (server_script_path client) w) as [w1 ->].
    destruct (IH (w1, closed ++ [server_script_path client])%list) as [w' ->].
    exists w'. cbn [snd map]. now rewrite <- app_assoc.
Qed.

(** X14.  When every client's close returns, [cleanup] returns and has
    closed exactly the registered clients, each once, in the order of
    registration. *)
Theorem cleanup_closes_every_registered_client (a : Agent) (w : World) :
  (forall path w0, exists w', aclose path w0 = (w', Ok tt)) ->
  exists w',
    cleanup aclose a w = ((w', map server_script_path (mcp_clients a)), Ok tt).
Proof.
  intros Hok. unfold cleanup.
  destruct (cleanup_clients_all (mcp_clients a) Hok (w, [])) as [w' Hrun].
  exists w'. exact Hrun.
Qed.

(** X15.  When the close of a registered client raises, [cleanup] stops
    there and raises that exception: the clients registered before it have
    been closed, the ones registered after it are not. *)
Theorem cleanup_stops_at_first_failure
  (a : Agent) (before after : list MCPClient) (client : MCPClient)
  (w w1 w2 : World) (closed : list string) (e : exn) :
  mcp_clients a = (before ++ client :: after)%list ->
  cleanup_clients aclose before (w, []) = ((w1, closed), Ok tt) ->
  aclose (server_script_path client) w1 = (w2, Raise e) ->
  cleanup aclose a w
  = ((w2, map server_script_path before ++ [server_script_path client])%list, Raise e) /\
  closed = map server_script_path before.
Proof.
  intros Hclients Hbefore Hclose.
  assert (Hclosed : forall clients st st' r,
             cleanup_clients aclose clients st = (st', r) ->
             exists n, snd st' = (snd st ++ map server_script_path (firstn n clients))%list
                       /\ (r = Ok tt -> n = List.length clients)).
  { induction clients as [|c clients IH]; intros st st' r Hrun.
    - injection Hrun as <- <-. exists 0. simpl. now rewrite app_nil_r.
    - cbn [cleanup_clients] in Hrun. unfold client_cleanup in Hrun.
      destruct (aclose (server_script_path c) (fst st)) as [w' [[]|e']].
      + apply IH in Hrun. destruct Hrun as (n & Hsnd & Hlen). exists (S n).
        cbn [snd] in Hsnd. rewrite Hsnd. cbn [firstn map List.length].
        rewrite <- app_assoc. split; [reflexivity|]. intros Hr. f_equal. auto.
      + injection Hrun as <- <-. exists 1. simpl. destruct clients; split; auto; discriminate. }
  destruct (Hclosed _ _ _ _ Hbefore) as (n & Hsnd & Hlen).
  cbn [snd List.app] in Hsnd. rewrite (Hlen eq_refl), firstn_all in Hsnd. subst closed.
  split; [|reflexivity].
  unfold cleanup. rewrite Hclients, cleanup_clients_app, Hbefore.
  cbn [cleanup_clients]. unfold client_cleanup. cbn [fst snd]. now rewrite Hclose.
Qed.

End CleanupFacts.

(** X14 at the two clients registered by the deployment. *)
Lemma cleanup_closes_every_registered_client_witness :
  exists w',
    cleanup (fun _ w => (S w, Ok tt)) (self Demo.ready) 0
    = ((w', ["/srv/computer_info_server.py"; "/srv/maintenance_server.py"]), Ok tt).
Proof.
  refine (@cleanup_closes_every_registered_client nat (fun _ w => (S w, Ok tt))
            (self Demo.ready) 0 _).
  intros path w0. exists (S w0). reflexivity.
Defined.

(** X15 at three clients of which the second fails to close. *)
Lemma cleanup_stops_at_first_failure_witness :
  cleanup Cases.aclose (mkAgent true Cases.three_clients [] [] []) 0
  = ((2, ["/srv/a.py"; "/srv/b.py"]), Raise (mkExn "RuntimeError" "cancel scope")) /\
  ["/srv/a.py"] = map server_script_path [mkClient "/srv/a.py" true].
Proof.
  exact (@cleanup_stops_at_first_failure nat Cases.aclose
           (mkAgent true Cases.three_clients [] [] [])
           [mkClient "/srv/a.py" true] [mkClient "/srv/c.py" true] (mkClient "/srv/b.py" true)
           0 1 2 ["/srv/a.py"] (mkExn "RuntimeError" "cancel scope")
           eq_refl eq_refl eq_refl).
Defined.

(* ===================================================================== *)
(** ** The factory and the chat interface *)
(* ===================================================================== *)

Lemma last_entry_snoc (history : chat) (entry : string * option string) :
  last_entry (history ++ [entry])%list = Some entry.
Proof.
  induction history as [|x history IH]; [reflexivity|].
  simpl. rewrite IH. now destruct (history ++ [entry])%list eqn:E; [destruct history|].
Qed.

Lemma set_last_reply_snoc (history : chat) (user : string) (reply : option string)
  (output : string) :
  set_last_reply (history ++ [(user, reply)])%list output
  = (history ++ [(user, Some output)])%list.
Proof.
  induction history as [|x history IH]; [reflexivity|].
  cbn [List.app set_last_reply]. rewrite IH.
  destruct (history ++ [(user, reply)])%list eqn:E; [now destruct history|].
  now destruct x.
Qed.

Section ApplicationFacts.

Variables World CallToolResult : Type.
Variable env : Env World CallToolResult.

(** X16.  [create_agent] gives an executor exactly when one of the two
    environment variables holds a non-empty key: a non-empty
    [GOOGLE_API_KEY] is the key used whatever [GEMINI_API_KEY] is; an unset
    or empty [GOOGLE_API_KEY] falls back to a non-empty [GEMINI_API_KEY];
    otherwise the [ErrorAgent] is returned.  One line is logged either way,
    and a new executor starts uninitialized, with the system prompt as its
    whole history. *)
Theorem create_agent_picks_first_nonempty_key (environ : Py.dict string) (s : St World) :
  (forall c key,
     Py.get environ "GOOGLE_API_KEY" = Some (String c key) ->
     create_agent env environ s
     = (mkSt (world s) (new_agent env)
             (trace s ++ [EvLog "[System] Initializing LangGraph Agent with Gemini..."]),
        Ok (ExecutorObject (String c key)))) /\
  (forall c key,
     Py.get_or environ "GOOGLE_API_KEY" "" = "" ->
     Py.get environ "GEMINI_API_KEY" = Some (String c key) ->
     create_agent env environ s
     = (mkSt (world s) (new_agent env)
             (trace s ++ [EvLog "[System] Initializing LangGraph Agent with Gemini..."]),
        Ok (ExecutorObject (String c key)))) /\
  (Py.get_or environ "GOOGLE_API_KEY" "" = "" ->
   Py.get_or environ "GEMINI_API_KEY" "" = "" ->
   create_agent env environ s
   = (mkSt (world s) (self s)
           (trace s ++ [EvLog "[System] API Key missing. Please set GOOGLE_API_KEY in .env"]),
      Ok ErrorAgentObject)) /\
  app (new_agent env) = false /\
  conversation_history (new_agent env) = [SystemMessage (SYSTEM_PROMPT env)].
Proof.
  unfold create_agent, Py.get_or, py_or, bind, log_callback, emit, set_self, ret.
  split; [|split; [|split; [|split; reflexivity]]].
  - intros c key ->. reflexivity.
  - intros c key Hgoogle ->.
    destruct (Py.get environ "GOOGLE_API_KEY") as [[|c' k']|]; try discriminate; reflexivity.
  - intros Hgoogle Hgemini.
    destruct (Py.get environ "GOOGLE_API_KEY") as [[|c' k']|]; try discriminate;
      destruct (Py.get environ "GEMINI_API_KEY") as [[|c'' k'']|]; try discriminate;
      reflexivity.
Qed.

(** The executor's [invoke], awaited by [bot_response]. *)
Lemma await_invoke_executor (key user_input : string) (a : App World) :
  exists s' output,
    await_invoke env (ExecutorObject key) user_input a = (mkApp s' (AGENT a), Ok output) /\
    invoke env [("input", user_input)] (sys a) = (s', Ok output) /\
    prefix_of (trace (sys a)) (trace s').
Proof.
  destruct (invoke_run env [("input", user_input)] (sys a)) as (s' & output & Hrun & Hturn).
  exists s', output. unfold await_invoke. rewrite Hrun. split; [reflexivity|].
  split; [reflexivity|].
  destruct Hturn as (new & evs & _ & _ & _ & Ht & _). now exists evs.
Qed.

(** X17.  With an executor as the agent, [bot_response] submits the user
    text of the chat's last entry to [invoke] and puts the output into
    that same entry, leaving the entries before it as they are; the
    approval group is shown exactly when the output contains
    ["APPROVAL REQUIRED"], the scan button exactly when it is not; the logs
    returned are all lines logged so far, those of earlier requests
    first. *)
Theorem bot_response_answers_last_entry
  (environ : Py.dict string) (earlier : chat) (user_input : string) (reply : option string)
  (a a1 : App World) (key : string) :
  init_agent env environ a = (a1, Ok (ExecutorObject key)) ->
  exists a2 output,
    bot_response env environ (earlier ++ [(user_input, reply)])%list a
    = (a2, Ok ((earlier ++ [(user_input, Some output)])%list,
               Py.join newline (log_lines (trace (sys a2))),
               Py.str_contains "APPROVAL REQUIRED" output,
               negb (Py.str_contains "APPROVAL REQUIRED" output))) /\
    invoke env [("input", user_input)] (sys a1) = (sys a2, Ok output) /\
    AGENT a2 = AGENT a1 /\
    prefix_of (log_lines (trace (sys a1))) (log_lines (trace (sys a2))).
Proof.
  intros Hinit.
  destruct (await_invoke_executor key user_input a1) as (s' & output & Hawait & Hrun & Hpre).
  exists (mkApp s' (AGENT a1)), output.
  unfold bot_response. rewrite Hinit, last_entry_snoc, Hawait, set_last_reply_snoc.
  split; [reflexivity|]. split; [exact Hrun|]. split; [reflexivity|].
  destruct Hpre as [evs Hevs]. cbn [sys]. rewrite Hevs, log_lines_app.
  now exists (log_lines evs).
Qed.

(** X18.  Without a non-empty key in either variable, every
    [bot_response] on a non-empty chat raises [TypeError] (the
    [ErrorAgent]'s [invoke] returns a dictionary, which is then awaited):
    the chat gets no reply, the [ErrorAgent]'s message is never returned,
    and the [ErrorAgent] stays the agent for the following calls. *)
Theorem bot_response_without_key_raises
  (environ : Py.dict string) (history : chat) (entry : string * option string)
  (a : App World) :
  Py.get_or environ "GOOGLE_API_KEY" "" = "" ->
  Py.get_or environ "GEMINI_API_KEY" "" = "" ->
  AGENT a = None \/ AGENT a = Some ErrorAgentObject ->
  exists a',
    bot_response env environ (history ++ [entry])%list a = (a', Raise await_error) /\
    AGENT a' = Some ErrorAgentObject /\
    world (sys a') = world (sys a) /\
    self (sys a') = self (sys a).
Proof.
  intros Hgoogle Hgemini Hagent.
  assert (Hinit : exists a1, init_agent env environ a = (a1, Ok ErrorAgentObject) /\
                             AGENT a1 = Some ErrorAgentObject /\
                             world (sys a1) = world (sys a) /\ self (sys a1) = self (sys a)).
  { unfold init_agent. destruct Hagent as [Hag | Hag]; rewrite Hag.
    - unfold create_agent, Py.get_or, py_or, bind, log_callback, emit, ret in *.
      destruct (Py.get environ "GOOGLE_API_KEY") as [[|c' k']|]; try discriminate;
        destruct (Py.get environ "GEMINI_API_KEY") as [[|c'' k'']|]; try discriminate;
        eexists; repeat split.
    - exists a. auto. }
  destruct Hinit as (a1 & Hinit & Hagent1 & Hworld & Hself).
  exists a1. unfold bot_response. rewrite Hinit, last_entry_snoc.
  destruct entry as [user_input reply]. cbn [await_invoke]. auto.
Qed.

End ApplicationFacts.

(** X16 at three environments: both keys, an empty [GOOGLE_API_KEY] with a
    [GEMINI_API_KEY], and no key. *)
Lemma create_agent_picks_first_nonempty_key_witness :
  snd (create_agent Demo.env [("GOOGLE_API_KEY", "g-key"); ("GEMINI_API_KEY", "m-key")]
         Demo.start) = Ok (ExecutorObject "g-key") /\
  snd (create_agent Demo.env [("GOOGLE_API_KEY", ""); ("GEMINI_API_KEY", "m-key")]
         Demo.start) = Ok (ExecutorObject "m-key") /\
  snd (create_agent Demo.env [("GOOGLE_API_KEY", ""); ("PATH", "/usr/bin")]
         Demo.start) = Ok ErrorAgentObject.
Proof.
  split; [|split].
  - rewrite (proj1 (@create_agent_picks_first_nonempty_key nat string Demo.env
                      [("GOOGLE_API_KEY", "g-key"); ("GEMINI_API_KEY", "m-key")] Demo.start)
                   "g"%char "-key" eq_refl).
    reflexivity.
  - rewrite (proj1 (proj2 (@create_agent_picks_first_nonempty_key nat string Demo.env
                             [("GOOGLE_API_KEY", ""); ("GEMINI_API_KEY", "m-key")] Demo.start))
                   "m"%char "-key" eq_refl eq_refl).
    reflexivity.
  - rewrite (proj1 (proj2 (proj2 (@create_agent_picks_first_nonempty_key nat string Demo.env
                             [("GOOGLE_API_KEY", ""); ("PATH", "/usr/bin")] Demo.start)))
                   eq_refl eq_refl).
    reflexivity.
Defined.

(** X17 at a chat with one earlier exchange, after [user_message]. *)
Lemma bot_response_answers_last_entry_witness :
  exists a2 output,
    bot_response Demo.env [("GOOGLE_API_KEY", "g-key")]
      (snd (user_message "check my pc" [("hello", Some "hi")]))
      (Cases.fresh_app Demo.start)
    = (a2, Ok ([("hello", Some "hi"); ("check my pc", Some output)],
               Py.join newline (log_lines (trace (sys a2))),
               Py.str_contains "APPROVAL REQUIRED" output,
               negb (Py.str_contains "APPROVAL REQUIRED" output))) /\
    invoke Demo.env [("input", "check my pc")]
      (sys (fst (init_agent Demo.env [("GOOGLE_API_KEY", "g-key")]
                   (Cases.fresh_app Demo.start))))
    = (sys a2, Ok output) /\
    AGENT a2 = Some (ExecutorObject "g-key") /\
    prefix_of
      (log_lines (trace (sys (fst (init_agent Demo.env [("GOOGLE_API_KEY", "g-key")]
                                     (Cases.fresh_app Demo.start))))))
      (log_lines (trace (sys a2))).
Proof.
  exact (@bot_response_answers_last_entry nat string Demo.env
           [("GOOGLE_API_KEY", "g-key")] [("hello", Some "hi")] "check my pc" None
           (Cases.fresh_app Demo.start)
           (fst (init_agent Demo.env [("GOOGLE_API_KEY", "g-key")]
                   (Cases.fresh_app Demo.start)))
           "g-key" eq_refl).
Defined.

(** X18 at the first message of a chat, with no key in the environment. *)
Lemma bot_response_without_key_raises_witness :
  exists a',
    bot_response Demo.env [("PATH", "/usr/bin")]
      (snd (user_message "check my pc" [])) (Cases.fresh_app Demo.start)
    = (a', Raise await_error) /\
    AGENT a' = Some ErrorAgentObject /\
    world (sys a') = 0 /\
    self (sys a') = new_agent Demo.env.
Proof.
  exact (@bot_response_without_key_raises nat string Demo.env
           [("PATH", "/usr/bin")] [] ("check my pc", None) (Cases.fresh_app Demo.start)
           eq_refl eq_refl (or_introl eq_refl)).
Defined.
